(** * The ledger engine of [blockchain/local_chain.py], embedded in Rocq

    The development follows the Python class [LocalBlockchain]:

    - Python values as they come out of [json.load] (type [value]);
    - the library functions the class calls: [hashlib.sha256] (implemented
      here bit for bit, so that digests can be computed), [json.dumps] with
      [sort_keys=True], [int], [str] / f-string formatting, [==], truth value;
    - the RSA-PSS signature of the [cryptography] package, kept abstract
      behind the class [Signer];
    - the methods of [LocalBlockchain], with the file [chain.json] and the
      node passed explicitly; a call ends in a result, in an exception that
      nobody catches, or (the mining loop, run on fuel) in no result yet;
    - around the ledger: the steps of [aml/pipeline.py] that come before the
      model is asked, the transactions of the simulator of [app.py] and the
      receipt that [app.py] writes into the last block, the risk heuristic
      and [recent] of [transaction_fraud_checker.py];
    - Python floats, where the code computes with them ([float], [+], [-],
      [>]): IEEE 754 binary64, as [spec_float] of the Standard Library.

    Modelling boundaries.  Python strings are Rocq [string]s whose characters
    are the code points 0..255.  JSON numbers are Python [int]s: float leaves
    are not part of [value] (floats are computed, not stored).  Limits of the
    interpreter (memory, the largest
    size of a sequence, recursion depth, the 4300-digit cap of [int]/[str]
    conversions) are not modelled: integers and texts are unbounded. *)

From Stdlib Require Import ZArith List String Ascii Bool Lia Arith.
From Stdlib Require Import Permutation DecimalString SpecFloat.
Import ListNotations.
Local Open Scope string_scope.
Local Open Scope Z_scope.

(* ================================================================== *)
(** * Part I: definitions *)
(* ================================================================== *)

(** ** Outcomes *)

(** What running a piece of Python gives: a result, an exception that nobody
    catches, or (for the mining loop, which is run on fuel) no result yet. *)
Inductive outcome (A : Type) : Type :=
| Ok (a : A)
| Raise
| Timeout.
Arguments Ok {A} a.
Arguments Raise {A}.
Arguments Timeout {A}.

Definition bind {A B} (m : outcome A) (k : A -> outcome B) : outcome B :=
  match m with
  | Ok a => k a
  | Raise => Raise
  | Timeout => Timeout
  end.

Declare Scope py_scope.
Delimit Scope py_scope with py.
Notation "'do' x <- m ; k" := (bind m (fun x => k))
  (at level 10, x name, m at level 100, k at level 200) : py_scope.
Local Open Scope py_scope.

(** ** Characters and bytes *)

Definition code (c : ascii) : Z := Z.of_nat (nat_of_ascii c).
Definition chr (z : Z) : ascii := ascii_of_nat (Z.to_nat z).

(** [str.encode()]: UTF-8 of a string of code points below 256. *)
Definition utf8_char (c : ascii) : list Z :=
  let n := code c in
  if n <? 128 then [n]
  else [Z.lor 192 (Z.shiftr n 6); Z.lor 128 (Z.land n 63)].

Definition encode (s : string) : list Z :=
  flat_map utf8_char (list_ascii_of_string s).

Definition hex_digit (z : Z) : ascii :=
  if z <? 10 then chr (48 + z) else chr (87 + z).

Definition dquote : ascii := chr 34.
Definition backslash : ascii := chr 92.
Definition esc (c : ascii) : string := String backslash (String c EmptyString).

(** ** hashlib.sha256 (FIPS 180-4) *)

Module SHA256.

Definition mask32 : Z := 0xffffffff.
Definition add32 (x y : Z) : Z := Z.land (x + y) mask32.
Definition rotr (n x : Z) : Z :=
  Z.lor (Z.shiftr x n) (Z.land (Z.shiftl x (32 - n)) mask32).
Definition shr (n x : Z) : Z := Z.shiftr x n.
Definition not32 (x : Z) : Z := Z.lxor x mask32.

Definition Ch (x y z : Z) : Z := Z.lxor (Z.land x y) (Z.land (not32 x) z).
Definition Maj (x y z : Z) : Z :=
  Z.lxor (Z.lxor (Z.land x y) (Z.land x z)) (Z.land y z).
Definition bsig0 (x : Z) : Z :=
  Z.lxor (Z.lxor (rotr 2 x) (rotr 13 x)) (rotr 22 x).
Definition bsig1 (x : Z) : Z :=
  Z.lxor (Z.lxor (rotr 6 x) (rotr 11 x)) (rotr 25 x).
Definition ssig0 (x : Z) : Z :=
  Z.lxor (Z.lxor (rotr 7 x) (rotr 18 x)) (shr 3 x).
Definition ssig1 (x : Z) : Z :=
  Z.lxor (Z.lxor (rotr 17 x) (rotr 19 x)) (shr 10 x).

(** The largest [r] in [[lo, hi)] with [ok r], for an [ok] that holds at
    [lo] and, from some point on, no more; [fuel] halvings. *)
Fixpoint bisect (fuel : nat) (ok : Z -> bool) (lo hi : Z) : Z :=
match fuel with
| O => lo
| S fuel' =>
    let mid := (lo + hi) / 2 in
    if ok mid then bisect fuel' ok mid hi else bisect fuel' ok lo mid
end.

(** Integer cube root. *)
Definition cbrt (n : Z) : Z :=
bisect (S (Z.to_nat (Z.log2_up (n + 2)))) (fun r => r * r * r <=? n) 0 (n + 1).

Definition is_prime (n : Z) : bool :=
forallb (fun d => negb (n mod Z.of_nat d =? 0)) (seq 2 (Z.to_nat (Z.sqrt n) - 1)).

(** The first 64 primes: 2, 3, 5, ..., 311. *)
Definition primes : list Z :=
filter is_prime (map Z.of_nat (seq 2 310)).

(** Round constants: the first 32 bits of the fractional parts of the cube
    roots of the first 64 primes. *)
Definition K : list Z :=
Eval vm_compute in map (fun p => cbrt (p * 2 ^ 96) mod 2 ^ 32) primes.

(** Initial hash value: the first 32 bits of the fractional parts of the
    square roots of the first 8 primes. *)
Definition H0 : list Z :=
Eval vm_compute in map (fun p => Z.sqrt (p * 2 ^ 64) mod 2 ^ 32) (firstn 8 primes).

(** Big-endian bytes of a number, [n] of them. *)
Fixpoint be_bytes (n : nat) (x : Z) : list Z :=
  match n with
  | O => []
  | S n' => Z.land (Z.shiftr x (8 * Z.of_nat n')) 255 :: be_bytes n' x
  end.

(** The message, a 1 bit, zeros up to 56 mod 64, the bit length on 8 bytes. *)
Definition pad (msg : list Z) : list Z :=
  let len := Z.of_nat (List.length msg) in
  let zeros := Z.to_nat ((55 - len) mod 64) in
  (msg ++ 128 :: repeat 0 zeros ++ be_bytes 8 (8 * len))%list.

Fixpoint words (n : nat) (bs : list Z) : list Z :=
  match n, bs with
  | S n', b0 :: b1 :: b2 :: b3 :: rest =>
      (Z.shiftl b0 24 + Z.shiftl b1 16 + Z.shiftl b2 8 + b3) :: words n' rest
  | _, _ => []
  end.

(** The message schedule: [win] holds the last sixteen words. *)
Fixpoint schedule (n : nat) (win : list Z) : list Z :=
  match n with
  | O => []
  | S n' =>
      let w := nth 0 win 0 in
      let next :=
        add32 (add32 (ssig1 (nth 14 win 0)) (nth 9 win 0))
              (add32 (ssig0 (nth 1 win 0)) w) in
      w :: schedule n' (tl win ++ [next])%list
  end.

Record regs := Regs { ra : Z; rb : Z; rc : Z; rd : Z;
                      re : Z; rf : Z; rg : Z; rh : Z }.

Definition round (s : regs) (kw : Z * Z) : regs :=
  let (k, w) := kw in
  let t1 := add32 (add32 (add32 (rh s) (bsig1 (re s)))
                         (add32 (Ch (re s) (rf s) (rg s)) k)) w in
  let t2 := add32 (bsig0 (ra s)) (Maj (ra s) (rb s) (rc s)) in
  Regs (add32 t1 t2) (ra s) (rb s) (rc s) (add32 (rd s) t1) (re s) (rf s) (rg s).

Definition compress (s : regs) (block : list Z) : regs :=
  let w := schedule 64 (words 16 block) in
  let r := fold_left round (combine K w) s in
  Regs (add32 (ra s) (ra r)) (add32 (rb s) (rb r))
       (add32 (rc s) (rc r)) (add32 (rd s) (rd r))
       (add32 (re s) (re r)) (add32 (rf s) (rf r))
       (add32 (rg s) (rg r)) (add32 (rh s) (rh r)).

(** One 64-byte block per unit of [n]. *)
Fixpoint blocks (n : nat) (s : regs) (bs : list Z) : regs :=
  match n with
  | O => s
  | S n' => blocks n' (compress s (firstn 64 bs)) (skipn 64 bs)
  end.

Definition init : regs :=
  Regs (nth 0 H0 0) (nth 1 H0 0) (nth 2 H0 0) (nth 3 H0 0)
       (nth 4 H0 0) (nth 5 H0 0) (nth 6 H0 0) (nth 7 H0 0).

Definition digest (msg : list Z) : list Z :=
  let p := pad msg in
  let s := blocks (Nat.div (List.length p) 64) init p in
  flat_map (be_bytes 4)
    [ra s; rb s; rc s; rd s; re s; rf s; rg s; rh s].

Definition hex_of_byte (b : Z) : list ascii :=
  [hex_digit (Z.shiftr b 4); hex_digit (Z.land b 15)].

(** [hashlib.sha256(msg).hexdigest()] *)
Definition hexdigest (msg : list Z) : string :=
  string_of_list_ascii (flat_map hex_of_byte (digest msg)).

End SHA256.

(** [hashlib.sha256(s.encode()).hexdigest()] *)
Definition sha256_hex (s : string) : string := SHA256.hexdigest (encode s).

(** ** Python values *)

#[local] Set Warnings "-register-all".

(** What [json.load] returns, and what the ledger stores. A [VDict] keeps its
    items in insertion order, as a Python [dict] does. *)
Inductive value : Type :=
| VNone
| VBool (b : bool)
| VInt (z : Z)
| VStr (s : string)
| VList (items : list value)
| VDict (items : list (string * value)).

(** [d.get(k)] on the items of a dict. *)
Fixpoint dict_lookup (k : string) (kvs : list (string * value)) : option value :=
  match kvs with
  | [] => None
  | (k', v) :: rest => if String.eqb k k' then Some v else dict_lookup k rest
  end.

(** [d[k] = v]: the value of an existing key is replaced in place, a new key
    goes last. *)
Fixpoint dict_set (k : string) (v : value) (kvs : list (string * value))
  : list (string * value) :=
  match kvs with
  | [] => [(k, v)]
  | (k', v') :: rest =>
      if String.eqb k k' then (k, v) :: rest else (k', v') :: dict_set k v rest
  end.

(** No text occurs twice. *)
Fixpoint distinct (l : list string) : bool :=
  match l with
  | [] => true
  | x :: rest => negb (existsb (String.eqb x) rest) && distinct rest
  end.

(** A dict has each key once, at every depth: what a Python dict is. *)
Fixpoint wf_value (v : value) : bool :=
  match v with
  | VList l => forallb wf_value l
  | VDict kvs =>
      distinct (map fst kvs) && forallb (fun kv => wf_value (snd kv)) kvs
  | _ => true
  end.

(** Two values are the same up to the order of the keys of their dicts, at
    every depth: the same leaves, lists that agree item by item, dicts with
    the same keys bound to values that are again the same in this sense. *)
Fixpoint same_payload (a b : value) {struct a} : bool :=
  match a, b with
  | VNone, VNone => true
  | VBool x, VBool y => Bool.eqb x y
  | VInt x, VInt y => x =? y
  | VStr x, VStr y => String.eqb x y
  | VList xs, VList ys =>
      (fix go (xs ys : list value) : bool :=
         match xs, ys with
         | [], [] => true
         | x :: xs', y :: ys' => same_payload x y && go xs' ys'
         | _, _ => false
         end) xs ys
  | VDict xs, VDict ys =>
      Nat.eqb (List.length xs) (List.length ys) &&
      (fix go (xs : list (string * value)) : bool :=
         match xs with
         | [] => true
         | (k, v) :: xs' =>
             match dict_lookup k ys with
             | Some w => same_payload v w
             | None => false
             end && go xs'
         end) xs
  | _, _ => false
  end.

(** Truth value: [bool(v)], as tested by [if v], [not v], [v or w]. *)
Definition truthy (v : value) : bool :=
  match v with
  | VNone => false
  | VBool b => b
  | VInt z => negb (z =? 0)
  | VStr s => negb (String.eqb s EmptyString)
  | VList l => match l with [] => false | _ => true end
  | VDict kvs => match kvs with [] => false | _ => true end
  end.

(** [a or b] *)
Definition py_or (a b : value) : value := if truthy a then a else b.

(** [a == b] *)
Fixpoint py_eq (a b : value) {struct a} : bool :=
  match a, b with
  | VNone, VNone => true
  | VBool x, VBool y => Bool.eqb x y
  | VBool x, VInt y => (if x then 1 else 0) =? y
  | VInt x, VBool y => x =? (if y then 1 else 0)
  | VInt x, VInt y => x =? y
  | VStr x, VStr y => String.eqb x y
  | VList xs, VList ys =>
      (fix go (xs ys : list value) : bool :=
         match xs, ys with
         | [], [] => true
         | x :: xs', y :: ys' => py_eq x y && go xs' ys'
         | _, _ => false
         end) xs ys
  | VDict xs, VDict ys =>
      Nat.eqb (List.length xs) (List.length ys) &&
      (fix go (xs : list (string * value)) : bool :=
         match xs with
         | [] => true
         | (k, v) :: xs' =>
             match dict_lookup k ys with
             | Some w => py_eq v w
             | None => false
             end && go xs'
         end) xs
  | _, _ => false
  end.

(** [str(z)] for an int. *)
Definition str_of_Z (z : Z) : string := NilZero.string_of_int (Z.to_int z).

Definition hex2 (n : Z) : string :=
  String (hex_digit (Z.shiftr n 4)) (String (hex_digit (Z.land n 15)) EmptyString).

Definition join (sep : string) (l : list string) : string :=
  match l with
  | [] => EmptyString
  | x :: rest => fold_left (fun acc y => acc ++ sep ++ y) rest x
  end.

Fixpoint contains_char (c : ascii) (s : string) : bool :=
  match s with
  | EmptyString => false
  | String c' s' => Ascii.eqb c c' || contains_char c s'
  end.

(** [str.isprintable()] on one code point below 256. *)
Definition printable (n : Z) : bool :=
  ((32 <=? n) && (n <? 127)) || ((161 <=? n) && negb (n =? 173)).

Definition repr_char (quote : ascii) (c : ascii) : string :=
  let n := code c in
  if Ascii.eqb c quote || (n =? 92) then esc c
  else if n =? 9 then esc "t"
  else if n =? 10 then esc "n"
  else if n =? 13 then esc "r"
  else if printable n then String c EmptyString
  else esc "x" ++ hex2 n.

(** [repr(s)] for a str: single quotes, unless the text has a single quote
    and no double quote. *)
Definition repr_str (s : string) : string :=
  let q := if contains_char "'" s && negb (contains_char dquote s)
           then dquote else "'"%char in
  String q (concat EmptyString (map (repr_char q) (list_ascii_of_string s)) ++ String q EmptyString).

(** [repr(v)] *)
Fixpoint py_repr (v : value) : string :=
  match v with
  | VNone => "None"
  | VBool b => if b then "True" else "False"
  | VInt z => str_of_Z z
  | VStr s => repr_str s
  | VList l => "[" ++ join ", " (map py_repr l) ++ "]"
  | VDict kvs =>
      "{" ++ join ", " (map (fun kv => repr_str (fst kv) ++ ": " ++ py_repr (snd kv)) kvs)
          ++ "}"
  end.

(** [str(v)], which is what an f-string field [{v}] inserts. *)
Definition py_str (v : value) : string :=
  match v with
  | VStr s => s
  | _ => py_repr v
  end.

(** *** int() *)

Definition int_space (n : Z) : bool :=
  ((9 <=? n) && (n <=? 13)) || (n =? 32) || (n =? 133) || (n =? 160).

Fixpoint lstrip (l : list ascii) : list ascii :=
  match l with
  | c :: l' => if int_space (code c) then lstrip l' else l
  | [] => []
  end.

Definition strip (l : list ascii) : list ascii :=
  rev (lstrip (rev (lstrip l))).

Definition is_digit (c : ascii) : bool :=
  let n := code c in (48 <=? n) && (n <=? 57).

(** Digits with single underscores between them. [acc] is the number read so
    far; [after_digit] says that the previous character was a digit. *)
Fixpoint parse_digits (l : list ascii) (acc : Z) (after_digit : bool) : option Z :=
  match l with
  | [] => if after_digit then Some acc else None
  | c :: l' =>
      if is_digit c then parse_digits l' (10 * acc + (code c - 48)) true
      else if Ascii.eqb c "_" && after_digit then
        match l' with
        | d :: _ => if is_digit d then parse_digits l' acc false else None
        | [] => None
        end
      else None
  end.

Definition int_of_str (s : string) : option Z :=
  match strip (list_ascii_of_string s) with
  | [] => None
  | c :: l' =>
      if Ascii.eqb c "-" then option_map Z.opp (parse_digits l' 0 false)
      else if Ascii.eqb c "+" then parse_digits l' 0 false
      else parse_digits (c :: l') 0 false
  end.

(** [int(v)], which raises [TypeError] or [ValueError] where it has no
    answer. *)
Definition py_int (v : value) : outcome Z :=
  match v with
  | VBool b => Ok (if b then 1 else 0)
  | VInt z => Ok z
  | VStr s => match int_of_str s with Some z => Ok z | None => Raise end
  | _ => Raise
  end.

(** *** json.dumps(v, sort_keys=True) *)

Definition json_char (c : ascii) : string :=
  let n := code c in
  if (n =? 34) || (n =? 92) then esc c
  else if n =? 10 then esc "n"
  else if n =? 13 then esc "r"
  else if n =? 9 then esc "t"
  else if n =? 8 then esc "b"
  else if n =? 12 then esc "f"
  else if (32 <=? n) && (n <=? 126) then String c EmptyString
  else esc "u" ++ "00" ++ hex2 n.

Definition json_str (s : string) : string :=
  String dquote
    (concat EmptyString (map json_char (list_ascii_of_string s)) ++ String dquote EmptyString).

(** Code-point order on strings, the order of Python's [str] comparison. *)
Definition key_leb (a b : string) : bool := String.leb a b.

Fixpoint insert_item (x : string * string) (l : list (string * string))
  : list (string * string) :=
  match l with
  | [] => [x]
  | y :: l' => if key_leb (fst x) (fst y) then x :: y :: l'
               else y :: insert_item x l'
  end.

(** [sorted(items)] by key; stable. *)
Definition sort_items (l : list (string * string)) : list (string * string) :=
  fold_right insert_item [] l.

Definition dump_item (kv : string * string) : string :=
  json_str (fst kv) ++ ": " ++ snd kv.

Fixpoint json_dumps (v : value) : string :=
  match v with
  | VNone => "null"
  | VBool b => if b then "true" else "false"
  | VInt z => str_of_Z z
  | VStr s => json_str s
  | VList l => "[" ++ join ", " (map json_dumps l) ++ "]"
  | VDict kvs =>
      "{" ++ join ", "
               (map dump_item
                  (sort_items (map (fun kv => (fst kv, json_dumps (snd kv))) kvs)))
          ++ "}"
  end.

(** ** The signature scheme *)

(** RSA-PSS as the class uses it, through the [cryptography] package.
    - [public_pem k]: the PEM text of the public half of [k]
      ([public_bytes(PEM, SubjectPublicKeyInfo).decode()]);
    - [sign_hex k msg r]: [k.sign(msg.encode(), PSS, SHA256).hex()], where [r]
      is the randomness the padding draws;
    - [verify_hex pem msg sig]: whether [load_pem_public_key], [bytes.fromhex]
      and [verify] all go through without an exception. *)
Class Signer : Type := {
  private_key : Type;
  randomness : Type;
  public_pem : private_key -> string;
  sign_hex : private_key -> string -> randomness -> string;
  verify_hex : string -> string -> string -> bool
}.

(** A signature made with a key verifies under that key's public half. *)
Class SignerCorrect (S : Signer) : Prop := {
  verify_sign_hex :
    forall (k : private_key) (msg : string) (r : randomness),
      verify_hex (public_pem k) msg (sign_hex k msg r) = true
}.

(** ** Operations on Python objects that the class uses *)

(** [len(v)] *)
Definition py_len (v : value) : outcome nat :=
  match v with
  | VStr s => Ok (String.length s)
  | VList l => Ok (List.length l)
  | VDict kvs => Ok (List.length kvs)
  | _ => Raise
  end.

(** [v[i]] for an index [i >= 0]. A dict of string keys has no key [i]. *)
Definition py_getitem (v : value) (i : nat) : outcome value :=
  match v with
  | VStr s => match String.get i s with
              | Some c => Ok (VStr (String c EmptyString))
              | None => Raise
              end
  | VList l => match nth_error l i with
               | Some x => Ok x
               | None => Raise
               end
  | _ => Raise
  end.

(** [v[k]] for a string [k]. *)
Definition py_getkey (v : value) (k : string) : outcome value :=
  match v with
  | VDict kvs => match dict_lookup k kvs with
                 | Some x => Ok x
                 | None => Raise
                 end
  | _ => Raise
  end.

(** [sub in s] for two strings. *)
Fixpoint is_substring (sub s : string) : bool :=
  String.prefix sub s ||
  match s with
  | EmptyString => false
  | String _ s' => is_substring sub s'
  end.

(** [k in v] for a string [k]. *)
Definition py_in (k : string) (v : value) : outcome bool :=
  match v with
  | VDict kvs => Ok (match dict_lookup k kvs with Some _ => true | None => false end)
  | VList l => Ok (existsb (fun x => py_eq x (VStr k)) l)
  | VStr s => Ok (is_substring k s)
  | _ => Raise
  end.

(** [v.get(k, default)]: only a dict has the method. *)
Definition py_get (v : value) (k : string) (default : value) : outcome value :=
  match v with
  | VDict kvs => Ok (match dict_lookup k kvs with Some x => x | None => default end)
  | _ => Raise
  end.

(** [s * n] for a one-character string. *)
Definition str_repeat (c : ascii) (n : Z) : string :=
  string_of_list_ascii (repeat c (Z.to_nat n)).

(** [l[-limit:]] *)
Definition slice_last {A} (l : list A) (limit : Z) : list A :=
  let n := Z.of_nat (List.length l) in
  let start := - limit in
  let start := if start <? 0 then Z.max 0 (start + n) else Z.min start n in
  skipn (Z.to_nat start) l.

(** ** The persisted store *)

(** The file [chain.json], by what [json.load] makes of it. *)
Inductive file : Type :=
| NoFile
| Unparseable
| Holds (v : value).

(** ** class LocalBlockchain *)

Section LocalBlockchain.

Context {Sg : Signer}.

Definition DEFAULT_DIFFICULTY : Z := 4.

Record node : Type := Node {
  consensus : string;
  chain : value;
  nodes : list string;
  difficulty : Z;
  _private_key : private_key
}.

Definition set_chain (self : node) (c : value) : node :=
  Node (consensus self) c (nodes self) (difficulty self) (_private_key self).

(** *** Merkle root *)

Definition calculate_merkle_root (data : value) : string :=
  let serialized := json_dumps data in
  sha256_hex serialized.

Definition _calculate_merkle_for_block (block : value) : outcome string :=
  do d <- py_get block "data" (VDict []);
  let data := py_or d (VDict []) in
  let serialized := json_dumps data in
  Ok (sha256_hex serialized).

(** *** Hash helpers *)

Definition _compute_pow_hash
    (previous_hash : value) (timestamp : Z) (merkle_root : value) (nonce : Z)
  : string :=
  let payload :=
    py_str previous_hash ++ str_of_Z timestamp ++ py_str merkle_root
      ++ str_of_Z nonce in
  sha256_hex payload.

Definition _compute_poa_hash
    (previous_hash : value) (timestamp : Z) (merkle_root : value)
    (authority_id : value)
  : string :=
  let payload :=
    py_str previous_hash ++ str_of_Z timestamp ++ py_str merkle_root
      ++ py_str authority_id in
  sha256_hex payload.

Definition _authority_id (self : node) : string :=
  let digest := sha256_hex (public_pem (_private_key self)) in
  substring 0 16 digest.

(** *** Digital signature helpers *)

Definition _sign_data (self : node) (data : value) (r : randomness) : string :=
  let data_str := json_dumps data in
  sign_hex (_private_key self) data_str r.

(** Anything that is not a string makes [.encode()] or [bytes.fromhex]
    raise, which the [except] turns into [False]. *)
Definition _verify_signature (pem data signature_hex : value) : bool :=
  match pem, signature_hex with
  | VStr p, VStr sg => verify_hex p (json_dumps data) sg
  | _, _ => false
  end.

(** *** Persistence *)

Definition save_chain (self : node) : file := Holds (chain self).

Definition load_chain (self : node) (fs : file) : node :=
  match fs with
  | NoFile => self
  | Unparseable => set_chain self (VList [])
  | Holds v => set_chain self v
  end.

(** *** Block creation *)

(** The loop [while True] of [create_block], from [nonce]; [fuel] bounds
    the number of digests tried. *)
Fixpoint mine (fuel : nat) (previous_hash : value) (timestamp : Z)
    (merkle_root : value) (prefix : string) (nonce : Z)
  : outcome (Z * string) :=
  match fuel with
  | O => Timeout
  | S fuel' =>
      let block_hash :=
        _compute_pow_hash previous_hash timestamp merkle_root nonce in
      if String.prefix prefix block_hash then Ok (nonce, block_hash)
      else mine fuel' previous_hash timestamp merkle_root prefix (nonce + 1)
  end.

(** [self.chain[-1]] *)
Definition last_block (c : value) : outcome value :=
  do n <- py_len c;
  py_getitem c (n - 1).

(** [self.chain.append(block)] *)
Definition py_append (c : value) (block : value) : outcome value :=
  match c with
  | VList l => Ok (VList (l ++ [block]))
  | _ => Raise
  end.

(** [self.chain[-1]["hash"] if self.chain else "0"] *)
Definition previous_hash_of (c : value) : outcome value :=
  if truthy c
  then do b <- last_block c; py_getkey b "hash"
  else Ok (VStr "0").

(** The dict that [create_block] assembles; the key [authority_id] is added
    last, and only if there is one. *)
Definition block_record (index timestamp : Z) (data : value)
    (merkle_root : string) (previous_hash : value) (block_hash : string)
    (nonce difficulty : Z) (consensus signature_hex public_pem : string)
    (authority_id : option string) : list (string * value) :=
  let block :=
    [ ("index", VInt index);
      ("timestamp", VInt timestamp);
      ("data", data);
      ("merkle_root", VStr merkle_root);
      ("previous_hash", previous_hash);
      ("hash", VStr block_hash);
      ("nonce", VInt nonce);
      ("difficulty", VInt difficulty);
      ("consensus", VStr consensus);
      ("signature", VStr signature_hex);
      ("public_key", VStr public_pem) ] in
  match authority_id with
  | Some a => dict_set "authority_id" (VStr a) block
  | None => block
  end.

(** [now] is [int(time.time())] and [r] the randomness of the signature.
    The result is the node, the store and the block returned. *)
Definition create_block (fuel : nat) (self : node) (now : Z) (r : randomness)
    (data : value) : outcome (node * file * value) :=
  let timestamp := now in
  do previous_hash <- previous_hash_of (chain self);
  let merkle_root := calculate_merkle_root data in
  do mined <-
    (if String.eqb (consensus self) "pow" then
       let difficulty := difficulty self in
       let prefix := str_repeat "0" difficulty in
       do found <- mine fuel previous_hash timestamp (VStr merkle_root) prefix 0;
       Ok (fst found, difficulty, snd found, None)
     else
       let difficulty := 0 in
       let nonce := 0 in
       let authority_id := _authority_id self in
       let block_hash :=
         _compute_poa_hash previous_hash timestamp (VStr merkle_root)
           (VStr authority_id) in
       Ok (nonce, difficulty, block_hash, Some authority_id));
  let '(nonce, difficulty, block_hash, authority_id) := mined in
  let signature_hex := _sign_data self data r in
  let public_pem := public_pem (_private_key self) in
  do n <- py_len (chain self);
  let block :=
    block_record (Z.of_nat n + 1) timestamp data merkle_root previous_hash
      block_hash nonce difficulty (consensus self) signature_hex public_pem
      authority_id in
  do c <- py_append (chain self) (VDict block);
  let self := set_chain self c in
  Ok (self, save_chain self, VDict block).

Definition genesis_data : value :=
  VDict [("system", VStr "Blockchain Initialized")].

Definition create_genesis_block (fuel : nat) (self : node) (now : Z)
    (r : randomness) : outcome (node * file * value) :=
  create_block fuel self now r genesis_data.

Definition _init_fresh_chain (fuel : nat) (self : node) (now : Z)
    (r : randomness) : outcome (node * file) :=
  let self := set_chain self (VList []) in
  do res <- create_genesis_block fuel self now r;
  let self := fst (fst res) in
  Ok (self, save_chain self).

Definition store_evaluation (fuel : nat) (self : node) (now : Z)
    (r : randomness) (evaluation : value) : outcome (node * file * value) :=
  create_block fuel self now r evaluation.

(** *** Validation *)

(** [try: m except Exception: handler] *)
Definition try_except {A} (m handler : outcome A) : outcome A :=
  match m with
  | Raise => handler
  | _ => m
  end.

(** Step 0 of the loop body: [for field in (...): if field not in block:
    return False]. The result says whether every field was found. *)
Fixpoint has_fields (block : value) (fields : list string) : outcome bool :=
  match fields with
  | [] => Ok true
  | field :: rest =>
      do present <- py_in field block;
      if negb present then Ok false else has_fields block rest
  end.

(** Step 1: [previous_hash] must match, except for the first block. *)
Definition link_check (chain : value) (i : nat) (block : value) : outcome bool :=
  if (0 <? i)%nat then
    do previous <- py_getitem chain (i - 1);
    do a <- py_get block "previous_hash" VNone;
    do b <- py_get previous "hash" VNone;
    Ok (py_eq a b)
  else Ok true.

(** Step 2: the Merkle root must match the data. *)
Definition merkle_check (block : value) : outcome bool :=
  do recalculated_merkle <- _calculate_merkle_for_block block;
  do stored <- py_get block "merkle_root" VNone;
  Ok (py_eq stored (VStr recalculated_merkle)).

(** The body of the [try] of step 3. *)
Definition read_header (block : value)
  : outcome (Z * value * value * Z * Z) :=
  do t <- py_get block "timestamp" (VInt 0);
  do timestamp <- py_int t;
  do prev_hash <- py_get block "previous_hash" (VStr EmptyString);
  do merkle_root <- py_get block "merkle_root" (VStr EmptyString);
  do has_nonce <- py_in "nonce" block;
  do nonce <-
    (if has_nonce then do n <- py_get block "nonce" (VInt 0); py_int n
     else Ok 0);
  do has_difficulty <- py_in "difficulty" block;
  do difficulty <-
    (if has_difficulty then do d <- py_get block "difficulty" (VInt 0); py_int d
     else Ok 0);
  Ok (timestamp, prev_hash, merkle_root, nonce, difficulty).

(** Step 3: hash and consensus checks. *)
Definition consensus_check (block : value) : outcome bool :=
  do header <- try_except (do h <- read_header block; Ok (Some h)) (Ok None);
  match header with
  | None => Ok false
  | Some (timestamp, prev_hash, merkle_root, nonce, difficulty) =>
      do consensus <-
        py_get block "consensus"
          (VStr (if 0 <? difficulty then "pow" else "poa"));
      if py_eq consensus (VStr "pow") then
        let recomputed_hash :=
          _compute_pow_hash prev_hash timestamp merkle_root nonce in
        do stored <- py_get block "hash" VNone;
        if negb (py_eq (VStr recomputed_hash) stored) then Ok false
        else if (0 <? difficulty) &&
                negb (String.prefix (str_repeat "0" difficulty) recomputed_hash)
        then Ok false
        else Ok true
      else
        do authority_id <- py_get block "authority_id" (VStr EmptyString);
        let recomputed_hash :=
          _compute_poa_hash prev_hash timestamp merkle_root authority_id in
        do stored <- py_get block "hash" VNone;
        if negb (py_eq (VStr recomputed_hash) stored) then Ok false
        else Ok true
  end.

(** Step 4: the signature, where the block has one. *)
Definition signature_check (block : value) : outcome bool :=
  do signature_hex <- py_get block "signature" VNone;
  do public_pem <- py_get block "public_key" VNone;
  if truthy signature_hex && truthy public_pem then
    do d <- py_get block "data" (VDict []);
    let ok := _verify_signature public_pem (py_or d (VDict [])) signature_hex in
    Ok ok
  else Ok true.

Definition REQUIRED_FIELDS : list string :=
  ["timestamp"; "data"; "merkle_root"; "hash"].

(** One turn of the loop of [is_valid_chain]: [Ok false] is [return False],
    [Ok true] goes on to the next block. *)
Definition check_block (chain : value) (i : nat) : outcome bool :=
  do block <- py_getitem chain i;
  do present <- has_fields block REQUIRED_FIELDS;
  if negb present then Ok false else
  do linked <- link_check chain i block;
  if negb linked then Ok false else
  do merkle_ok <- merkle_check block;
  if negb merkle_ok then Ok false else
  do consensus_ok <- consensus_check block;
  if negb consensus_ok then Ok false else
  signature_check block.

(** [for i in range(...)], leaving at the first [return False]. *)
Fixpoint for_blocks (body : nat -> outcome bool) (range : list nat)
  : outcome bool :=
  match range with
  | [] => Ok true
  | i :: rest =>
      do ok <- body i;
      if ok then for_blocks body rest else Ok false
  end.

Definition is_valid_chain (chain : value) : outcome bool :=
  if negb (truthy chain) then Ok false else
  do n <- py_len chain;
  for_blocks (check_block chain) (seq 0 n).

Definition is_chain_valid (self : node) : outcome bool :=
  is_valid_chain (chain self).

(** *** Construction *)

(** [key] is the key pair that [rsa.generate_private_key] returns, [fs] the
    store found at startup; [now] and [r] serve the genesis block, if one
    is made. *)
Definition __init__ (fuel : nat) (consensus : string) (difficulty : option Z)
    (key : private_key) (fs : file) (now : Z) (r : randomness)
  : outcome (node * file) :=
  if negb (String.eqb consensus "pow" || String.eqb consensus "poa") then Raise
  else
    let self :=
      Node consensus (VList []) []
        (match difficulty with Some d => d | None => DEFAULT_DIFFICULTY end)
        key in
    let self := load_chain self fs in
    if negb (truthy (chain self)) then _init_fresh_chain fuel self now r
    else
      do valid <- is_valid_chain (chain self);
      if negb valid then _init_fresh_chain fuel self now r
      else Ok (self, fs).

(** *** Multi-node helpers *)

Definition replace_chain (self : node) (fs : file) (new_chain : value)
  : outcome (bool * node * file) :=
  if negb (truthy new_chain) then Ok (false, self, fs) else
  do n <- py_len new_chain;
  do m <- py_len (chain self);
  if (n <=? m)%nat then Ok (false, self, fs) else
  do valid <- is_valid_chain new_chain;
  if negb valid then Ok (false, self, fs) else
  let self := set_chain self new_chain in
  Ok (true, self, save_chain self).

(** *** Convenience *)

Definition recent (self : node) (limit : Z) : outcome value :=
  match chain self with
  | VList l => Ok (VList (slice_last l limit))
  | VStr s =>
      Ok (VStr (string_of_list_ascii (slice_last (list_ascii_of_string s) limit)))
  | _ => Raise
  end.

End LocalBlockchain.

(** ** The validator of the spec (section 4.4), on chains of dict blocks *)

(** These definitions are not translations of code: they restate the five
    numbered checks of the chain validator as boolean functions of a block's
    items, so that the code can be compared with them. *)

Abbreviation dict := (list (string * value)) (only parsing).

Definition has_key (b : dict) (k : string) : bool :=
  match dict_lookup k b with Some _ => true | None => false end.

Definition get_or (b : dict) (k : string) (default : value) : value :=
  match dict_lookup k b with Some x => x | None => default end.

(** A numeric field: absent counts as 0, unreadable as [None]. *)
Definition num_field (b : dict) (k : string) : option Z :=
  match dict_lookup k b with
  | None => Some 0
  | Some v => match py_int v with Ok z => Some z | _ => None end
  end.

(** [blockDigest(previousHash, timestamp, merkleRoot, tiebreaker)]: the four
    fields, concatenated in this order, hashed. *)
Definition blockDigest (previousHash timestamp merkleRoot tiebreaker : string)
  : string :=
  sha256_hex (previousHash ++ timestamp ++ merkleRoot ++ tiebreaker).

(** The number of ['0'] characters a text starts with. *)
Fixpoint leading_zeros (s : string) : nat :=
  match s with
  | String c s' => if Ascii.eqb c "0" then S (leading_zeros s') else O
  | EmptyString => O
  end.

Section SpecValidator.

Context {Sg : Signer}.

(** 1. Required-field presence. *)
Definition spec_fields (b : dict) : bool :=
  has_key b "timestamp" && has_key b "data" && has_key b "merkle_root"
  && has_key b "hash".

(** 2. Linkage, for a block that has a predecessor. *)
Definition spec_linkage (prev : option dict) (b : dict) : bool :=
  match prev with
  | None => true
  | Some p => py_eq (get_or b "previous_hash" VNone) (get_or p "hash" VNone)
  end.

(** 3. Merkle check. *)
Definition spec_merkle (b : dict) : bool :=
  py_eq (get_or b "merkle_root" VNone)
        (VStr (calculate_merkle_root (py_or (get_or b "data" (VDict [])) (VDict [])))).

(** 4. Consensus check, dispatched on the block's own tag; a block without
    the tag counts as [pow] if its difficulty is positive and as [poa]
    otherwise. *)
Definition spec_tag (b : dict) (difficulty : Z) : value :=
  match dict_lookup "consensus" b with
  | Some t => t
  | None => VStr (if 0 <? difficulty then "pow" else "poa")
  end.

Definition spec_consensus (b : dict) : bool :=
  match num_field b "timestamp", num_field b "nonce", num_field b "difficulty" with
  | Some timestamp, Some nonce, Some difficulty =>
      let prev := py_str (get_or b "previous_hash" (VStr EmptyString)) in
      let root := py_str (get_or b "merkle_root" (VStr EmptyString)) in
      if py_eq (spec_tag b difficulty) (VStr "pow") then
        let digest := blockDigest prev (str_of_Z timestamp) root (str_of_Z nonce) in
        py_eq (VStr digest) (get_or b "hash" VNone)
        && (if 0 <? difficulty
            then Z.of_nat (leading_zeros digest) >=? difficulty
            else true)
      else
        let authority := py_str (get_or b "authority_id" (VStr EmptyString)) in
        let digest := blockDigest prev (str_of_Z timestamp) root authority in
        py_eq (VStr digest) (get_or b "hash" VNone)
  | _, _, _ => false
  end.

(** 5. Signature check, skipped where signature or key is missing or
    empty. *)
Definition spec_signature (b : dict) : bool :=
  let sg := get_or b "signature" VNone in
  let pem := get_or b "public_key" VNone in
  if truthy sg && truthy pem
  then _verify_signature pem (py_or (get_or b "data" (VDict [])) (VDict [])) sg
  else true.

Definition spec_block (prev : option dict) (b : dict) : bool :=
  spec_fields b && spec_linkage prev b && spec_merkle b && spec_consensus b
  && spec_signature b.

Fixpoint spec_blocks (prev : option dict) (bs : list dict) : bool :=
  match bs with
  | [] => true
  | b :: rest => spec_block prev b && spec_blocks (Some b) rest
  end.

(** [isValid(chain)]: an empty chain is invalid. *)
Definition isValid (bs : list dict) : bool :=
  match bs with
  | [] => false
  | _ => spec_blocks None bs
  end.

End SpecValidator.

(** The chain, as a Python list, of a list of dict blocks. *)
Definition blocks (bs : list dict) : value := VList (map VDict bs).

(** The block before block [i], if there is one. *)
Definition prev_of (bs : list dict) (i : nat) : option dict :=
  match i with
  | O => None
  | S j => nth_error bs j
  end.

(** The last block of [pre], or [prev] if there is none: the predecessor of
    the block that comes after [pre]. *)
Fixpoint last_opt (prev : option dict) (pre : list dict) : option dict :=
  match pre with
  | [] => prev
  | x :: rest => last_opt (Some x) rest
  end.

(** ** Tampering with one field of one block *)

(** [chain[i][field] = v] *)
Definition mutate (bs : list dict) (i : nat) (field : string) (v : value)
  : list dict :=
  match nth_error bs i with
  | Some b => firstn i bs ++ dict_set field v b :: skipn (S i) bs
  | None => bs
  end.

Section Tampering.

Context {Sg : Signer}.

(** The digest that step 3 of the validator recomputes for a block, where
    the block's numbers can be read. *)
Definition recomputed (b : dict) : option string :=
  match num_field b "timestamp", num_field b "nonce", num_field b "difficulty" with
  | Some timestamp, Some nonce, Some difficulty =>
      let prev_hash := get_or b "previous_hash" (VStr EmptyString) in
      let merkle_root := get_or b "merkle_root" (VStr EmptyString) in
      Some (if py_eq (spec_tag b difficulty) (VStr "pow")
            then _compute_pow_hash prev_hash timestamp merkle_root nonce
            else _compute_poa_hash prev_hash timestamp merkle_root
                   (get_or b "authority_id" (VStr EmptyString)))
  | _, _, _ => None
  end.



End Tampering.

(** ** Runs of a node *)

(** [isinstance(v, dict)]: what the annotation [Dict[str, Any]] of a payload
    asks for. *)
Definition is_dict (v : value) : bool :=
  match v with
  | VDict _ => true
  | _ => false
  end.

(** The hash at the tip of a chain of dict blocks is the text [D]; the tip of
    the empty chain is the sentinel. *)
Definition tip_ok (bs : list dict) (D : string) : Prop :=
  match last_opt None bs with
  | None => D = "0"
  | Some p => dict_lookup "hash" p = Some (VStr D)
  end.

(** In a chain made by appending to the empty chain, block [i] has index
    [i + 1], a text as hash, and as [previous_hash] the hash of the block
    before it, or the sentinel if it is the first. *)
Definition chained (bs : list dict) : Prop :=
  forall (i : nat) (b : dict),
    nth_error bs i = Some b ->
    dict_lookup "index" b = Some (VInt (Z.of_nat i + 1)) /\
    (exists h, dict_lookup "hash" b = Some (VStr h)) /\
    dict_lookup "previous_hash" b
    = match prev_of bs i with
      | None => Some (VStr "0")
      | Some p => dict_lookup "hash" p
      end.

Section Soundness.

Context {Sg : Signer}.

(** The invariant of the data model, for a block [b] whose predecessor is
    [prev]: the Merkle root is the hash of the payload, the hash is the
    recomputed digest, the link holds, a PoW hash has its leading zeros,
    the signature verifies. *)
Definition block_sound (prev : option dict) (b : dict) : Prop :=
  exists (data : value) (h sg pem : string),
    dict_lookup "data" b = Some data /\
    dict_lookup "merkle_root" b = Some (VStr (calculate_merkle_root data)) /\
    dict_lookup "hash" b = Some (VStr h) /\
    recomputed b = Some h /\
    (forall p, prev = Some p ->
       dict_lookup "previous_hash" b = dict_lookup "hash" p) /\
    (forall d, dict_lookup "consensus" b = Some (VStr "pow") ->
       dict_lookup "difficulty" b = Some (VInt d) -> 0 < d ->
       String.prefix (str_repeat "0" d) h = true) /\
    dict_lookup "signature" b = Some (VStr sg) /\
    dict_lookup "public_key" b = Some (VStr pem) /\
    _verify_signature (VStr pem) data (VStr sg) = true.

(** What holds of the blocks of a node's own chain. *)
Definition own_chain (bs : list dict) : Prop :=
  (bs = [] \/ isValid bs = true) /\
  forall i b, nth_error bs i = Some b -> block_sound (prev_of bs i) b.

End Soundness.

Section Runs.

Context {Sg : Signer}.

(** [b] is a block that [create_block] makes when the node [self] holds the
    blocks [bs], whose tip has hash [D]. *)
Definition created (self : node) (bs : list dict) (D : string) (now : Z)
    (r : randomness) (data : value) (b : dict) : Prop :=
  let root := calculate_merkle_root data in
  let index := Z.of_nat (List.length bs) + 1 in
  let sg := _sign_data self data r in
  let pem := public_pem (_private_key self) in
  if String.eqb (consensus self) "pow" then
    let prefix := str_repeat "0" (difficulty self) in
    exists nonce : Z,
      0 <= nonce /\
      String.prefix prefix (_compute_pow_hash (VStr D) now (VStr root) nonce) = true /\
      (forall k, 0 <= k < nonce ->
         String.prefix prefix (_compute_pow_hash (VStr D) now (VStr root) k) = false) /\
      b = block_record index now data root (VStr D)
            (_compute_pow_hash (VStr D) now (VStr root) nonce)
            nonce (difficulty self) (consensus self) sg pem None
  else
    b = block_record index now data root (VStr D)
          (_compute_poa_hash (VStr D) now (VStr root) (VStr (_authority_id self)))
          0 0 (consensus self) sg pem (Some (_authority_id self)).

(** Appending payloads one after the other, each with the clock reading and
    the randomness of its call. *)
Fixpoint append_all (fuel : nat) (self : node) (fs : file)
    (inputs : list (Z * randomness * value)) : outcome (node * file) :=
  match inputs with
  | [] => Ok (self, fs)
  | (now, r, data) :: rest =>
      do res <- store_evaluation fuel self now r data;
      append_all fuel (fst (fst res)) (snd (fst res)) rest
  end.

(** A node started without a store, then the appends. *)
Definition fresh_ledger (fuel : nat) (consensus : string)
    (difficulty : option Z) (key : private_key) (now : Z) (r : randomness)
    (inputs : list (Z * randomness * value)) : outcome (node * file) :=
  do started <- __init__ fuel consensus difficulty key NoFile now r;
  append_all fuel (fst started) (snd started) inputs.

End Runs.

(** ** A first block that does not start from the sentinel *)

(** A PoA block, unsigned, whose [previous_hash] is the text [p], or is
    missing; its Merkle root and hash are computed as the validator
    recomputes them. *)
Definition unanchored_block (p : option string) (timestamp : Z) (data : value)
    (authority_id : string) : dict :=
  let root := calculate_merkle_root (py_or data (VDict [])) in
  let prev := match p with Some s => VStr s | None => VStr EmptyString end in
  let digest :=
    _compute_poa_hash prev timestamp (VStr root) (VStr authority_id) in
  [ ("timestamp", VInt timestamp);
    ("data", data);
    ("merkle_root", VStr root) ]
  ++ match p with Some s => [("previous_hash", VStr s)] | None => [] end
  ++ [ ("hash", VStr digest);
       ("consensus", VStr "poa");
       ("authority_id", VStr authority_id) ].

(** ** What the validator reads *)

(** The keys of a block that [is_valid_chain] looks up. *)
Definition READ_FIELDS : list string :=
  ["timestamp"; "data"; "merkle_root"; "hash"; "previous_hash"; "nonce";
   "difficulty"; "consensus"; "authority_id"; "signature"; "public_key"].

(** [isinstance(v, (type(None), bool, int))] *)
Definition is_scalar (v : value) : bool :=
  match v with
  | VNone | VBool _ | VInt _ => true
  | _ => false
  end.

(** ** A chain made without a key *)

(** The text under [hash] in a block. *)
Definition hash_text (b : dict) : string := py_str (get_or b "hash" VNone).

(** Unsigned PoA blocks, one per entry (a timestamp and a payload), each
    linked to the one before it; [p] is what the first one is linked to. *)
Fixpoint unsigned_chain (p : option string) (authority_id : string)
    (entries : list (Z * value)) : list dict :=
  match entries with
  | [] => []
  | (timestamp, data) :: rest =>
      let b := unanchored_block p timestamp data authority_id in
      b :: unsigned_chain (Some (hash_text b)) authority_id rest
  end.

(** ** Calls of the public methods, one after the other *)

Section Calls.

Context {Sg : Signer}.

Inductive call : Type :=
| Store (now : Z) (r : randomness) (evaluation : value)
| Replace (new_chain : value).

(** The payloads for which a block of the node's own passes the validator:
    steps 2 and 4 read [data or {}]. *)
Definition kept_payload (data : value) : bool := is_dict data || truthy data.

Definition ok_call (c : call) : bool :=
  match c with
  | Store _ _ evaluation => kept_payload evaluation
  | Replace _ => true
  end.

Fixpoint calls (fuel : nat) (self : node) (fs : file) (cs : list call)
  : outcome (node * file) :=
  match cs with
  | [] => Ok (self, fs)
  | Store now r evaluation :: rest =>
      do res <- store_evaluation fuel self now r evaluation;
      calls fuel (fst (fst res)) (snd (fst res)) rest
  | Replace new_chain :: rest =>
      do res <- replace_chain self fs new_chain;
      calls fuel (snd (fst res)) (snd res) rest
  end.

End Calls.

(** The node holds the dict blocks [bs], which the validator accepts, and
    the store holds them too. *)
Definition in_order {Sg : Signer} (cons : string) (self : node) (fs : file) (bs : list dict)
  : Prop :=
  chain self = blocks bs /\ isValid bs = true /\ fs = Holds (blocks bs) /\
  consensus self = cons.

(** ** Python floats *)


(** A Python [float] is an IEEE 754 binary64 number: [spec_float] with a
    mantissa of 53 bits, rounded to nearest, ties to even. *)
Definition float_of_int (z : Z) : spec_float := binary_normalize 53 1024 z 0 false.
Definition float_add : spec_float -> spec_float -> spec_float := SFadd 53 1024.
Definition float_sub : spec_float -> spec_float -> spec_float := SFsub 53 1024.
(** [a > b] *)
Definition float_gt (a b : spec_float) : bool := SFltb b a.

(** *** float() of a text *)

Definition ascii_lower (c : ascii) : ascii :=
  let n := code c in if (65 <=? n) && (n <=? 90) then chr (n + 32) else c.

(** Underscores are dropped where a digit stands on either side, and
    refused elsewhere. [prev] is the character before. *)
Fixpoint drop_underscores (l : list ascii) (prev : option ascii)
  : option (list ascii) :=
  match l with
  | [] => match prev with
          | Some p => if Ascii.eqb p "_" then None else Some []
          | None => Some []
          end
  | c :: l' =>
      let prev_digit := match prev with Some p => is_digit p | None => false end in
      let prev_us := match prev with Some p => Ascii.eqb p "_" | None => false end in
      if Ascii.eqb c "_" then
        if prev_digit then drop_underscores l' (Some c) else None
      else if prev_us && negb (is_digit c) then None
      else option_map (cons c) (drop_underscores l' (Some c))
  end.

(** The digits at the front of [l]: the number they add to [acc], how many
    they are, and what follows them. *)
Fixpoint read_digits (l : list ascii) (acc : Z) (n : Z) : Z * Z * list ascii :=
  match l with
  | c :: l' => if is_digit c then read_digits l' (10 * acc + (code c - 48)) (n + 1)
               else (acc, n, l)
  | [] => (acc, n, l)
  end.

(** [digits [. digits] [e [sign] digits]], with a digit before or after the
    point: the number is [m * 10 ^ e] for the pair [(m, e)] returned. *)
Definition parse_decimal (l : list ascii) : option (Z * Z) :=
  let '(int_part, n_int, l1) := read_digits l 0 0 in
  let '(m, n_frac, l2) :=
    match l1 with
    | c :: l1' => if Ascii.eqb c "." then read_digits l1' int_part 0
                  else (int_part, 0, l1)
    | [] => (int_part, 0, l1)
    end in
  if n_int + n_frac =? 0 then None else
  match l2 with
  | [] => Some (m, - n_frac)
  | c :: l3 =>
      if Ascii.eqb (ascii_lower c) "e" then
        let '(negative, l4) :=
          match l3 with
          | s :: r => if Ascii.eqb s "-" then (true, r)
                      else if Ascii.eqb s "+" then (false, r) else (false, l3)
          | [] => (false, l3)
          end in
        let '(e, n_e, l5) := read_digits l4 0 0 in
        if n_e =? 0 then None else
        match l5 with
        | [] => Some (m, (if negative then - e else e) - n_frac)
        | _ => None
        end
      else None
  end.

(** The float nearest to [(-1)^negative * m * 10^e], for [m >= 0]. *)
Definition decimal_to_float (negative : bool) (m e : Z) : spec_float :=
  if m =? 0 then S754_zero negative
  else if 0 <=? e then
    binary_normalize 53 1024 (cond_Zopp negative (m * 10 ^ e)) 0 false
  else
    let '(q, e', l) := SFdiv_core_binary 53 1024 m 0 (10 ^ (- e)) 0 in
    binary_round_aux 53 1024 negative q e' l.

Definition float_of_str (s : string) : option spec_float :=
  match drop_underscores (strip (list_ascii_of_string s)) None with
  | None => None
  | Some l =>
      let '(negative, body) :=
        match l with
        | c :: r => if Ascii.eqb c "-" then (true, r)
                    else if Ascii.eqb c "+" then (false, r) else (false, l)
        | [] => (false, l)
        end in
      let word := string_of_list_ascii (map ascii_lower body) in
      if String.eqb word "inf" || String.eqb word "infinity"
      then Some (S754_infinity negative)
      else if String.eqb word "nan" then Some S754_nan
      else option_map (fun me => decimal_to_float negative (fst me) (snd me))
             (parse_decimal body)
  end.

(** What [float(v)] comes to. *)
Inductive float_result : Type :=
| FloatOk (f : spec_float)
| FloatTypeError
| FloatValueError
| FloatOverflowError.

Definition py_float (v : value) : float_result :=
  match v with
  | VBool b => FloatOk (float_of_int (if b then 1 else 0))
  | VInt z =>
      match float_of_int z with
      | S754_infinity _ => FloatOverflowError
      | f => FloatOk f
      end
  | VStr s =>
      match float_of_str s with
      | Some f => FloatOk f
      | None => FloatValueError
      end
  | VNone | VList _ | VDict _ => FloatTypeError
  end.

(** ** The AML pipeline of [aml/pipeline.py] *)

(** [@dataclass class AMLConfig]; the defaults are the literals [25_000.0]
    and [0.5]. *)
Record AMLConfig : Type := {
  high_value_threshold : spec_float;
  fraud_threshold : spec_float
}.

Definition AMLConfig_default : AMLConfig := {|
  high_value_threshold := decimal_to_float false 250000 (-1);
  fraud_threshold := decimal_to_float false 5 (-1)
|}.

(** The pipeline object, without the model: it serves steps 3 and 4, whose
    results have float leaves. *)
Record AMLPipeline : Type := {
  config : AMLConfig;
  verified_users : list string
}.

(** [AMLPipeline(model, sink, config)]: [config or AMLConfig()]. *)
Definition AMLPipeline__init__ (config : option AMLConfig) : AMLPipeline := {|
  config := match config with Some c => c | None => AMLConfig_default end;
  verified_users := ["IN12345"; "US67890"; "SG34567"]
|}.

(** [v in users] for a set of texts: [v] is hashed, which a list or a dict
    refuses. *)
Definition in_set (v : value) (users : list string) : outcome bool :=
  match v with
  | VStr s => Ok (existsb (String.eqb s) users)
  | VList _ | VDict _ => Raise
  | _ => Ok false
  end.

Definition check_kyc (self : AMLPipeline) (transaction : value) : outcome bool :=
  do sender <- py_get transaction "sender_id" VNone;
  do receiver <- py_get transaction "receiver_id" VNone;
  do sender_ok <- in_set sender (verified_users self);
  if sender_ok then in_set receiver (verified_users self) else Ok false.

(** [transaction.get("amount", 0.0)] then [float(...)]: the default is a
    float already. *)
Definition amount_of (transaction : value) : outcome float_result :=
  match transaction with
  | VDict kvs =>
      Ok (match dict_lookup "amount" kvs with
          | Some v => py_float v
          | None => FloatOk (S754_zero false)
          end)
  | _ => Raise
  end.

(** Only [TypeError] and [ValueError] are caught. *)
Definition enforce_rules (self : AMLPipeline) (transaction : value)
  : outcome (bool * string) :=
  do converted <- amount_of transaction;
  match converted with
  | FloatTypeError | FloatValueError => Ok (false, "Invalid amount value")
  | FloatOverflowError => Raise
  | FloatOk amount =>
      if float_gt amount (high_value_threshold (config self))
      then Ok (false, "High-risk transaction amount")
      else Ok (true, "Compliant")
  end.

(** Where [evaluate_transaction] is when the model is not yet asked: it has
    returned [result], recorded by the sink, or it is about to call the model
    with [result] as made so far. *)
Inductive evaluated (S : Type) : Type :=
| Recorded (sink : S) (result : value)
| ToModel (result : value).
Arguments Recorded {S} sink result.
Arguments ToModel {S} result.

(** [result.update({"status": status, "reason": reason})] *)
Definition update_rejection (status reason : string) (result : list (string * value))
  : list (string * value) :=
  dict_set "reason" (VStr reason) (dict_set "status" (VStr status) result).

(** Steps 1 and 2 of [evaluate_transaction]; [store] is
    [self.sink.store_evaluation], which gives the sink after the call. *)
Definition evaluate_transaction {S : Type} (self : AMLPipeline)
    (store : value -> outcome S) (transaction external_id : value)
  : outcome (evaluated S) :=
  let result := [("external_id", external_id); ("transaction", transaction)] in
  do kyc_ok <- check_kyc self transaction;
  let result := dict_set "kyc_ok" (VBool kyc_ok) result in
  if negb kyc_ok then
    let result := update_rejection "rejected_kyc" "KYC verification failed" result in
    do sink <- store (VDict result);
    Ok (Recorded sink (VDict result))
  else
    do checked <- enforce_rules self transaction;
    let '(compliant, reason) := checked in
    let result := dict_set "rule_compliant" (VBool compliant) result in
    let result := dict_set "rule_reason" (VStr reason) result in
    if negb compliant then
      let result := update_rejection "rejected_rules" reason result in
      do sink <- store (VDict result);
      Ok (Recorded sink (VDict result))
    else Ok (ToModel (VDict result)).

(** ** The transactions of the simulator in [app.py] *)

Definition COUNTRIES : list string := ["IN"; "US"; "UK"; "SG"; "NG"; "RU"].

(** What one call of [generate_random_transaction] draws: six numbers by
    [random.randint] and two countries by [random.choice]. *)
Record draws : Type := {
  amount : Z;
  sender_balance : Z;
  receiver_balance : Z;
  transaction_speed : Z;
  sender_country : string;
  receiver_country : string;
  sender_number : Z;
  receiver_number : Z
}.

Definition generate_random_transaction (d : draws) : value :=
  VDict [ ("amount", VInt (amount d));
          ("sender_balance", VInt (sender_balance d));
          ("receiver_balance", VInt (receiver_balance d));
          ("transaction_speed", VInt (transaction_speed d));
          ("sender_country", VStr (sender_country d));
          ("receiver_country", VStr (receiver_country d));
          ("sender_id", VStr ("AUTO" ++ str_of_Z (sender_number d)));
          ("receiver_id", VStr ("AUTO" ++ str_of_Z (receiver_number d))) ].

(** ** The receipt of the Ethereum write, in [app.py] *)

(** [v[k] = x] for a text [k]: only a dict takes it. *)
Definition py_setkey (v : value) (k : string) (x : value) : outcome value :=
  match v with
  | VDict kvs => Ok (VDict (dict_set k x kvs))
  | _ => Raise
  end.

(** [chain[-1] = block], the object at the end of the list changed in place. *)
Definition set_last (c : value) (block : value) : outcome value :=
  match c with
  | VList l => Ok (VList (removelast l ++ [block]))
  | _ => Raise
  end.

(** The block [if eth and len(local_chain.chain) > 0: ...] that follows the
    Ethereum write in [auto_simulator] and in [index]: the receipt is written
    into the last block, into its payload and into the transaction of the
    payload, and the chain is saved.  The blocks and payloads of the chain
    are taken to be separate objects.  An exception leaves the block of code
    for the handler of the caller; what the node holds then is not given. *)
Definition attach_eth_receipt {Sg : Signer} (self : node) (fs : file) (eth : value)
  : outcome (node * file) :=
  if negb (truthy eth) then Ok (self, fs) else
  do n <- py_len (chain self);
  if negb (0 <? n)%nat then Ok (self, fs) else
  do last_block <- last_block (chain self);
  do tx_hash <- py_getkey eth "eth_tx_hash";
  do data <- py_getkey last_block "data";
  do data <- py_setkey data "eth_tx_hash" tx_hash;
  do block_number <- py_getkey eth "eth_block_number";
  do data <- py_setkey data "eth_block_number" block_number;
  do last_block <- py_setkey last_block "eth_tx_hash" tx_hash;
  do last_block <- py_setkey last_block "eth_block_number" block_number;
  do has_tx <- py_in "transaction" data;
  do data <-
    (if has_tx then
       do tx <- py_getkey data "transaction";
       do tx <- py_setkey tx "eth_tx_hash" tx_hash;
       do tx <- py_setkey tx "eth_block_number" block_number;
       py_setkey data "transaction" tx
     else Ok data);
  do last_block <- py_setkey last_block "data" data;
  do c <- set_last (chain self) last_block;
  let self := set_chain self c in
  Ok (self, save_chain self).


(** ** Balances *)

(** [hash(v)] has an answer. *)
Definition hashable (v : value) : bool :=
  match v with
  | VList _ | VDict _ => false
  | _ => true
  end.

(** [for x in v] *)
Definition py_iter (v : value) : outcome (list value) :=
  match v with
  | VList l => Ok l
  | VStr s => Ok (map (fun c => VStr (String c EmptyString)) (list_ascii_of_string s))
  | VDict kvs => Ok (map (fun kv => VStr (fst kv)) kvs)
  | _ => Raise
  end.

(** The dict [balances]: hashable keys, in insertion order; two keys are
    the same if they are equal ([True] and 1, for one). *)
Abbreviation ledger_balances := (list (value * spec_float)) (only parsing).

(** [balances.get(k, default)] *)
Fixpoint balance_get (k : value) (balances : ledger_balances)
    (default : spec_float) : spec_float :=
  match balances with
  | [] => default
  | (k', x) :: rest => if py_eq k k' then x else balance_get k rest default
  end.

(** [balances[k] = x] *)
Fixpoint balance_set (k : value) (x : spec_float) (balances : ledger_balances)
  : ledger_balances :=
  match balances with
  | [] => [(k, x)]
  | (k', x') :: rest =>
      if py_eq k k' then (k', x) :: rest else (k', x') :: balance_set k x rest
  end.

(** [0.0] *)
Definition float_zero : spec_float := S754_zero false.

(** [float(amount or 0)], and [0.0] where that raises. *)
Definition amount_or_zero (amount : value) : spec_float :=
  match py_float (py_or amount (VInt 0)) with
  | FloatOk f => f
  | _ => float_zero
  end.

(** [balances[wallet] = balances.get(wallet, 0.0) + delta] for a true
    [wallet]. *)
Definition move_balance (wallet : value) (op : spec_float -> spec_float -> spec_float)
    (amount : spec_float) (balances : ledger_balances) : outcome ledger_balances :=
  if truthy wallet then
    if hashable wallet
    then Ok (balance_set wallet (op (balance_get wallet balances float_zero) amount) balances)
    else Raise
  else Ok balances.

(** The body of the loop of [compute_balances]. *)
Definition balance_step (balances : ledger_balances) (block : value)
  : outcome ledger_balances :=
  do d <- py_get block "data" (VDict []);
  let data := py_or d (VDict []) in
  do t <- py_get data "transaction" (VDict []);
  let tx := py_or t (VDict []) in
  if negb (truthy tx) then Ok balances else
  do sender <- py_get tx "sender_id" VNone;
  do receiver <- py_get tx "receiver_id" VNone;
  do a <- py_get tx "amount" (VInt 0);
  let amount := amount_or_zero a in
  do balances <- move_balance sender float_sub amount balances;
  move_balance receiver float_add amount balances.

Fixpoint balance_loop (balances : ledger_balances) (blocks : list value)
  : outcome ledger_balances :=
  match blocks with
  | [] => Ok balances
  | block :: rest =>
      do balances <- balance_step balances block;
      balance_loop balances rest
  end.

Definition compute_balances {Sg : Signer} (self : node) : outcome ledger_balances :=
  do blocks <- py_iter (chain self);
  balance_loop [] blocks.

Definition get_balance {Sg : Signer} (self : node) (wallet_id : value)
  : outcome spec_float :=
  do balances <- compute_balances self;
  if hashable wallet_id then Ok (balance_get wallet_id balances float_zero) else Raise.

(** ** The risk heuristic of [transaction_fraud_checker.py] *)

Definition assess_risk (tx : value) : outcome (Z * list string) :=
  let risk_score := 0 in
  let factors := [] in
  let amount :=
    match tx with
    | VDict kvs =>
        match (match dict_lookup "amount" kvs with
               | Some v => py_float v
               | None => FloatOk float_zero
               end) with
        | FloatOk f => f
        | _ => float_zero
        end
    | _ => float_zero
    end in
  let '(risk_score, factors) :=
    if float_gt amount (float_of_int 10000)
    then (risk_score + 2, factors ++ ["High Amount"])%list
    else (risk_score, factors) in
  let speed :=
    match (do s <- py_get tx "transaction_speed" (VInt 3); py_int s) with
    | Ok n => n
    | _ => 3
    end in
  let '(risk_score, factors) :=
    if speed <? 2
    then (risk_score + 1, factors ++ ["Very Fast Transaction"])%list
    else (risk_score, factors) in
  do sender_country <- py_get tx "sender_country" VNone;
  do receiver_country <- py_get tx "receiver_country" VNone;
  let '(risk_score, factors) :=
    if negb (py_eq sender_country receiver_country)
    then (risk_score + 1, factors ++ ["Cross-Border"])%list
    else (risk_score, factors) in
  Ok (risk_score, factors).

(** ** The ledger of [transaction_fraud_checker.py] *)

(** [Blockchain.recent]: [list(reversed(self.chain[-limit:]))]. *)
Definition Blockchain_recent (chain : value) (limit : Z) : outcome value :=
  match chain with
  | VList l => Ok (VList (rev (slice_last l limit)))
  | VStr s =>
      Ok (VList (rev (map (fun c => VStr (String c EmptyString))
                        (slice_last (list_ascii_of_string s) limit))))
  | _ => Raise
  end.


(** A block says that [k] sent or received. *)
Definition names_wallet (block k : value) : Prop :=
  exists d t : value,
    py_get block "data" (VDict []) = Ok d /\
    py_get (py_or d (VDict [])) "transaction" (VDict []) = Ok t /\
    truthy k = true /\
    (py_get (py_or t (VDict [])) "sender_id" VNone = Ok k \/
     py_get (py_or t (VDict [])) "receiver_id" VNone = Ok k).

(** ** Transfers *)

(** What a block says to [compute_balances]: nothing, or a sender, a
    receiver and a whole amount. *)
Record transfer : Type := Transfer { payer : string; payee : string; paid : Z }.

Inductive carries : value -> option transfer -> Prop :=
| carries_nothing (block d t : value) :
    py_get block "data" (VDict []) = Ok d ->
    py_get (py_or d (VDict [])) "transaction" (VDict []) = Ok t ->
    truthy t = false ->
    carries block None
| carries_transfer (block data tx : dict) (s t : string) (a : Z) :
    dict_lookup "data" block = Some (VDict data) ->
    dict_lookup "transaction" data = Some (VDict tx) ->
    dict_lookup "sender_id" tx = Some (VStr s) ->
    dict_lookup "receiver_id" tx = Some (VStr t) ->
    dict_lookup "amount" tx = Some (VInt a) ->
    s <> EmptyString -> t <> EmptyString ->
    carries (VDict block) (Some (Transfer s t a)).

(** What wallet [w] received less what it sent. *)
Fixpoint net (w : string) (ts : list (option transfer)) : Z :=
  match ts with
  | [] => 0
  | None :: rest => net w rest
  | Some x :: rest =>
      (if String.eqb (payee x) w then paid x else 0)
      - (if String.eqb (payer x) w then paid x else 0)
      + net w rest
  end.

(** The amounts, added up without their signs. *)
Fixpoint turnover (ts : list (option transfer)) : Z :=
  match ts with
  | [] => 0
  | None :: rest => turnover rest
  | Some x :: rest => Z.abs (paid x) + turnover rest
  end.

(** ** Concrete inputs *)

(** A signature scheme to run the class with. It is not RSA: the signature of
    a message is the digest of key and message, and the public text is the
    key. A signature made with a key verifies under that key, and nothing
    else is used of it. *)
#[local] Instance demo_signer : Signer := {|
  private_key := string;
  randomness := unit;
  public_pem := fun k => k;
  sign_hex := fun k msg _ => sha256_hex (k ++ msg);
  verify_hex := fun pem msg sg => String.eqb sg (sha256_hex (pem ++ msg))
|}.

(** Two unsigned PoA blocks, as a store written by an older version could
    hold them. *)
Definition legacy_genesis : dict :=
  [ ("index", VInt 1);
    ("timestamp", VInt 1700000000);
    ("data", VDict []);
    ("merkle_root",
      VStr "44136fa355b3678a1146ad16f7e8649e94fb4fc21fe77e8310c060f61caaff8a");
    ("previous_hash", VStr "0");
    ("hash",
      VStr "78239d1e9dcdcabc2d8028c03a1b64f3a19465fb93d028125c602215772a0aac");
    ("nonce", VInt 0);
    ("difficulty", VInt 0);
    ("consensus", VStr "poa");
    ("authority_id", VStr "node-a") ].

Definition legacy_second : dict :=
  [ ("index", VInt 2);
    ("timestamp", VInt 1700000060);
    ("data", VDict [("event", VStr "tx1")]);
    ("merkle_root",
      VStr "1d61aaa76a1fdc97d825aa4beb275860c57cfaf7e8e2af205a0487eed2322be3");
    ("previous_hash",
      VStr "78239d1e9dcdcabc2d8028c03a1b64f3a19465fb93d028125c602215772a0aac");
    ("hash",
      VStr "fd94ae76b2a1813b01c605149eacf56976d0e78cfb3a462a5c38f392e3ee39b4");
    ("nonce", VInt 0);
    ("difficulty", VInt 0);
    ("consensus", VStr "poa");
    ("authority_id", VStr "node-a") ].

Definition legacy_chain : list dict := [legacy_genesis; legacy_second].

(** A PoA node that starts without a store and appends one payload, under
    [demo_signer]; no fuel is needed. Its chain is [poa_chain], below. *)
Definition tx1 : value := VDict [("event", VStr "tx1")].

Definition poa_node : outcome (node * file) :=
  fresh_ledger 0 "poa" None "demo key" 1700000000 tt [(1700000060, tt, tx1)].

Definition poa_chain : list dict :=
  [ [ ("index", VInt 1);
      ("timestamp", VInt 1700000000);
      ("data", VDict [("system", VStr "Blockchain Initialized")]);
      ("merkle_root",
        VStr "3fe49fd9c2aa76d51e407639ac9157bef1aa3aa85fe9d5c70ac9f4985d49e0ad");
      ("previous_hash", VStr "0");
      ("hash", VStr "996417fc628390128b6728f9caae72020bcaa2ed3c9a6689ef7ba47ec07ba907");
      ("nonce", VInt 0);
      ("difficulty", VInt 0);
      ("consensus", VStr "poa");
      ("signature", VStr "9b58770e5f5900ad89bc0a79941cde184d850e01466f619d4ab09db589133127");
      ("public_key", VStr "demo key");
      ("authority_id", VStr "c785810dcf1f1eec") ];
    [ ("index", VInt 2);
      ("timestamp", VInt 1700000060);
      ("data", VDict [("event", VStr "tx1")]);
      ("merkle_root",
        VStr "1d61aaa76a1fdc97d825aa4beb275860c57cfaf7e8e2af205a0487eed2322be3");
      ("previous_hash", VStr "996417fc628390128b6728f9caae72020bcaa2ed3c9a6689ef7ba47ec07ba907");
      ("hash", VStr "c4fea7e5b6c0f0a50b77b9a17c70d2343f10d66f0348593352bf44779317ac67");
      ("nonce", VInt 0);
      ("difficulty", VInt 0);
      ("consensus", VStr "poa");
      ("signature", VStr "c5ee2ad76e517075579c3b5e1414fbe98fa7cc1797865fac084b75ba36b5c9ef");
      ("public_key", VStr "demo key");
      ("authority_id", VStr "c785810dcf1f1eec") ] ].

(** The first block of a PoW node of difficulty 1 started without a store,
    under [demo_signer]. *)
Definition pow_genesis : dict :=
  [ ("index", VInt 1);
    ("timestamp", VInt 1700000000);
    ("data", VDict [("system", VStr "Blockchain Initialized")]);
    ("merkle_root",
      VStr "3fe49fd9c2aa76d51e407639ac9157bef1aa3aa85fe9d5c70ac9f4985d49e0ad");
    ("previous_hash", VStr "0");
    ("hash",
      VStr "0cd3fac4b4e2e5b333a6e8c2681836421f2a42fe284eb980a8e4b464c67d8c5a");
    ("nonce", VInt 20);
    ("difficulty", VInt 1);
    ("consensus", VStr "pow");
    ("signature",
      VStr "9b58770e5f5900ad89bc0a79941cde184d850e01466f619d4ab09db589133127");
    ("public_key", VStr "demo key") ].

(** The block that a PoW node of difficulty 2 appends to it. *)
Definition pow_second : dict :=
  [ ("index", VInt 2);
    ("timestamp", VInt 1700000012);
    ("data", VDict [("event", VStr "tx1")]);
    ("merkle_root",
      VStr "1d61aaa76a1fdc97d825aa4beb275860c57cfaf7e8e2af205a0487eed2322be3");
    ("previous_hash",
      VStr "0cd3fac4b4e2e5b333a6e8c2681836421f2a42fe284eb980a8e4b464c67d8c5a");
    ("hash",
      VStr "0066bff8a747d385b869ed9559c843436517b30fbb717d23836dbef92b280b1e");
    ("nonce", VInt 10);
    ("difficulty", VInt 2);
    ("consensus", VStr "pow");
    ("signature",
      VStr "c5ee2ad76e517075579c3b5e1414fbe98fa7cc1797865fac084b75ba36b5c9ef");
    ("public_key", VStr "demo key") ].

(** A payload with a nested dict, and the same with its keys in another
    order. *)
Definition payload_one : value :=
  VDict [("amount", VInt 250);
         ("transaction", VDict [("sender_id", VStr "IN12345");
                                ("receiver_id", VStr "US67890")])].

Definition payload_two : value :=
  VDict [("transaction", VDict [("receiver_id", VStr "US67890");
                                ("sender_id", VStr "IN12345")]);
         ("amount", VInt 250)].

(** A candidate that is refused, one that is adopted, and an append. *)
Definition demo_calls : list call :=
  [Replace (VList []); Replace (blocks legacy_chain); Store 1700000120 tt tx1].

(** A transaction of [main.py] that is above the threshold. *)
Definition demo_high_value : dict :=
  [ ("amount", VInt 26000);
    ("sender_balance", VInt 70000);
    ("receiver_balance", VInt 20000);
    ("transaction_speed", VInt 1);
    ("sender_country", VStr "US");
    ("receiver_country", VStr "UK");
    ("sender_id", VStr "US67890");
    ("receiver_id", VStr "UK54321") ].

(** The items of the blocks of a chain. *)
Definition items_of (c : value) : list dict :=
  match c with
  | VList l => map (fun v => match v with VDict b => b | _ => [] end) l
  | _ => []
  end.

(** The chain of the ledger [poa_chain] after the pipeline has refused
    [demo_high_value]: three blocks, the last with the refusal as payload. *)
Definition audit_chain : list dict :=
  Eval vm_compute in
    match evaluate_transaction (AMLPipeline__init__ None)
            (store_evaluation 0 (Node "poa" (blocks poa_chain) [] 4 "demo key")
               1700000120 tt)
            (VDict demo_high_value) (VStr "tx-4") with
    | Ok (Recorded (ledger, _, _) _) => items_of (chain ledger)
    | _ => []
    end.

(** The payload of its last block. *)
Definition audit_payload : dict :=
  Eval vm_compute in
    match dict_lookup "data" (nth 2 audit_chain []) with
    | Some (VDict d) => d
    | _ => []
    end.

(** What [write_to_ethereum] returns after a write. *)
Definition demo_receipt : dict :=
  [ ("eth_tx_hash", VStr "0x5c504ed432cb51138bcf09aa5e8a410dd4a1e204ef84bfed1be16dfba1b22060");
    ("eth_block_number", VInt 12);
    ("contract", VStr "0xCf7Ed3AccA5a467e9e704C703E8D87F634fB0Fc9") ].

(** The balances of the ledger [audit_chain]: the refused transaction is
    counted. *)
Definition audit_balances : ledger_balances :=
  Eval vm_compute in
    match compute_balances (Node "poa" (blocks audit_chain) [] 4 "demo key") with
    | Ok balances => balances
    | _ => []
    end.

(** A chain with a record in the middle whose sender is a list. *)
Definition unreadable_record : dict :=
  [("data",
    VDict [("external_id", VStr "tx-9");
           ("transaction",
            VDict [("sender_id", VList [VStr "US67890"]);
                   ("receiver_id", VStr "UK54321");
                   ("amount", VInt 5)])])].

(* ================================================================== *)
(** * Part II: properties *)
(* ================================================================== *)

Arguments sha256_hex : simpl never.
Arguments json_dumps : simpl never.
Arguments py_str : simpl never.
Arguments str_of_Z : simpl never.
Arguments str_repeat : simpl never.
Arguments py_eq : simpl nomatch.
Arguments _compute_pow_hash : simpl never.
Arguments _compute_poa_hash : simpl never.
Arguments calculate_merkle_root : simpl never.
Arguments _authority_id : simpl never.
Arguments _sign_data : simpl never.

(** ** Dicts *)

Lemma dict_lookup_set_same (k : string) (v : value) (b : dict) :
  dict_lookup k (dict_set k v b) = Some v.
Proof.
  induction b as [|[k' v'] b IH]; simpl.
  - now rewrite String.eqb_refl.
  - destruct (String.eqb k k') eqn:E; simpl.
    + now rewrite String.eqb_refl.
    + now rewrite E.
Qed.

Lemma dict_lookup_set_other (k k' : string) (v : value) (b : dict) :
  k' <> k -> dict_lookup k' (dict_set k v b) = dict_lookup k' b.
Proof.
  intros Hne. induction b as [|[k0 v0] b IH]; simpl.
  - destruct (String.eqb_spec k' k); congruence.
  - destruct (String.eqb_spec k k0) as [->|Hk]; simpl.
    + destruct (String.eqb_spec k' k0); congruence.
    + destruct (String.eqb_spec k' k0); congruence.
Qed.

(** ** Equality with a string *)

Lemma py_eq_str_r (a : value) (s : string) :
  py_eq a (VStr s) = true <-> a = VStr s.
Proof.
  destruct a; simpl; split; try discriminate; intros H.
  - apply String.eqb_eq in H. congruence.
  - injection H as ->. apply String.eqb_refl.
Qed.

Lemma py_eq_str_l (a : value) (s : string) :
  py_eq (VStr s) a = true <-> a = VStr s.
Proof.
  destruct a; simpl; split; try discriminate; intros H.
  - apply String.eqb_eq in H. congruence.
  - injection H as ->. apply String.eqb_refl.
Qed.

(** ** The loop body on a dict block *)

Section Refinement.

Context {Sg : Signer}.

Lemma has_fields_dict (b : dict) :
  has_fields (VDict b) REQUIRED_FIELDS = Ok (spec_fields b).
Proof.
  unfold spec_fields, has_key, REQUIRED_FIELDS. simpl.
  destruct (dict_lookup "timestamp" b); simpl; [|reflexivity].
  destruct (dict_lookup "data" b); simpl; [|reflexivity].
  destruct (dict_lookup "merkle_root" b); simpl; [|reflexivity].
  destruct (dict_lookup "hash" b); reflexivity.
Qed.

Lemma merkle_check_dict (b : dict) :
  merkle_check (VDict b) = Ok (spec_merkle b).
Proof. reflexivity. Qed.

Lemma signature_check_dict (b : dict) :
  signature_check (VDict b) = Ok (spec_signature b).
Proof.
  unfold signature_check, spec_signature, get_or. simpl.
  destruct (truthy _ && truthy _); reflexivity.
Qed.

Lemma prefix_zeros (n : nat) (h : string) :
  String.prefix (string_of_list_ascii (repeat "0"%char n)) h
  = (n <=? leading_zeros h)%nat.
Proof.
  revert h. induction n as [|n IH]; intros h.
  - destruct h; reflexivity.
  - destruct h as [|c h]; [reflexivity|]. cbn [repeat string_of_list_ascii String.prefix leading_zeros].
    destruct (ascii_dec "0" c) as [<-|Hne].
    + rewrite IH. reflexivity.
    + destruct (Ascii.eqb_spec c "0"); [congruence|reflexivity].
Qed.

Lemma prefix_leading_zeros (d : Z) (h : string) :
  0 < d ->
  String.prefix (str_repeat "0" d) h = (Z.of_nat (leading_zeros h) >=? d).
Proof.
  intros Hd. unfold str_repeat. rewrite prefix_zeros.
  destruct (Nat.leb_spec (Z.to_nat d) (leading_zeros h));
    destruct (Z.geb_spec (Z.of_nat (leading_zeros h)) d); try reflexivity; lia.
Qed.

Lemma pow_hash_digest (p m : value) (t n : Z) :
  _compute_pow_hash p t m n
  = blockDigest (py_str p) (str_of_Z t) (py_str m) (str_of_Z n).
Proof. reflexivity. Qed.

Lemma poa_hash_digest (p m a : value) (t : Z) :
  _compute_poa_hash p t m a
  = blockDigest (py_str p) (str_of_Z t) (py_str m) (py_str a).
Proof. reflexivity. Qed.

Lemma py_int_not_timeout (v : value) : py_int v <> Timeout.
Proof.
  destruct v; simpl; try discriminate. destruct (int_of_str s); discriminate.
Qed.

Ltac case_int v :=
  let E := fresh "E" in
  destruct (py_int v) eqn:E;
  [ | | exfalso; exact (py_int_not_timeout _ E) ]; simpl; try reflexivity.

(** The [try] of step 3 reads the three numbers, or gives up. *)
Lemma read_header_dict (b : dict) :
  try_except (do h <- read_header (VDict b); Ok (Some h)) (Ok None)
  = Ok (match num_field b "timestamp", num_field b "nonce",
              num_field b "difficulty" with
        | Some t, Some n, Some d =>
            Some (t, get_or b "previous_hash" (VStr EmptyString),
                  get_or b "merkle_root" (VStr EmptyString), n, d)
        | _, _, _ => None
        end).
Proof.
  unfold read_header, num_field, get_or. simpl.
  destruct (dict_lookup "timestamp" b) as [t|]; simpl;
    [case_int t|];
    (destruct (dict_lookup "nonce" b) as [n|]; simpl; [case_int n|]);
    (destruct (dict_lookup "difficulty" b) as [d|]; simpl;
       [case_int d|reflexivity]).
Qed.

Lemma consensus_check_dict (b : dict) :
  consensus_check (VDict b) = Ok (spec_consensus b).
Proof.
  unfold consensus_check. rewrite read_header_dict.
  unfold spec_consensus, spec_tag. cbn [bind].
  destruct (num_field b "timestamp") as [t|]; [|reflexivity].
  destruct (num_field b "nonce") as [n|]; [|reflexivity].
  destruct (num_field b "difficulty") as [d|]; [|reflexivity].
  cbn [py_get bind]. fold (get_or b "hash" VNone).
  fold (get_or b "authority_id" (VStr EmptyString)).
  destruct (dict_lookup "consensus" b) as [tag|].
  - destruct (py_eq tag (VStr "pow")).
    + rewrite pow_hash_digest.
      destruct (py_eq (VStr _) (get_or b "hash" VNone)); [|reflexivity].
      destruct (Z.ltb_spec 0 d) as [Hd|Hd]; [|reflexivity].
      rewrite prefix_leading_zeros by exact Hd.
      cbn. destruct (_ >=? d); reflexivity.
    + rewrite poa_hash_digest.
      destruct (py_eq (VStr _) (get_or b "hash" VNone)); reflexivity.
  - destruct (py_eq (VStr (if 0 <? d then "pow" else "poa")) (VStr "pow")).
    + rewrite pow_hash_digest.
      destruct (py_eq (VStr _) (get_or b "hash" VNone)); [|reflexivity].
      destruct (Z.ltb_spec 0 d) as [Hd|Hd]; [|reflexivity].
      rewrite prefix_leading_zeros by exact Hd.
      cbn. destruct (_ >=? d); reflexivity.
    + rewrite poa_hash_digest.
      destruct (py_eq (VStr _) (get_or b "hash" VNone)); reflexivity.
Qed.

Lemma link_check_blocks (bs : list dict) (i : nat) (b : dict) :
  (i < List.length bs)%nat ->
  link_check (blocks bs) i (VDict b) = Ok (spec_linkage (prev_of bs i) b).
Proof.
  intros Hi. unfold link_check, blocks. destruct i as [|j]; [reflexivity|].
  cbn [Nat.ltb Nat.leb prev_of py_getitem Nat.sub]. rewrite ?Nat.sub_0_r, nth_error_map.
  destruct (nth_error bs j) as [p|] eqn:Ej.
  - reflexivity.
  - apply nth_error_None in Ej. lia.
Qed.

Lemma check_block_blocks (bs : list dict) (i : nat) (b : dict) :
  nth_error bs i = Some b ->
  check_block (blocks bs) i = Ok (spec_block (prev_of bs i) b).
Proof.
  intros Hb. unfold check_block.
  assert (Hi : (i < List.length bs)%nat)
    by (apply nth_error_Some; congruence).
  replace (py_getitem (blocks bs) i) with (Ok (VDict b))
    by (unfold blocks; cbn [py_getitem]; now rewrite nth_error_map, Hb).
  cbn [bind].
  rewrite has_fields_dict, link_check_blocks, merkle_check_dict,
    consensus_check_dict, signature_check_dict by exact Hi.
  unfold spec_block. cbn [bind].
  destruct (spec_fields b); [|reflexivity].
  destruct (spec_linkage (prev_of bs i) b); [|reflexivity].
  destruct (spec_merkle b); [|reflexivity].
  destruct (spec_consensus b); reflexivity.
Qed.

Lemma for_blocks_spec (pre bs : list dict) :
  for_blocks (check_block (blocks (pre ++ bs)))
    (seq (List.length pre) (List.length bs))
  = Ok (spec_blocks (prev_of (pre ++ bs) (List.length pre)) bs).
Proof.
  revert pre. induction bs as [|b rest IH]; intros pre; [reflexivity|].
  cbn [List.length seq for_blocks spec_blocks].
  rewrite (check_block_blocks (pre ++ b :: rest) (List.length pre) b)
    by (rewrite nth_error_app2, Nat.sub_diag by lia; reflexivity).
  cbn [bind]. destruct (spec_block _ b); [|reflexivity].
  specialize (IH (pre ++ [b])%list).
  rewrite <- app_assoc, length_app in IH. cbn [List.length app] in IH.
  rewrite Nat.add_1_r in IH. rewrite IH. cbn [prev_of].
  rewrite nth_error_app2, Nat.sub_diag by lia. reflexivity.
Qed.

(** On a list of dict blocks the code computes the validator of the spec,
    and raises nothing. *)
Lemma is_valid_chain_blocks (bs : list dict) :
  is_valid_chain (blocks bs) = Ok (isValid bs).
Proof.
  unfold is_valid_chain, isValid. destruct bs as [|b rest]; [reflexivity|].
  cbn [blocks map truthy negb py_len bind List.length].
  rewrite length_map. exact (for_blocks_spec [] (b :: rest)).
Qed.

End Refinement.

(** ** Tamper evidence *)

Section TamperEvidence.

Context {Sg : Signer}.





(** Step 3 compares the stored hash with the recomputed digest. *)
Lemma spec_consensus_true (b : dict) :
  spec_consensus b = true ->
  exists D, recomputed b = Some D /\ get_or b "hash" VNone = VStr D.
Proof.
  unfold spec_consensus, recomputed.
  destruct (num_field b "timestamp") as [t|]; [|discriminate].
  destruct (num_field b "nonce") as [n|]; [|discriminate].
  destruct (num_field b "difficulty") as [d|]; [|discriminate].
  rewrite pow_hash_digest, poa_hash_digest.
  destruct (py_eq (spec_tag b d) (VStr "pow")); intros H.
  - apply andb_prop in H as [H _]. apply py_eq_str_l in H. eauto.
  - apply py_eq_str_l in H. eauto.
Qed.



Lemma get_or_present (b : dict) (k : string) (s : string) :
  get_or b k VNone = VStr s -> dict_lookup k b = Some (VStr s).
Proof. unfold get_or. destruct (dict_lookup k b); congruence. Qed.

Lemma spec_blocks_app (prev : option dict) (pre rest : list dict) :
  spec_blocks prev (pre ++ rest)
  = spec_blocks prev pre && spec_blocks (last_opt prev pre) rest.
Proof.
  revert prev. induction pre as [|x pre IH]; intros prev; [reflexivity|].
  cbn [app spec_blocks last_opt]. now rewrite IH, andb_assoc.
Qed.

Lemma last_opt_valid (prev : option dict) (pre : list dict) :
  pre <> [] -> spec_blocks prev pre = true ->
  exists p, last_opt prev pre = Some p /\ spec_consensus p = true.
Proof.
  revert prev. induction pre as [|x pre IH]; intros prev Hne H; [congruence|].
  cbn [spec_blocks last_opt] in *. apply andb_prop in H as [Hx Hrest].
  destruct pre as [|y pre'].
  - exists x. split; [reflexivity|]. unfold spec_block in Hx.
    repeat (apply andb_prop in Hx as [Hx ?]). assumption.
  - apply IH; [discriminate|assumption].
Qed.



End TamperEvidence.

Section TamperTheorem.

Context {Sg : Signer}.

Lemma nth_error_split_at (bs : list dict) (i : nat) (b : dict) :
  nth_error bs i = Some b ->
  bs = (firstn i bs ++ b :: skipn (S i) bs)%list /\ List.length (firstn i bs) = i.
Proof.
  revert i. induction bs as [|x bs IH]; intros [|i] H; try discriminate.
  - injection H as ->. split; reflexivity.
  - destruct (IH i H) as [E L]. split.
    + change (x :: bs = x :: (firstn i bs ++ b :: skipn (S i) bs)%list).
      f_equal. exact E.
    + cbn [firstn List.length]. now rewrite L.
Qed.


End TamperTheorem.




(** Two more writes that go unnoticed, because the validator reads the new
    value as it read the old one: the payload [None] is hashed as [{}], and
    the number [0] is formatted into the digest as the text ["0"] is. *)
Lemma tampering_read_alike :
  is_valid_chain (blocks legacy_chain) = Ok true /\
  (dict_lookup "data" legacy_genesis = Some (VDict []) /\
   is_valid_chain (blocks (mutate legacy_chain 0 "data" VNone)) = Ok true) /\
  (dict_lookup "previous_hash" legacy_genesis = Some (VStr "0") /\
   is_valid_chain (blocks (mutate legacy_chain 0 "previous_hash" (VInt 0))) = Ok true).
Proof. repeat split; vm_compute; reflexivity. Qed.

(** The node of [poa_node] holds [poa_chain], and so does its store. *)
Lemma poa_node_chain :
  match poa_node with
  | Ok (self, fs) => chain self = blocks poa_chain /\ fs = Holds (blocks poa_chain)
  | _ => False
  end.
Proof. vm_compute. split; reflexivity. Qed.

(** ** Replacing the chain *)

Lemma is_valid_chain_blocks_total {Sg : Signer} (bs : list dict) :
  is_valid_chain (blocks bs) = Ok true \/ is_valid_chain (blocks bs) = Ok false.
Proof. rewrite is_valid_chain_blocks. destruct (isValid bs); auto. Qed.

(** Candidates of the declared type.  For a node that holds a list and a
    candidate list of dict blocks, [replace_chain] returns a boolean; it is
    [True] exactly when the candidate is not empty, strictly longer than the
    node's chain and accepted by [is_valid_chain]; then the node holds the
    candidate and the store holds it too; otherwise node and store are as
    before.  (A difficulty beyond the largest size of a text, for which
    Python cannot build the zeros to compare with, is one of the limits left
    out of the model.) *)
Theorem replace_chain_rule {Sg : Signer} :
  forall (self : node) (fs : file) (cur : list value) (cand : list dict),
    chain self = VList cur ->
    exists adopted : bool,
      replace_chain self fs (blocks cand)
      = Ok (adopted,
            if adopted then set_chain self (blocks cand) else self,
            if adopted then Holds (blocks cand) else fs)
      /\ (adopted = true <->
          cand <> [] /\ (List.length cur < List.length cand)%nat
          /\ is_valid_chain (blocks cand) = Ok true).
Proof.
  intros self fs cur cand Hcur. unfold replace_chain.
  destruct cand as [|b rest].
  - exists false. split; [reflexivity|]. split; [discriminate|]. now intros [H _].
  - set (cand := b :: rest).
    replace (truthy (blocks cand)) with true by reflexivity.
    replace (py_len (blocks cand)) with (Ok (List.length cand))
      by (unfold blocks; cbn [py_len]; now rewrite length_map).
    rewrite Hcur. cbn [negb py_len bind].
    destruct (Nat.leb_spec (List.length cand) (List.length cur)) as [Hle|Hlt].
    + exists false. split; [reflexivity|]. split; [discriminate|]. intros (_ & H & _). lia.
    + rewrite is_valid_chain_blocks. cbn [bind].
      destruct (isValid cand) eqn:Hv.
      * exists true. split; [reflexivity|]. split; [|reflexivity].
        intros _. repeat split; [discriminate|exact Hlt].
      * exists false. split; [reflexivity|]. split; [discriminate|].
        intros (_ & _ & H). discriminate.
Qed.

(** A node that holds the first block of [legacy_chain] is offered the whole
    of it. *)
Lemma replace_chain_rule_witness :
  exists adopted : bool,
    replace_chain (Node "poa" (blocks [legacy_genesis]) [] 4 "demo key") NoFile
      (blocks legacy_chain)
    = Ok (adopted,
          if adopted
          then set_chain (Node "poa" (blocks [legacy_genesis]) [] 4 "demo key")
                 (blocks legacy_chain)
          else Node "poa" (blocks [legacy_genesis]) [] 4 "demo key",
          if adopted then Holds (blocks legacy_chain) else NoFile)
    /\ (adopted = true <->
        legacy_chain <> [] /\ (List.length [VDict legacy_genesis] < List.length legacy_chain)%nat
        /\ is_valid_chain (blocks legacy_chain) = Ok true).
Proof.
  exact (replace_chain_rule (Node "poa" (blocks [legacy_genesis]) [] 4 "demo key")
           NoFile [VDict legacy_genesis] legacy_chain eq_refl).
Defined.

(** ** The mining loop *)

Section Mining.

Context {Sg : Signer}.

Lemma mine_not_raise (fuel : nat) (p m : value) (t : Z) (prefix : string) (n0 : Z) :
  mine fuel p t m prefix n0 <> Raise.
Proof.
  revert n0. induction fuel as [|fuel IH]; intros n0; cbn [mine]; [discriminate|].
  destruct (String.prefix _ _); [discriminate|apply IH].
Qed.

(** What the loop returns is the first nonce, from [n0] on, whose digest
    starts with the prefix. *)
Lemma mine_ok (fuel : nat) (p m : value) (t : Z) (prefix : string) (n0 n : Z)
    (h : string) :
  mine fuel p t m prefix n0 = Ok (n, h) ->
  h = _compute_pow_hash p t m n /\ String.prefix prefix h = true /\
  n0 <= n < n0 + Z.of_nat fuel /\
  (forall k, n0 <= k < n ->
             String.prefix prefix (_compute_pow_hash p t m k) = false).
Proof.
  revert n0. induction fuel as [|fuel IH]; intros n0; cbn [mine]; [discriminate|].
  destruct (String.prefix prefix (_compute_pow_hash p t m n0)) eqn:E.
  - intros H. injection H as <- <-. repeat split; try assumption; try lia.
  - intros H. destruct (IH _ H) as (Hh & Hp & Hn & Hmin).
    repeat split; try assumption; try lia.
    intros k Hk. destruct (Z.eq_dec k n0) as [->|Hne]; [exact E|].
    apply Hmin. lia.
Qed.

(** The loop is still running after [fuel] digests only if none of them
    starts with the prefix. *)
Lemma mine_timeout (fuel : nat) (p m : value) (t : Z) (prefix : string) (n0 : Z) :
  mine fuel p t m prefix n0 = Timeout ->
  forall k, n0 <= k < n0 + Z.of_nat fuel ->
            String.prefix prefix (_compute_pow_hash p t m k) = false.
Proof.
  revert n0. induction fuel as [|fuel IH]; intros n0; cbn [mine]; [intros _ k Hk; lia|].
  destruct (String.prefix prefix (_compute_pow_hash p t m n0)) eqn:E; [discriminate|].
  intros H k Hk. destruct (Z.eq_dec k n0) as [->|Hne]; [exact E|].
  apply (IH _ H). lia.
Qed.

(** Enough fuel gives the result. *)
Lemma mine_enough_fuel (fuel : nat) (p m : value) (t : Z) (prefix : string) (k : Z) :
  0 <= k < Z.of_nat fuel ->
  String.prefix prefix (_compute_pow_hash p t m k) = true ->
  exists n h, mine fuel p t m prefix 0 = Ok (n, h).
Proof.
  intros Hk Hp. destruct (mine fuel p t m prefix 0) as [[n h]| |] eqn:E.
  - eauto.
  - exfalso. exact (mine_not_raise _ _ _ _ _ _ E).
  - pose proof (mine_timeout _ _ _ _ _ _ E k ltac:(lia)). congruence.
Qed.

Lemma prefix_empty (h : string) : String.prefix EmptyString h = true.
Proof. destruct h; reflexivity. Qed.

Lemma str_repeat_nonpos (c : ascii) (d : Z) : d <= 0 -> str_repeat c d = EmptyString.
Proof.
  intros H. unfold str_repeat. replace (Z.to_nat d) with O by lia. reflexivity.
Qed.

End Mining.

(** ** Creating a block *)

Section CreateBlock.

Context {Sg : Signer}.

Lemma last_opt_snoc (prev : option dict) (pre : list dict) (p : dict) :
  last_opt prev (pre ++ [p]) = Some p.
Proof.
  revert prev. induction pre as [|x pre IH]; intros prev; [reflexivity|].
  cbn [app last_opt]. apply IH.
Qed.

Lemma tip_ok_nil : tip_ok [] "0".
Proof. reflexivity. Qed.

Lemma tip_ok_snoc (bs : list dict) (b : dict) (D : string) :
  dict_lookup "hash" b = Some (VStr D) -> tip_ok (bs ++ [b]) D.
Proof. intros H. unfold tip_ok. now rewrite last_opt_snoc. Qed.

Lemma isValid_tip (bs : list dict) :
  isValid bs = true -> exists D, tip_ok bs D.
Proof.
  unfold isValid, tip_ok. destruct bs as [|b rest]; [discriminate|]. intros H.
  destruct (last_opt_valid None (b :: rest) ltac:(discriminate) H) as (p & -> & Hc).
  destruct (spec_consensus_true p Hc) as (D & _ & Hh).
  exists D. now apply get_or_present.
Qed.

Lemma previous_hash_of_blocks (bs : list dict) (D : string) :
  tip_ok bs D -> previous_hash_of (blocks bs) = Ok (VStr D).
Proof.
  unfold tip_ok, previous_hash_of. destruct bs as [|b0 rest].
  - cbn. intros ->. reflexivity.
  - destruct (exists_last (l := b0 :: rest) ltac:(discriminate)) as (pre & p & ->).
    rewrite last_opt_snoc. intros Hp.
    unfold blocks, last_block. rewrite map_app. cbn [map].
    replace (truthy _) with true by (destruct (map VDict pre); reflexivity).
    cbn [py_len bind py_getitem]. rewrite length_app. cbn [List.length].
    rewrite nth_error_app2 by lia.
    replace (_ - _)%nat with O by lia. cbn [nth_error bind py_getkey].
    now rewrite Hp.
Qed.

(** What a call of [create_block] comes to, on a node that holds dict
    blocks with a tip: a created block appended and persisted; never an
    exception; no result within the fuel only in PoW mode, when none of the
    first [fuel] nonces gives a digest with the prefix. *)
Lemma create_block_cases (fuel : nat) (self : node) (now : Z) (r : randomness)
    (data : value) (bs : list dict) (D : string) :
  chain self = blocks bs ->
  tip_ok bs D ->
  match create_block fuel self now r data with
  | Ok (self', fs', blk) =>
      exists b, blk = VDict b /\ created self bs D now r data b /\
                self' = set_chain self (blocks (bs ++ [b])) /\
                fs' = Holds (blocks (bs ++ [b]))
  | Raise => False
  | Timeout =>
      String.eqb (consensus self) "pow" = true /\
      forall k, 0 <= k < Z.of_nat fuel ->
        String.prefix (str_repeat "0" (difficulty self))
          (_compute_pow_hash (VStr D) now (VStr (calculate_merkle_root data)) k)
        = false
  end.
Proof.
  intros Hc Htip. unfold create_block, created.
  rewrite Hc, (previous_hash_of_blocks bs D Htip). cbn [bind].
  assert (Happ : forall b, py_append (blocks bs) (VDict b) = Ok (blocks (bs ++ [b])))
    by (intros b; unfold blocks; cbn [py_append]; now rewrite map_app).
  assert (Hlen : py_len (blocks bs) = Ok (List.length bs))
    by (unfold blocks; cbn [py_len]; now rewrite length_map).
  destruct (String.eqb (consensus self) "pow") eqn:Emode.
  - destruct (mine fuel (VStr D) now (VStr (calculate_merkle_root data))
                (str_repeat "0" (difficulty self)) 0) as [[n h]| |] eqn:Em.
    + cbn [bind fst snd]. rewrite Hlen. cbn [bind]. rewrite Happ. cbn [bind].
      destruct (mine_ok _ _ _ _ _ _ _ _ Em) as (Hh & Hp & Hn & Hmin).
      eexists. split; [reflexivity|]. split; [|split; reflexivity].
      exists n. rewrite <- Hh. repeat split; try assumption; try lia.
    + exact (mine_not_raise _ _ _ _ _ _ Em).
    + split; [reflexivity|]. intros k Hk.
      apply (mine_timeout _ _ _ _ _ _ Em). lia.
  - cbn [bind]. rewrite Hlen. cbn [bind]. rewrite Happ. cbn [bind].
    eexists. split; [reflexivity|]. split; [reflexivity|]. split; reflexivity.
Qed.

End CreateBlock.

(** ** A created block passes the five checks *)

Section CreatedBlocks.

Context {Sg : Signer}.

Ltac lookups :=
  cbn [dict_lookup dict_set block_record String.eqb Ascii.eqb Bool.eqb andb
       has_key get_or num_field spec_tag py_int].

Lemma py_or_dict (data : value) :
  is_dict data = true -> py_or data (VDict []) = data.
Proof. destruct data as [| | | | |[|x l]]; try discriminate; reflexivity. Qed.

Lemma py_eq_str_refl (s : string) : py_eq (VStr s) (VStr s) = true.
Proof. apply String.eqb_refl. Qed.

(** The fields a created block carries. *)
Lemma created_fields (self : node) (bs : list dict) (D : string) (now : Z)
    (r : randomness) (data : value) (b : dict) :
  created self bs D now r data b ->
  dict_lookup "index" b = Some (VInt (Z.of_nat (List.length bs) + 1)) /\
  dict_lookup "timestamp" b = Some (VInt now) /\
  dict_lookup "data" b = Some data /\
  dict_lookup "merkle_root" b = Some (VStr (calculate_merkle_root data)) /\
  dict_lookup "previous_hash" b = Some (VStr D) /\
  dict_lookup "consensus" b = Some (VStr (consensus self)) /\
  dict_lookup "signature" b = Some (VStr (_sign_data self data r)) /\
  dict_lookup "public_key" b = Some (VStr (public_pem (_private_key self))) /\
  exists h, dict_lookup "hash" b = Some (VStr h).
Proof.
  unfold created. destruct (String.eqb (consensus self) "pow").
  - intros (n & _ & _ & _ & ->). repeat split; try reflexivity. eexists. reflexivity.
  - intros ->. repeat split; try reflexivity. eexists. reflexivity.
Qed.

Lemma created_valid (self : node) (bs : list dict) (D : string) (now : Z)
    (r : randomness) (data : value) (b : dict) :
  SignerCorrect Sg ->
  is_dict data = true ->
  tip_ok bs D ->
  created self bs D now r data b ->
  spec_block (last_opt None bs) b = true.
Proof.
  intros Hsig Hdata Htip. unfold created.
  assert (Hlink : forall b', dict_lookup "previous_hash" b' = Some (VStr D) ->
                             spec_linkage (last_opt None bs) b' = true).
  { intros b' Hb'. unfold tip_ok in Htip. destruct (last_opt None bs) as [p|];
      [|reflexivity].
    cbn [spec_linkage]. unfold get_or. rewrite Hb', Htip. apply py_eq_str_refl. }
  assert (Hver : forall pem sg, pem = public_pem (_private_key self) ->
                   sg = _sign_data self data r ->
                   _verify_signature (VStr pem) data (VStr sg) = true).
  { intros pem sg -> ->. cbn [_verify_signature]. unfold _sign_data.
    apply verify_sign_hex. }
  destruct (String.eqb (consensus self) "pow") eqn:Emode.
  - intros (n & Hn & Hp & _ & ->). unfold spec_block.
    rewrite Hlink by reflexivity.
    replace (spec_fields _) with true by reflexivity.
    replace (spec_merkle _) with true
      by (unfold spec_merkle; lookups; rewrite py_or_dict by exact Hdata;
          symmetry; apply py_eq_str_refl).
    replace (spec_signature _) with true
      by (unfold spec_signature; lookups; rewrite py_or_dict by exact Hdata;
          rewrite Hver by reflexivity; now destruct (_ && _)).
    replace (spec_consensus _) with true; [reflexivity|].
    symmetry. unfold spec_consensus. lookups. cbn [py_eq]. rewrite Emode.
    rewrite <- pow_hash_digest. rewrite String.eqb_refl. cbn [andb].
    destruct (Z.ltb_spec 0 (difficulty self)) as [Hd|Hd]; [|reflexivity].
    rewrite <- prefix_leading_zeros by exact Hd. exact Hp.
  - intros ->. unfold spec_block.
    rewrite Hlink by reflexivity.
    replace (spec_fields _) with true by reflexivity.
    replace (spec_merkle _) with true
      by (unfold spec_merkle; lookups; rewrite py_or_dict by exact Hdata;
          symmetry; apply py_eq_str_refl).
    replace (spec_signature _) with true
      by (unfold spec_signature; lookups; rewrite py_or_dict by exact Hdata;
          rewrite Hver by reflexivity; now destruct (_ && _)).
    replace (spec_consensus _) with true; [reflexivity|].
    symmetry. unfold spec_consensus. lookups. cbn [py_eq]. rewrite Emode.
    rewrite <- poa_hash_digest. apply String.eqb_refl.
Qed.

End CreatedBlocks.

(** ** Runs *)

Section RunLemmas.

Context {Sg : Signer}.

Lemma prev_of_app_length (bs rest : list dict) :
  prev_of (bs ++ rest) (List.length bs) = last_opt None bs.
Proof.
  destruct bs as [|b0 bs']; [reflexivity|].
  destruct (exists_last (l := b0 :: bs') ltac:(discriminate)) as (pre & p & ->).
  rewrite last_opt_snoc, length_app, Nat.add_1_r. cbn [prev_of].
  rewrite <- app_assoc. rewrite nth_error_app2, Nat.sub_diag by lia. reflexivity.
Qed.

Lemma prev_of_app1 (bs rest : list dict) (i : nat) :
  (i < List.length bs)%nat -> prev_of (bs ++ rest) i = prev_of bs i.
Proof.
  intros Hi. destruct i as [|j]; [reflexivity|]. cbn [prev_of].
  apply nth_error_app1. lia.
Qed.

Lemma chained_nil : chained [].
Proof. intros [|i] b H; discriminate. Qed.

Lemma chained_snoc (self : node) (bs : list dict) (D : string) (now : Z)
    (r : randomness) (data : value) (b : dict) :
  chained bs -> tip_ok bs D -> created self bs D now r data b ->
  chained (bs ++ [b]).
Proof.
  intros Hch Htip Hcr i x Hx.
  destruct (Nat.lt_ge_cases i (List.length bs)) as [Hi|Hi].
  - rewrite nth_error_app1 in Hx by exact Hi. rewrite prev_of_app1 by exact Hi.
    now apply Hch.
  - assert (i = List.length bs) as ->.
    { assert (i < List.length (bs ++ [b]))%nat by (apply nth_error_Some; congruence).
      rewrite length_app in *. cbn [List.length] in *. lia. }
    rewrite nth_error_app2, Nat.sub_diag in Hx by lia. injection Hx as <-.
    destruct (created_fields _ _ _ _ _ _ _ Hcr)
      as (Hidx & _ & _ & _ & Hprev & _ & _ & _ & Hh).
    repeat split; try assumption.
    rewrite prev_of_app_length, Hprev. unfold tip_ok in Htip.
    destruct (last_opt None bs); congruence.
Qed.

Lemma create_block_store (fuel : nat) (self : node) (now : Z) (r : randomness)
    (data : value) (res : node * file * value) :
  create_block fuel self now r data = Ok res ->
  snd (fst res) = save_chain (fst (fst res)).
Proof.
  unfold create_block.
  destruct (previous_hash_of (chain self)); try discriminate. cbn [bind].
  destruct (if String.eqb _ _ then _ else _) as [[[[n0 d0] h0] au]| |];
    try discriminate. cbn [bind].
  destruct (py_len (chain self)); try discriminate. cbn [bind].
  destruct (py_append _ _); try discriminate. cbn [bind].
  intros H. injection H as <-. reflexivity.
Qed.

(** The shape of every run of appends from a node that holds dict blocks
    with a tip, for a property [P] of block lists that appending a created
    block preserves. *)
Lemma append_all_cases (fuel : nat) (cons : string) (ns : list string) (d : Z)
    (key : private_key) (P : list dict -> Prop) (ok_data : value -> bool) :
  (forall bs D now r data b,
      P bs -> tip_ok bs D -> ok_data data = true ->
      created (Node cons (blocks bs) ns d key) bs D now r data b ->
      P (bs ++ [b])%list) ->
  forall (inputs : list (Z * randomness * value)) (bs : list dict) (D : string)
         (fs : file),
    tip_ok bs D -> P bs ->
    Forall (fun x => ok_data (snd x) = true) inputs ->
    match append_all fuel (Node cons (blocks bs) ns d key) fs inputs with
    | Ok (self', fs') =>
        exists bs' D',
          self' = Node cons (blocks bs') ns d key /\
          (inputs = [] /\ fs' = fs /\ bs' = bs \/ fs' = Holds (blocks bs')) /\
          List.length bs' = (List.length bs + List.length inputs)%nat /\
          tip_ok bs' D' /\ P bs'
    | Raise => False
    | Timeout =>
        cons = "pow" /\
        exists D' t root,
          forall k, 0 <= k < Z.of_nat fuel ->
            String.prefix (str_repeat "0" d)
              (_compute_pow_hash (VStr D') t (VStr root) k) = false
    end.
Proof.
  intros HP inputs. induction inputs as [|[[now r] data] rest IH];
    intros bs D fs Htip HPbs Hok.
  - cbn [append_all]. exists bs, D. repeat split; auto.
  - cbn [append_all]. unfold store_evaluation. inversion Hok as [|? ? Hd Hrest]; subst.
    pose proof (create_block_cases fuel (Node cons (blocks bs) ns d key) now r
                  data bs D eq_refl Htip) as Hc.
    destruct (create_block fuel (Node cons (blocks bs) ns d key) now r data)
      as [[[self' fs'] blk]| |] eqn:Ecb; cbn [bind fst snd].
    + destruct Hc as (b & -> & Hcr & -> & ->).
      destruct (created_fields _ _ _ _ _ _ _ Hcr) as (_ & _ & _ & _ & _ & _ & _ & _ & h & Hh).
      specialize (IH (bs ++ [b])%list h (Holds (blocks (bs ++ [b])))
                    (tip_ok_snoc bs b h Hh)
                    (HP _ _ _ _ _ _ HPbs Htip Hd Hcr) Hrest).
      cbn [set_chain consensus nodes difficulty _private_key].
      destruct (append_all fuel _ _ rest) as [[self'' fs'']| |].
      * destruct IH as (bs' & D' & -> & Hfs & Hlen & Htip' & HP').
        exists bs', D'. repeat split; try assumption.
        -- right. destruct Hfs as [(-> & -> & ->) | ->]; reflexivity.
        -- rewrite Hlen, length_app. cbn [List.length]. lia.
      * exact IH.
      * exact IH.
    + exact Hc.
    + destruct Hc as [Hmode Hk]. cbn [consensus difficulty] in *.
      split; [now apply String.eqb_eq|]. eauto.
Qed.

End RunLemmas.

Section FreshLedger.

Context {Sg : Signer}.

(** Starting without a store is appending the genesis payload to the empty
    chain. *)
Lemma fresh_ledger_eq (fuel : nat) (cons : string) (diff : option Z)
    (key : private_key) (now : Z) (r : randomness)
    (inputs : list (Z * randomness * value)) :
  String.eqb cons "pow" || String.eqb cons "poa" = true ->
  fresh_ledger fuel cons diff key now r inputs
  = append_all fuel
      (Node cons (blocks []) []
         (match diff with Some d => d | None => DEFAULT_DIFFICULTY end) key)
      NoFile ((now, r, genesis_data) :: inputs).
Proof.
  intros Hmode. unfold fresh_ledger, __init__. rewrite Hmode.
  cbn [negb load_chain chain truthy]. unfold _init_fresh_chain.
  cbn [append_all]. unfold create_genesis_block, store_evaluation.
  cbn [set_chain consensus nodes difficulty _private_key blocks map].
  destruct (create_block fuel _ now r genesis_data) as [res| |] eqn:E;
    [|reflexivity|reflexivity].
  cbn [bind fst snd]. now rewrite (create_block_store _ _ _ _ _ _ E).
Qed.

Lemma fresh_ledger_bad_mode (fuel : nat) (cons : string) (diff : option Z)
    (key : private_key) (now : Z) (r : randomness)
    (inputs : list (Z * randomness * value)) :
  String.eqb cons "pow" || String.eqb cons "poa" = false ->
  fresh_ledger fuel cons diff key now r inputs = Raise
  /\ cons <> "pow" /\ cons <> "poa".
Proof.
  intros Hmode. unfold fresh_ledger, __init__. rewrite Hmode.
  apply orb_false_elim in Hmode as [H1 H2].
  apply String.eqb_neq in H1, H2. now repeat split.
Qed.

End FreshLedger.

(** C3. A node started without a store to which [N] payloads are appended
    holds [N + 1] dict blocks, also persisted; block [i] (from 0) has index
    [i + 1]; the first block has [previous_hash] ["0"]; every later block has
    as [previous_hash] the hash of the block before it. The run raises only
    if the consensus is neither [pow] nor [poa], and is still mining after
    [fuel] digests only in PoW mode, when for some header none of the first
    [fuel] nonces gives a digest with the prefix. *)
Theorem appended_chain_shape {Sg : Signer} :
  forall (fuel : nat) (cons : string) (diff : option Z) (key : private_key)
         (now : Z) (r : randomness) (inputs : list (Z * randomness * value)),
    match fresh_ledger fuel cons diff key now r inputs with
    | Ok (self, fs) =>
        exists bs : list dict,
          chain self = blocks bs /\ fs = Holds (blocks bs) /\
          List.length bs = S (List.length inputs) /\
          (forall i b, nth_error bs i = Some b ->
             dict_lookup "index" b = Some (VInt (Z.of_nat i + 1))) /\
          (forall g, nth_error bs 0 = Some g ->
             dict_lookup "previous_hash" g = Some (VStr "0")) /\
          (forall i p b, nth_error bs i = Some p -> nth_error bs (S i) = Some b ->
             exists h, dict_lookup "hash" p = Some (VStr h) /\
                       dict_lookup "previous_hash" b = Some (VStr h))
    | Raise => cons <> "pow" /\ cons <> "poa"
    | Timeout =>
        cons = "pow" /\
        exists D t root,
          forall k, 0 <= k < Z.of_nat fuel ->
            String.prefix
              (str_repeat "0"
                 (match diff with Some d => d | None => DEFAULT_DIFFICULTY end))
              (_compute_pow_hash (VStr D) t (VStr root) k) = false
    end.
Proof.
  intros fuel cons diff key now r inputs.
  destruct (String.eqb cons "pow" || String.eqb cons "poa") eqn:Hmode.
  - rewrite fresh_ledger_eq by exact Hmode.
    pose proof (append_all_cases fuel cons []
                  (match diff with Some d => d | None => DEFAULT_DIFFICULTY end)
                  key chained (fun _ => true)
                  (fun bs D now r data b H1 H2 _ H3 =>
                     chained_snoc _ bs D now r data b H1 H2 H3)
                  ((now, r, genesis_data) :: inputs) [] "0" NoFile
                  tip_ok_nil chained_nil) as H.
    destruct (append_all fuel _ NoFile _) as [[self fs]| |].
    + destruct H as (bs & D & -> & Hfs & Hlen & _ & Hch);
        [apply Forall_forall; reflexivity|].
      exists bs. split; [reflexivity|].
      split; [destruct Hfs as [(? & _)|?]; [discriminate|assumption]|].
      split; [exact Hlen|]. repeat split.
      * intros i b Hb. apply (Hch i b Hb).
      * intros g Hg. apply (Hch 0%nat g Hg).
      * intros i p b Hp Hb. destruct (Hch i p Hp) as (_ & (h & Hh) & _).
        destruct (Hch (S i) b Hb) as (_ & _ & Hprev). cbn [prev_of] in Hprev.
        rewrite Hp in Hprev. exists h. split; congruence.
    + exfalso. apply H. apply Forall_forall. reflexivity.
    + apply H. apply Forall_forall. reflexivity.
  - destruct (fresh_ledger_bad_mode fuel cons diff key now r inputs Hmode) as [-> H].
    exact H.
Qed.

(** ** The invariant of the data model *)

Section Invariant.

Context {Sg : Signer}.

Ltac lookups :=
  cbn [dict_lookup dict_set block_record String.eqb Ascii.eqb Bool.eqb andb
       has_key get_or num_field spec_tag py_int].

Lemma created_sound (self : node) (bs : list dict) (D : string) (now : Z)
    (r : randomness) (data : value) (b : dict) :
  SignerCorrect Sg ->
  tip_ok bs D ->
  created self bs D now r data b ->
  block_sound (last_opt None bs) b.
Proof.
  intros Hsig Htip. unfold created, block_sound.
  assert (Hver : _verify_signature (VStr (public_pem (_private_key self))) data
                   (VStr (_sign_data self data r)) = true)
    by (cbn [_verify_signature]; unfold _sign_data; apply verify_sign_hex).
  assert (Hlink : forall p, last_opt None bs = Some p ->
                    Some (VStr D) = dict_lookup "hash" p)
    by (intros p Hp; unfold tip_ok in Htip; rewrite Hp in Htip; congruence).
  destruct (String.eqb (consensus self) "pow") eqn:Emode.
  - intros (n & Hn & Hp & _ & ->).
    exists data. eexists. exists (_sign_data self data r).
    exists (public_pem (_private_key self)).
    repeat split; try reflexivity; try assumption.
    + unfold recomputed. lookups. cbn [py_eq]. now rewrite Emode.
    + lookups. intros d _ Hd _. injection Hd as <-. exact Hp.
  - intros ->.
    exists data. eexists. exists (_sign_data self data r).
    exists (public_pem (_private_key self)).
    repeat split; try reflexivity; try assumption.
    + unfold recomputed. lookups. cbn [py_eq]. now rewrite Emode.
    + lookups. intros d _ Hd Hpos. injection Hd as <-. lia.
Qed.

Lemma isValid_snoc (bs : list dict) (b : dict) :
  bs = [] \/ isValid bs = true ->
  spec_block (last_opt None bs) b = true ->
  isValid (bs ++ [b]) = true.
Proof.
  intros Hbs Hb. unfold isValid.
  destruct (bs ++ [b])%list eqn:E; [now destruct bs|]. rewrite <- E.
  rewrite spec_blocks_app. cbn [spec_blocks]. rewrite Hb.
  destruct Hbs as [-> | Hv]; [reflexivity|].
  unfold isValid in Hv. destruct bs; [discriminate|]. now rewrite Hv.
Qed.

Lemma own_chain_nil : own_chain [].
Proof. split; [now left|]. intros [|i] b H; discriminate. Qed.

Lemma own_chain_snoc (self : node) (bs : list dict) (D : string) (now : Z)
    (r : randomness) (data : value) (b : dict) :
  SignerCorrect Sg ->
  own_chain bs -> tip_ok bs D -> is_dict data = true ->
  created self bs D now r data b ->
  own_chain (bs ++ [b]).
Proof.
  intros Hsig [Hv Hs] Htip Hd Hcr. split.
  - right. apply isValid_snoc; [exact Hv|].
    now apply (created_valid self bs D now r data).
  - intros i x Hx. destruct (Nat.lt_ge_cases i (List.length bs)) as [Hi|Hi].
    + rewrite nth_error_app1 in Hx by exact Hi. rewrite prev_of_app1 by exact Hi.
      now apply Hs.
    + assert (i = List.length bs) as ->.
      { assert (i < List.length (bs ++ [b]))%nat by (apply nth_error_Some; congruence).
        rewrite length_app in *. cbn [List.length] in *. lia. }
      rewrite nth_error_app2, Nat.sub_diag in Hx by lia. injection Hx as <-.
      rewrite prev_of_app_length.
      now apply (created_sound self bs D now r data).
Qed.

End Invariant.

(** The blocks of a node started without a store, after appends of dict
    payloads, form an [own_chain]. *)
Lemma fresh_ledger_own_chain {Sg : Signer} :
  SignerCorrect Sg ->
  forall (fuel : nat) (cons : string) (diff : option Z) (key : private_key)
         (now : Z) (r : randomness) (inputs : list (Z * randomness * value)),
    String.eqb cons "pow" || String.eqb cons "poa" = true ->
    Forall (fun x => is_dict (snd x) = true) inputs ->
    match fresh_ledger fuel cons diff key now r inputs with
    | Ok (self, fs) =>
        exists bs : list dict,
          chain self = blocks bs /\ bs <> [] /\ own_chain bs
    | Raise => False
    | Timeout =>
        cons = "pow" /\
        exists D t root,
          forall k, 0 <= k < Z.of_nat fuel ->
            String.prefix
              (str_repeat "0"
                 (match diff with Some d => d | None => DEFAULT_DIFFICULTY end))
              (_compute_pow_hash (VStr D) t (VStr root) k) = false
    end.
Proof.
  intros Hsig fuel cons diff key now r inputs Hmode Hin.
  rewrite fresh_ledger_eq by exact Hmode.
  pose proof (append_all_cases fuel cons []
                (match diff with Some d => d | None => DEFAULT_DIFFICULTY end)
                key own_chain is_dict
                (fun bs D now r data b H1 H2 H3 H4 =>
                   own_chain_snoc _ bs D now r data b Hsig H1 H2 H3 H4)
                ((now, r, genesis_data) :: inputs) [] "0" NoFile
                tip_ok_nil own_chain_nil) as H.
  assert (Hall : Forall (fun x : Z * randomness * value => is_dict (snd x) = true)
                   ((now, r, genesis_data) :: inputs))
    by (constructor; [reflexivity|exact Hin]).
  specialize (H Hall).
  destruct (append_all fuel _ NoFile _) as [[self fs]| |]; [|exact H|exact H].
  destruct H as (bs & D & -> & _ & Hlen & _ & Hown).
  exists bs. split; [reflexivity|]. split; [|exact Hown].
  intros ->. cbn in Hlen. lia.
Qed.

(** C4. With a signature scheme whose own signatures verify, and payloads
    that are dicts: the chain of a node started without a store, after any
    number of appends, is accepted by [is_chain_valid], and each of its
    blocks is sound: Merkle root, hash, link, leading zeros under PoW, and
    signature are as the invariant of the data model says. *)
Theorem own_chain_valid {Sg : Signer} :
  SignerCorrect Sg ->
  forall (fuel : nat) (cons : string) (diff : option Z) (key : private_key)
         (now : Z) (r : randomness) (inputs : list (Z * randomness * value)),
    Forall (fun x => is_dict (snd x) = true) inputs ->
    match fresh_ledger fuel cons diff key now r inputs with
    | Ok (self, fs) =>
        is_chain_valid self = Ok true /\
        exists bs : list dict,
          chain self = blocks bs /\
          forall i b, nth_error bs i = Some b -> block_sound (prev_of bs i) b
    | Raise => cons <> "pow" /\ cons <> "poa"
    | Timeout =>
        cons = "pow" /\
        exists D t root,
          forall k, 0 <= k < Z.of_nat fuel ->
            String.prefix
              (str_repeat "0"
                 (match diff with Some d => d | None => DEFAULT_DIFFICULTY end))
              (_compute_pow_hash (VStr D) t (VStr root) k) = false
    end.
Proof.
  intros Hsig fuel cons diff key now r inputs Hin.
  destruct (String.eqb cons "pow" || String.eqb cons "poa") eqn:Hmode.
  - pose proof (fresh_ledger_own_chain Hsig fuel cons diff key now r inputs Hmode Hin)
      as H.
    destruct (fresh_ledger fuel cons diff key now r inputs) as [[self fs]| |].
    + destruct H as (bs & Hc & Hne & [Hv Hs]). split.
      * unfold is_chain_valid. rewrite Hc, is_valid_chain_blocks.
        destruct Hv as [-> | ->]; [contradiction|reflexivity].
      * exists bs. split; [exact Hc|exact Hs].
    + destruct H.
    + exact H.
  - destruct (fresh_ledger_bad_mode fuel cons diff key now r inputs Hmode) as [-> H].
    exact H.
Qed.

Lemma demo_signer_correct : SignerCorrect demo_signer.
Proof. constructor. intros k msg r. cbn. apply String.eqb_refl. Qed.

(** The chain of [poa_node], made by the node itself. *)
Lemma own_chain_valid_witness :
  match fresh_ledger 0 "poa" None "demo key" 1700000000 tt [(1700000060, tt, tx1)] with
  | Ok (self, fs) =>
      is_chain_valid self = Ok true /\
      exists bs : list dict,
        chain self = blocks bs /\
        forall i b, nth_error bs i = Some b -> block_sound (prev_of bs i) b
  | Raise => "poa" <> "pow" /\ "poa" <> "poa"
  | Timeout =>
      "poa" = "pow" /\
      exists D t root,
        forall k, 0 <= k < Z.of_nat 0 ->
          String.prefix (str_repeat "0" DEFAULT_DIFFICULTY)
            (_compute_pow_hash (VStr D) t (VStr root) k) = false
  end.
Proof.
  apply (own_chain_valid demo_signer_correct 0 "poa" None "demo key" 1700000000 tt
           [(1700000060, tt, tx1)]).
  repeat constructor.
Defined.

(** ** Only lists of dicts are valid *)

Section ValidShape.

Context {Sg : Signer}.

Lemma for_blocks_true (f : nat -> outcome bool) (idx : list nat) :
  for_blocks f idx = Ok true -> forall i, In i idx -> f i = Ok true.
Proof.
  induction idx as [|j idx IH]; cbn [for_blocks]; intros H i Hi; [destruct Hi|].
  destruct (f j) as [[|]| |] eqn:E; try discriminate. cbn [bind] in H.
  destruct Hi as [<-|Hi]; [exact E|]. now apply IH.
Qed.

Lemma check_block_ok_dict (l : list value) (i : nat) :
  check_block (VList l) i = Ok true -> exists b, nth_error l i = Some (VDict b).
Proof.
  unfold check_block. cbn [py_getitem].
  destruct (nth_error l i) as [x|]; [|discriminate]. cbn [bind].
  destruct x as [| | |s|items|b]; try (cbn; discriminate);
    try (eexists; reflexivity).
  - destruct (has_fields (VStr s) REQUIRED_FIELDS) as [[|]| |]; cbn [bind negb];
      try discriminate.
    destruct (link_check (VList l) i (VStr s)) as [[|]| |]; cbn [bind negb];
      discriminate.
  - destruct (has_fields (VList items) REQUIRED_FIELDS) as [[|]| |]; cbn [bind negb];
      try discriminate.
    destruct (link_check (VList l) i (VList items)) as [[|]| |]; cbn [bind negb];
      discriminate.
Qed.

Lemma all_dicts (l : list value) :
  (forall i, (i < List.length l)%nat -> exists b, nth_error l i = Some (VDict b)) ->
  exists bs : list dict, l = map VDict bs.
Proof.
  induction l as [|x l IH]; intros H; [now exists []|].
  destruct (H 0%nat ltac:(cbn; lia)) as (b & Hb). cbn in Hb. injection Hb as ->.
  destruct IH as (bs & ->).
  - intros i Hi. apply (H (S i)). cbn. lia.
  - now exists (b :: bs).
Qed.

(** The "blocks" of a chain that is a text are its characters, which lack
    the required fields. *)
Lemma one_char_block (a : ascii) (s : string) :
  check_block (VStr (String a s)) 0 = Ok false.
Proof.
  unfold check_block, REQUIRED_FIELDS.
  cbn [py_getitem String.get bind has_fields py_in is_substring String.prefix].
  destruct (ascii_dec "t" a); reflexivity.
Qed.

(** What [is_valid_chain] accepts is a list of dicts. *)
Lemma valid_is_blocks (c : value) :
  is_valid_chain c = Ok true ->
  exists bs : list dict, c = blocks bs /\ isValid bs = true.
Proof.
  intros H. assert (exists bs : list dict, c = blocks bs) as (bs & ->).
  { unfold is_valid_chain in H.
    destruct c as [|[|]|z|s|l|kvs]; cbn [truthy negb py_len bind] in H;
      try discriminate.
    - destruct (negb (z =? 0)); discriminate.
    - destruct s as [|a s]; [discriminate|].
      cbn [negb String.length seq for_blocks] in H.
      rewrite one_char_block in H. discriminate.
    - destruct l as [|x l]; [discriminate|]. cbn [negb] in H.
      destruct (all_dicts (x :: l)) as (bs & ->); [|now exists bs].
      intros i Hi. apply check_block_ok_dict.
      apply (for_blocks_true _ _ H). apply in_seq. lia.
    - destruct kvs as [|kv kvs]; discriminate. }
  rewrite is_valid_chain_blocks in H. injection H as H. eauto.
Qed.

End ValidShape.

(** ** Blocks by consensus mode *)

Section Modes.

Context {Sg : Signer}.

Lemma sha256_hex_length (s : string) : String.length (sha256_hex s) = 64%nat.
Proof.
  unfold sha256_hex, SHA256.hexdigest, SHA256.digest.
  set (p := SHA256.pad _). set (st := SHA256.blocks _ _ _).
  cbn [flat_map SHA256.be_bytes app SHA256.hex_of_byte string_of_list_ascii
       String.length].
  reflexivity.
Qed.

Lemma substring_length (n : nat) (s : string) :
  (n <= String.length s)%nat -> String.length (substring 0 n s) = n.
Proof.
  revert s. induction n as [|n IH]; intros s Hn.
  - destruct s; reflexivity.
  - destruct s as [|c s]; cbn in Hn; [lia|]. cbn. rewrite IH; [reflexivity|lia].
Qed.

Lemma authority_id_length (self : node) :
  String.length (_authority_id self) = 16%nat.
Proof.
  unfold _authority_id. apply substring_length. rewrite sha256_hex_length. lia.
Qed.

(** In PoW mode the nonce returned was tried within the fuel. *)
Lemma create_block_nonce_bound (fuel : nat) (self : node) (now : Z)
    (r : randomness) (data : value) (self' : node) (fs' : file) (b : dict) :
  create_block fuel self now r data = Ok (self', fs', VDict b) ->
  String.eqb (consensus self) "pow" = true ->
  exists n, dict_lookup "nonce" b = Some (VInt n) /\ 0 <= n < Z.of_nat fuel.
Proof.
  unfold create_block. intros H Hmode. rewrite Hmode in H.
  destruct (previous_hash_of (chain self)) as [ph| |]; try discriminate.
  cbn [bind] in H.
  destruct (mine fuel ph now _ _ 0) as [[n h]| |] eqn:Em; try discriminate.
  cbn [bind fst snd] in H.
  destruct (py_len (chain self)); try discriminate. cbn [bind] in H.
  destruct (py_append _ _); try discriminate. cbn [bind] in H.
  injection H as _ _ <-. exists n. split; [reflexivity|].
  destruct (mine_ok _ _ _ _ _ _ _ _ Em) as (_ & _ & Hn & _). lia.
Qed.

End Modes.

(** C5. A call of [create_block] on a node that holds dict blocks with a
    tip. In PoW mode the block carries the node's difficulty and the first
    nonce, counted from 0, whose digest starts with that many ['0']
    characters, and that digest as hash; with a difficulty of 0 or less it is
    nonce 0. In any other mode the block carries difficulty 0, nonce 0 and as
    [authority_id] the first 16 characters of the digest of the node's public
    key. The call raises nothing, and is still mining after [fuel] digests
    only in PoW mode with none of the first [fuel] nonces succeeding. *)
Theorem block_by_mode {Sg : Signer} :
  forall (fuel : nat) (self : node) (now : Z) (r : randomness) (data : value)
         (bs : list dict) (D : string),
    chain self = blocks bs ->
    tip_ok bs D ->
    match create_block fuel self now r data with
    | Ok (_, _, blk) =>
        exists b : dict,
          blk = VDict b /\
          if String.eqb (consensus self) "pow" then
            let prefix := str_repeat "0" (difficulty self) in
            let digest := _compute_pow_hash (VStr D) now (VStr (calculate_merkle_root data)) in
            exists nonce : Z,
              dict_lookup "nonce" b = Some (VInt nonce) /\
              dict_lookup "hash" b = Some (VStr (digest nonce)) /\
              dict_lookup "difficulty" b = Some (VInt (difficulty self)) /\
              String.prefix prefix (digest nonce) = true /\
              0 <= nonce < Z.of_nat fuel /\
              (forall k, 0 <= k < nonce -> String.prefix prefix (digest k) = false) /\
              (difficulty self <= 0 -> nonce = 0)
          else
            dict_lookup "difficulty" b = Some (VInt 0) /\
            dict_lookup "nonce" b = Some (VInt 0) /\
            dict_lookup "authority_id" b
            = Some (VStr (substring 0 16 (sha256_hex (public_pem (_private_key self))))) /\
            String.length (substring 0 16 (sha256_hex (public_pem (_private_key self))))
            = 16%nat
    | Raise => False
    | Timeout =>
        consensus self = "pow" /\
        (fuel = 0%nat \/ 0 < difficulty self) /\
        forall k, 0 <= k < Z.of_nat fuel ->
          String.prefix (str_repeat "0" (difficulty self))
            (_compute_pow_hash (VStr D) now (VStr (calculate_merkle_root data)) k)
          = false
    end.
Proof.
  intros fuel self now r data bs D Hc Htip.
  pose proof (create_block_cases fuel self now r data bs D Hc Htip) as H.
  destruct (create_block fuel self now r data) as [[[self' fs'] blk]| |] eqn:E.
  - destruct H as (b & -> & Hcr & _ & _). exists b. split; [reflexivity|].
    unfold created in Hcr.
    destruct (String.eqb (consensus self) "pow") eqn:Emode.
    + destruct Hcr as (n & Hn & Hp & Hmin & Hb).
      destruct (create_block_nonce_bound _ _ _ _ _ _ _ _ E Emode) as (n' & Hn' & Hbound).
      assert (n' = n) as -> by (rewrite Hb in Hn'; cbn in Hn'; congruence).
      exists n. rewrite Hb. repeat split; try reflexivity; try assumption; try lia.
      intros Hd. destruct (Z.eq_dec n 0) as [|Hne]; [assumption|].
      specialize (Hmin 0 ltac:(lia)).
      rewrite str_repeat_nonpos, prefix_empty in Hmin by exact Hd. discriminate.
    + rewrite Hcr. repeat split; try apply authority_id_length; reflexivity.
  - exact H.
  - destruct H as [Hmode Hk]. split; [now apply String.eqb_eq|]. split; [|exact Hk].
    destruct fuel as [|fuel]; [now left|]. right.
    destruct (Z.lt_ge_cases 0 (difficulty self)) as [Hd|Hd]; [exact Hd|].
    specialize (Hk 0 ltac:(lia)).
    rewrite str_repeat_nonpos, prefix_empty in Hk by lia. discriminate.
Qed.

(** A PoW node of difficulty 1 with an empty chain makes its first block. *)
Lemma block_by_mode_witness :
  match create_block 50 (Node "pow" (blocks []) [] 1 "demo key") 1700000000 tt
          genesis_data with
  | Ok (self', _, blk) => chain self' = blocks [pow_genesis] /\ blk = VDict pow_genesis
  | _ => False
  end
  /\
  match create_block 50 (Node "pow" (blocks []) [] 1 "demo key") 1700000000 tt
          genesis_data with
  | Ok (_, _, blk) =>
      exists b : dict,
        blk = VDict b /\
        let prefix := str_repeat "0" 1 in
        let digest :=
          _compute_pow_hash (VStr "0") 1700000000
            (VStr (calculate_merkle_root genesis_data)) in
        exists nonce : Z,
          dict_lookup "nonce" b = Some (VInt nonce) /\
          dict_lookup "hash" b = Some (VStr (digest nonce)) /\
          dict_lookup "difficulty" b = Some (VInt 1) /\
          String.prefix prefix (digest nonce) = true /\
          0 <= nonce < Z.of_nat 50 /\
          (forall k, 0 <= k < nonce -> String.prefix prefix (digest k) = false) /\
          (1 <= 0 -> nonce = 0)
  | Raise => False
  | Timeout =>
      "pow" = "pow" /\
      (50%nat = 0%nat \/ 0 < 1) /\
      forall k, 0 <= k < Z.of_nat 50 ->
        String.prefix (str_repeat "0" 1)
          (_compute_pow_hash (VStr "0") 1700000000
             (VStr (calculate_merkle_root genesis_data)) k)
        = false
  end.
Proof.
  split; [vm_compute; split; reflexivity|].
  exact (block_by_mode 50 (Node "pow" (blocks []) [] 1 "demo key") 1700000000 tt
           genesis_data [] "0" eq_refl tip_ok_nil).
Defined.

(** ** The consensus check, block by block *)

Lemma append_keeps_valid {Sg : Signer} :
  SignerCorrect Sg ->
  forall (fuel : nat) (self : node) (now : Z) (r : randomness) (data : value),
    is_chain_valid self = Ok true ->
    is_dict data = true ->
    match create_block fuel self now r data with
    | Ok (self', _, _) => is_chain_valid self' = Ok true
    | Raise => False
    | Timeout =>
        consensus self = "pow" /\
        exists D,
          forall k, 0 <= k < Z.of_nat fuel ->
            String.prefix (str_repeat "0" (difficulty self))
              (_compute_pow_hash (VStr D) now (VStr (calculate_merkle_root data)) k)
            = false
    end.
Proof.
  intros Hsig fuel self now r data Hvalid Hdata.
  destruct (valid_is_blocks _ Hvalid) as (bs & Hc & Hv).
  destruct (isValid_tip bs Hv) as (D & Htip).
  pose proof (create_block_cases fuel self now r data bs D Hc Htip) as H.
  destruct (create_block fuel self now r data) as [[[self' fs'] blk]| |].
  - destruct H as (b & -> & Hcr & -> & _).
    unfold is_chain_valid. cbn [set_chain chain].
    rewrite is_valid_chain_blocks. f_equal.
    apply isValid_snoc; [now right|].
    now apply (created_valid self bs D now r data).
  - exact H.
  - destruct H as [Hmode Hk]. split; [now apply String.eqb_eq|]. eauto.
Qed.

(** C6. Step 3 of the validator, on any dict block, computes the consensus
    check of the spec: it follows the block's own tag (without a tag: [pow]
    if the block's difficulty is positive, [poa] otherwise), recomputes the
    digest of that mode from the block's own fields, compares it with the
    stored hash and, under PoW with a positive difficulty, asks for that many
    leading zeros. Whatever the difficulty (and mode) of a node that holds a
    valid chain, the chain is valid again after the node appends a block: the
    difficulty of the node is not used for the blocks already there. *)
Theorem consensus_check_per_block {Sg : Signer} :
  (forall b : dict, consensus_check (VDict b) = Ok (spec_consensus b)) /\
  (SignerCorrect Sg ->
   forall (fuel : nat) (cons : string) (c : value) (ns : list string)
          (d d' : Z) (key : private_key) (now : Z) (r : randomness) (data : value),
     is_chain_valid (Node cons c ns d key) = Ok true ->
     is_dict data = true ->
     match create_block fuel (Node cons c ns d' key) now r data with
     | Ok (self', _, _) => is_chain_valid self' = Ok true
     | Raise => False
     | Timeout =>
         cons = "pow" /\
         exists D,
           forall k, 0 <= k < Z.of_nat fuel ->
             String.prefix (str_repeat "0" d')
               (_compute_pow_hash (VStr D) now (VStr (calculate_merkle_root data)) k)
             = false
     end).
Proof.
  split; [exact consensus_check_dict|].
  intros Hsig fuel cons c ns d d' key now r data Hvalid Hdata.
  exact (append_keeps_valid Hsig fuel (Node cons c ns d' key) now r data Hvalid Hdata).
Qed.

(** A PoW chain mined at difficulty 1 gets its second block from a node of
    difficulty 2. *)
Lemma consensus_check_per_block_witness :
  is_chain_valid (Node "pow" (blocks [pow_genesis]) [] 1 "demo key") = Ok true /\
  match create_block 50 (Node "pow" (blocks [pow_genesis]) [] 2 "demo key")
          1700000012 tt tx1 with
  | Ok (self', _, blk) =>
      chain self' = blocks [pow_genesis; pow_second] /\ blk = VDict pow_second
  | _ => False
  end /\
  match create_block 50 (Node "pow" (blocks [pow_genesis]) [] 2 "demo key")
          1700000012 tt tx1 with
  | Ok (self', _, _) => is_chain_valid self' = Ok true
  | Raise => False
  | Timeout =>
      "pow" = "pow" /\
      exists D,
        forall k, 0 <= k < Z.of_nat 50 ->
          String.prefix (str_repeat "0" 2)
            (_compute_pow_hash (VStr D) 1700000012 (VStr (calculate_merkle_root tx1)) k)
          = false
  end.
Proof.
  assert (H : is_chain_valid (Node "pow" (blocks [pow_genesis]) [] 1 "demo key") = Ok true)
    by (vm_compute; reflexivity).
  split; [exact H|]. split.
  - vm_compute. split; reflexivity.
  - exact (proj2 consensus_check_per_block demo_signer_correct 50%nat "pow"
             (blocks [pow_genesis]) [] 1 2 "demo key" 1700000012 tt tx1 H eq_refl).
Defined.

(** ** The Merkle root and the order of keys *)

Section KeyOrder.

Lemma compare_not_gt_trans (a b c : string) :
  String.compare a b <> Gt -> String.compare b c <> Gt -> String.compare a c <> Gt.
Proof.
  revert b c. induction a as [|x a IH]; intros [|y b] [|z c];
    cbn [String.compare]; try congruence.
  unfold Ascii.compare.
  destruct (N.compare_spec (N_of_ascii x) (N_of_ascii y)) as [Exy|Lxy|Gxy];
    destruct (N.compare_spec (N_of_ascii y) (N_of_ascii z)) as [Eyz|Lyz|Gyz];
    destruct (N.compare_spec (N_of_ascii x) (N_of_ascii z)) as [Exz|Lxz|Gxz];
    intros Hab Hbc; try discriminate; try congruence; try lia.
  eapply IH; eassumption.
Qed.

Lemma leb_not_gt (a b : string) : key_leb a b = true <-> String.compare a b <> Gt.
Proof.
  unfold key_leb, String.leb. destruct (String.compare a b); split; congruence.
Qed.

Lemma key_leb_trans (a b c : string) :
  key_leb a b = true -> key_leb b c = true -> key_leb a c = true.
Proof. rewrite !leb_not_gt. apply compare_not_gt_trans. Qed.

Lemma key_leb_cases (a b : string) :
  a <> b ->
  (key_leb a b = true /\ key_leb b a = false) \/
  (key_leb a b = false /\ key_leb b a = true).
Proof.
  intros Hne. destruct (key_leb a b) eqn:E1, (key_leb b a) eqn:E2; auto.
  - exfalso. apply Hne. now apply String.leb_antisym.
  - destruct (String.leb_total a b); unfold key_leb in *; congruence.
Qed.

(** Two items with different keys can be inserted in either order. *)
Lemma insert_item_comm (x y : string * string) (l : list (string * string)) :
  fst x <> fst y ->
  insert_item x (insert_item y l) = insert_item y (insert_item x l).
Proof.
  intros Hne. induction l as [|z l IH].
  - cbn [insert_item].
    destruct (key_leb_cases _ _ Hne) as [[-> ->] | [-> ->]]; reflexivity.
  - cbn [insert_item].
    destruct (key_leb (fst y) (fst z)) eqn:Eyz, (key_leb (fst x) (fst z)) eqn:Exz;
      cbn [insert_item]; rewrite ?Eyz, ?Exz.
    + destruct (key_leb_cases _ _ Hne) as [[-> ->] | [-> ->]]; reflexivity.
    + destruct (key_leb (fst x) (fst y)) eqn:Exy; [|reflexivity].
      pose proof (key_leb_trans _ _ _ Exy Eyz). congruence.
    + destruct (key_leb (fst y) (fst x)) eqn:Eyx; [|reflexivity].
      pose proof (key_leb_trans _ _ _ Eyx Exz). congruence.
    + now rewrite IH.
Qed.

(** Sorting does not depend on the order in which the items came. *)
Lemma sort_items_perm (l l' : list (string * string)) :
  Permutation l l' -> NoDup (map fst l) -> sort_items l = sort_items l'.
Proof.
  induction 1 as [|x l l' HP IH|x y l|l l' l'' HP1 IH1 HP2 IH2]; intros Hnd.
  - reflexivity.
  - cbn [sort_items fold_right]. unfold sort_items in IH. rewrite IH; [reflexivity|].
    now inversion Hnd.
  - cbn [sort_items fold_right]. apply insert_item_comm.
    cbn [map] in Hnd. inversion Hnd as [|? ? Hin _]; subst.
    intros E. apply Hin. left. now symmetry.
  - rewrite IH1 by exact Hnd. apply IH2.
    eapply Permutation_NoDup; [|exact Hnd]. now apply Permutation_map.
Qed.

Lemma distinct_NoDup (l : list string) : distinct l = true -> NoDup l.
Proof.
  induction l as [|x l IH]; cbn [distinct]; intros H; constructor.
  - apply andb_prop in H as [H _]. intros Hin.
    apply negb_true_iff in H. apply Bool.not_true_iff_false in H. apply H.
    apply existsb_exists. exists x. split; [exact Hin|apply String.eqb_refl].
  - apply andb_prop in H as [_ H]. now apply IH.
Qed.

Lemma dict_lookup_In (k : string) (kvs : list (string * value)) (v : value) :
  dict_lookup k kvs = Some v -> In (k, v) kvs.
Proof.
  induction kvs as [|[k' v'] kvs IH]; cbn [dict_lookup]; [discriminate|].
  destruct (String.eqb_spec k k') as [->|Hne].
  - intros H. injection H as ->. now left.
  - intros H. right. now apply IH.
Qed.

End KeyOrder.

Section DumpsOrder.

(** Induction on values, with the items of lists and dicts. *)
Lemma value_ind' (P : value -> Prop) :
  P VNone -> (forall b, P (VBool b)) -> (forall z, P (VInt z)) ->
  (forall s, P (VStr s)) ->
  (forall l, Forall P l -> P (VList l)) ->
  (forall kvs, Forall (fun kv => P (snd kv)) kvs -> P (VDict kvs)) ->
  forall v, P v.
Proof.
  intros HNone HBool HInt HStr HList HDict.
  fix IH 1. intros [|b|z|s|l|kvs].
  - exact HNone.
  - apply HBool.
  - apply HInt.
  - apply HStr.
  - apply HList. induction l as [|x l IHl]; constructor; [apply IH|exact IHl].
  - apply HDict. induction kvs as [|[k v] kvs IHl]; constructor;
      [apply IH|exact IHl].
Qed.

Lemma json_dumps_list (l : list value) :
  json_dumps (VList l) = "[" ++ join ", " (map json_dumps l) ++ "]".
Proof. reflexivity. Qed.

Lemma json_dumps_dict (kvs : list (string * value)) :
  json_dumps (VDict kvs)
  = "{" ++ join ", "
             (map dump_item
                (sort_items (map (fun kv => (fst kv, json_dumps (snd kv))) kvs)))
        ++ "}".
Proof. reflexivity. Qed.

Lemma wf_list (l : list value) :
  wf_value (VList l) = true -> forall x, In x l -> wf_value x = true.
Proof. cbn [wf_value]. intros H x Hx. now apply (proj1 (forallb_forall _ _) H). Qed.

Lemma wf_dict (kvs : list (string * value)) :
  wf_value (VDict kvs) = true ->
  NoDup (map fst kvs) /\ forall k v, In (k, v) kvs -> wf_value v = true.
Proof.
  cbn [wf_value]. intros H. apply andb_prop in H as [Hd Hall]. split.
  - now apply distinct_NoDup.
  - intros k v Hin. exact (proj1 (forallb_forall _ _) Hall (k, v) Hin).
Qed.

Lemma same_payload_list (xs ys : list value) :
  same_payload (VList xs) (VList ys) = true ->
  Forall2 (fun x y => same_payload x y = true) xs ys.
Proof.
  revert ys. induction xs as [|x xs IH]; intros [|y ys] H; try discriminate;
    constructor.
  - cbn in H. now apply andb_prop in H as [H _].
  - apply IH. cbn in H. apply andb_prop in H as [_ H]. exact H.
Qed.

Lemma same_payload_dict (xs ys : list (string * value)) :
  same_payload (VDict xs) (VDict ys) = true ->
  List.length xs = List.length ys /\
  forall k v, In (k, v) xs ->
    exists w, dict_lookup k ys = Some w /\ same_payload v w = true.
Proof.
  intros H. cbn [same_payload] in H. apply andb_prop in H as [Hlen H].
  split; [now apply Nat.eqb_eq|]. clear Hlen.
  induction xs as [|[k0 v0] xs IH]; intros k v Hin; [destruct Hin|].
  apply andb_prop in H as [H0 H]. destruct Hin as [E|Hin].
  - injection E as <- <-. destruct (dict_lookup k0 ys) as [w|]; [|discriminate].
    now exists w.
  - now apply IH.
Qed.

Lemma same_payload_truthy (a b : value) :
  same_payload a b = true -> truthy a = truthy b.
Proof.
  destruct a as [|x|x|x|xs|xs], b as [|y|y|y|ys|ys]; try discriminate;
    cbn [same_payload truthy]; intros H.
  - reflexivity.
  - now apply Bool.eqb_prop in H as ->.
  - now apply Z.eqb_eq in H as ->.
  - now apply String.eqb_eq in H as ->.
  - destruct xs, ys; try discriminate; reflexivity.
  - apply andb_prop in H as [H _]. apply Nat.eqb_eq in H.
    destruct xs, ys; try discriminate; reflexivity.
Qed.

(** The serialization of [json.dumps(..., sort_keys=True)] does not depend
    on the order of keys. *)
Lemma json_dumps_key_order (a : value) :
  forall b, wf_value a = true -> wf_value b = true ->
            same_payload a b = true -> json_dumps a = json_dumps b.
Proof.
  induction a as [|x|x|x|xs IH|xs IH] using value_ind';
    intros [|y|y|y|ys|ys] Hwa Hwb H; try discriminate.
  - reflexivity.
  - cbn in H. now apply Bool.eqb_prop in H as ->.
  - cbn in H. now apply Z.eqb_eq in H as ->.
  - cbn in H. now apply String.eqb_eq in H as ->.
  - rewrite !json_dumps_list. do 3 f_equal.
    apply same_payload_list in H.
    pose proof (wf_list _ Hwa) as Wa. pose proof (wf_list _ Hwb) as Wb.
    clear Hwa Hwb. induction H as [|x y xs ys Hxy Hrest IHF]; [reflexivity|].
    cbn [map]. inversion IH as [|? ? Hx Hxs]; subst. f_equal.
    + apply Hx; [apply Wa; now left|apply Wb; now left|exact Hxy].
    + apply IHF; [exact Hxs|intros z Hz; apply Wa; now right
                 |intros z Hz; apply Wb; now right].
  - rewrite !json_dumps_dict. do 4 f_equal.
    destruct (wf_dict _ Hwa) as [Na Wa]. destruct (wf_dict _ Hwb) as [Nb Wb].
    destruct (same_payload_dict _ _ H) as [Hlen Hsame].
    set (f := fun kv : string * value => (fst kv, json_dumps (snd kv))).
    assert (Hfst : forall l, map fst (map f l) = map fst l)
      by (intros l; rewrite map_map; apply map_ext; reflexivity).
    apply sort_items_perm; [|now rewrite Hfst].
    apply NoDup_Permutation_bis.
    + apply (NoDup_map_inv fst). now rewrite Hfst.
    + rewrite !length_map. lia.
    + intros [k s] Hin. apply in_map_iff in Hin as ([k' v] & E & Hin).
      unfold f in E. cbn [fst snd] in E. injection E as -> <-.
      destruct (Hsame k v Hin) as (w & Hw & Hvw).
      apply dict_lookup_In in Hw. apply in_map_iff. exists (k, w). split; [|exact Hw].
      unfold f. cbn [fst snd]. f_equal. symmetry.
      rewrite Forall_forall in IH. apply (IH (k, v) Hin); eauto.
Qed.

End DumpsOrder.

(** C7. The Merkle root is a function of the payload alone, defined on every
    payload (its value is a text of 64 hex digits), and two payloads that are
    the same up to the order of their keys, at every depth, have the same
    root; so has the root that the validator recomputes from a block. *)
Theorem merkle_root_key_order :
  forall p q : value,
    wf_value p = true -> wf_value q = true -> same_payload p q = true ->
    calculate_merkle_root p = calculate_merkle_root q /\
    String.length (calculate_merkle_root p) = 64%nat /\
    forall b b' : dict,
      dict_lookup "data" b = Some p -> dict_lookup "data" b' = Some q ->
      exists root,
        _calculate_merkle_for_block (VDict b) = Ok root /\
        _calculate_merkle_for_block (VDict b') = Ok root.
Proof.
  intros p q Hp Hq H. split; [|split].
  - unfold calculate_merkle_root. f_equal. now apply json_dumps_key_order.
  - apply sha256_hex_length.
  - intros b b' Hb Hb'. unfold _calculate_merkle_for_block. cbn [py_get bind].
    rewrite Hb, Hb'. eexists. split; [reflexivity|]. do 2 f_equal.
    unfold py_or. rewrite (same_payload_truthy _ _ H).
    destruct (truthy q); [|reflexivity]. symmetry. now apply json_dumps_key_order.
Qed.

(** A payload with a nested dict, its keys written in two orders. *)
Lemma merkle_root_key_order_witness :
  calculate_merkle_root payload_one = calculate_merkle_root payload_two.
Proof.
  exact (proj1 (merkle_root_key_order payload_one payload_two
                  eq_refl eq_refl eq_refl)).
Defined.

(** ** Startup *)

Section Startup.

Context {Sg : Signer}.

(** What the constructor does with each store, for a consensus that it
    accepts: without a file, with a file that does not parse, with a false
    value or with a chain that [is_valid_chain] rejects, it starts as
    without a store; a chain that [is_valid_chain] accepts is adopted and
    the store left alone; an exception of [is_valid_chain] is not caught. *)
Lemma startup_cases (fuel : nat) (cons : string) (diff : option Z)
    (key : private_key) (fs : file) (now : Z) (r : randomness) :
  String.eqb cons "pow" || String.eqb cons "poa" = true ->
  __init__ fuel cons diff key fs now r
  = let d := match diff with Some d => d | None => DEFAULT_DIFFICULTY end in
    let fresh := fresh_ledger fuel cons diff key now r [] in
    match fs with
    | NoFile => fresh
    | Unparseable => fresh
    | Holds v =>
        if negb (truthy v) then fresh
        else match is_valid_chain v with
             | Ok true => Ok (Node cons v [] d key, fs)
             | Ok false => fresh
             | Raise => Raise
             | Timeout => Timeout
             end
    end.
Proof.
  intros Hmode.
  assert (Hfresh : fresh_ledger fuel cons diff key now r []
                   = _init_fresh_chain fuel
                       (Node cons (VList []) []
                          (match diff with Some d => d | None => DEFAULT_DIFFICULTY end)
                          key) now r).
  { unfold fresh_ledger, __init__. rewrite Hmode.
    cbn [negb load_chain chain truthy].
    destruct (_init_fresh_chain _ _ _ _) as [[s f]| |]; reflexivity. }
  cbv zeta. rewrite Hfresh. unfold __init__. rewrite Hmode. cbn [negb].
  destruct fs as [| |v]; cbn [load_chain chain set_chain consensus nodes
                                 difficulty _private_key truthy negb];
    try reflexivity.
  destruct (truthy v); cbn [negb]; [|reflexivity].
  destruct (is_valid_chain v) as [[|]| |]; reflexivity.
Qed.

End Startup.

(** With a signature scheme whose own signatures verify, the chain of a node
    that the constructor returns is accepted by [is_chain_valid], whatever the
    store was. *)
Lemma startup_valid {Sg : Signer} :
  SignerCorrect Sg ->
  forall (fuel : nat) (cons : string) (diff : option Z) (key : private_key)
         (fs : file) (now : Z) (r : randomness) (self : node) (fs' : file),
    __init__ fuel cons diff key fs now r = Ok (self, fs') ->
    is_chain_valid self = Ok true.
Proof.
  intros Hsig fuel cons diff key fs now r self fs' H.
  destruct (String.eqb cons "pow" || String.eqb cons "poa") eqn:Hmode;
    [|unfold __init__ in H; rewrite Hmode in H; discriminate].
  rewrite startup_cases in H by exact Hmode. cbv zeta in H.
  pose proof (fresh_ledger_own_chain Hsig fuel cons diff key now r [] Hmode
                (Forall_nil _)) as Hfresh.
  assert (Hf : fresh_ledger fuel cons diff key now r [] = Ok (self, fs') ->
               is_chain_valid self = Ok true).
  { intros E. rewrite E in Hfresh. destruct Hfresh as (bs & Hc & Hne & [Hv _]).
    unfold is_chain_valid. rewrite Hc, is_valid_chain_blocks.
    destruct Hv as [-> | ->]; [contradiction|reflexivity]. }
  destruct fs as [| |v]; try (now apply Hf).
  destruct (truthy v); cbn [negb] in H; [|now apply Hf].
  destruct (is_valid_chain v) as [[|]| |] eqn:Ev; try discriminate; [|now apply Hf].
  injection H as <- _. exact Ev.
Qed.

(** C8, at the input where the code fails it: the store holds the JSON text
    [[1]], which parses, to a list that holds a number. The constructor does
    not start afresh: the membership test of the validator raises on the
    number, and the constructor with it. *)
Theorem startup_on_a_list_of_numbers {Sg : Signer} :
  forall (fuel : nat) (diff : option Z) (key : private_key) (now : Z)
         (r : randomness),
    __init__ fuel "poa" diff key (Holds (VList [VInt 1])) now r = Raise.
Proof. reflexivity. Qed.

(** ** The most recent blocks *)

Lemma slice_last_positive {A} (l : list A) (limit : Z) :
  0 < limit ->
  slice_last l limit = skipn (List.length l - Z.to_nat limit) l.
Proof.
  intros H. unfold slice_last.
  destruct (Z.ltb_spec (- limit) 0) as [_|]; [|lia]. f_equal. lia.
Qed.

(** For a positive limit, [recent] gives the last [limit] blocks, in chain
    order, and all of them when there are no more than [limit]. *)
Lemma recent_positive {Sg : Signer} (self : node) (l : list value) (limit : Z) :
  chain self = VList l -> 0 < limit ->
  exists older : list value,
    recent self limit = Ok (VList (skipn (List.length older) l)) /\
    l = (older ++ skipn (List.length older) l)%list /\
    List.length (skipn (List.length older) l)
    = Nat.min (Z.to_nat limit) (List.length l).
Proof.
  intros Hc Hl. exists (firstn (List.length l - Z.to_nat limit) l).
  unfold recent. rewrite Hc, slice_last_positive by exact Hl.
  rewrite length_firstn.
  replace (Nat.min (List.length l - Z.to_nat limit) (List.length l))
    with (List.length l - Z.to_nat limit)%nat by lia.
  repeat split.
  - now rewrite firstn_skipn.
  - rewrite length_skipn. lia.
Qed.

(** C9, at the input where the code fails it: with limit 0, [recent] gives the
    whole chain, not the last 0 blocks. *)
Theorem recent_zero {Sg : Signer} :
  forall (cons : string) (l : list value) (ns : list string) (d : Z)
         (key : private_key),
    recent (Node cons (VList l) ns d key) 0 = Ok (VList l).
Proof.
  intros cons l ns d key. unfold recent, slice_last. cbn [chain Z.opp Z.ltb Z.compare].
  replace (Z.min 0 (Z.of_nat (List.length l))) with 0 by lia. reflexivity.
Qed.

(** ** The sentinel of the first block *)

(** C10. [is_valid_chain] accepts a chain of one block whose [previous_hash]
    is any text at all, and one whose [previous_hash] is missing, provided the
    hash is the digest over that text (over the empty text, if missing). *)
Theorem genesis_sentinel_unchecked {Sg : Signer} :
  forall (p : option string) (timestamp : Z) (data : value) (authority_id : string),
    is_valid_chain (blocks [unanchored_block p timestamp data authority_id])
    = Ok true.
Proof.
  intros p t data aid. rewrite is_valid_chain_blocks. f_equal.
  unfold isValid, spec_blocks, spec_block. rewrite andb_true_r.
  unfold spec_fields, spec_linkage, spec_merkle, spec_consensus, spec_signature,
    unanchored_block.
  destruct p as [s|];
    cbn [app dict_lookup String.eqb Ascii.eqb Bool.eqb andb has_key get_or
         num_field spec_tag py_int truthy py_eq];
    rewrite <- poa_hash_digest, !String.eqb_refl; reflexivity.
Qed.

(** One such chain, whose only block claims to follow the text
    ["not-the-sentinel"]. *)
Lemma genesis_sentinel_example :
  dict_lookup "previous_hash"
    (unanchored_block (Some "not-the-sentinel") 1700000000 (VDict []) "node-a")
  = Some (VStr "not-the-sentinel") /\
  is_valid_chain
    (blocks [unanchored_block (Some "not-the-sentinel") 1700000000 (VDict []) "node-a"])
  = Ok true.
Proof. split; vm_compute; reflexivity. Qed.

(** ** What the validator accepts *)

(** X1. What [is_valid_chain] accepts: exactly the lists that are not empty,
    hold dicts only, and whose blocks pass the five checks one after the
    other.  It accepts no text, no number, no dict, and no list with an
    element that is not a dict. *)
Theorem accepted_chains {Sg : Signer} (c : value) :
  is_valid_chain c = Ok true
  <-> exists bs : list dict, c = blocks bs /\ bs <> [] /\ spec_blocks None bs = true.
Proof.
  split.
  - intros H. destruct (valid_is_blocks c H) as (bs & -> & Hv).
    exists bs. split; [reflexivity|]. destruct bs; [discriminate|].
    split; [discriminate|exact Hv].
  - intros (bs & -> & Hne & Hv). rewrite is_valid_chain_blocks.
    destruct bs; [contradiction|]. now rewrite <- Hv.
Qed.

Section Malformed.

Context {Sg : Signer}.

Lemma check_block_app (l post : list value) (i : nat) :
  (i < List.length l)%nat ->
  check_block (VList (l ++ post)) i = check_block (VList l) i.
Proof.
  intros Hi. unfold check_block, link_check. cbn [py_getitem].
  rewrite nth_error_app1 by exact Hi.
  destruct (nth_error l i) as [x|]; [|reflexivity]. cbn [bind].
  destruct (has_fields x REQUIRED_FIELDS) as [[|]| |]; cbn [bind negb]; try reflexivity.
  destruct (0 <? i)%nat; [|reflexivity].
  rewrite nth_error_app1 by lia. reflexivity.
Qed.

Lemma for_blocks_app (f : nat -> outcome bool) (l1 l2 : list nat) :
  for_blocks f (l1 ++ l2)
  = do ok <- for_blocks f l1; if ok then for_blocks f l2 else Ok false.
Proof.
  induction l1 as [|i l1 IH]; cbn [for_blocks app bind]; [reflexivity|].
  destruct (f i) as [[|]| |]; cbn [bind]; [exact IH|reflexivity..].
Qed.

Lemma for_blocks_ext (f g : nat -> outcome bool) (l : list nat) :
  (forall i, In i l -> f i = g i) -> for_blocks f l = for_blocks g l.
Proof.
  induction l as [|i l IH]; intros H; [reflexivity|]. cbn [for_blocks].
  rewrite (H i) by now left. destruct (g i) as [[|]| |]; cbn [bind]; try reflexivity.
  apply IH. intros j Hj. apply H. now right.
Qed.

(** The loop over the blocks in front of a block that is not a dict. *)
Lemma for_blocks_front (pre : list dict) (x : value) (post : list value) :
  for_blocks (check_block (VList (map VDict pre ++ x :: post)))
    (seq 0 (List.length pre))
  = Ok (spec_blocks None pre).
Proof.
  rewrite (for_blocks_ext _ (check_block (blocks pre))).
  - exact (for_blocks_spec [] pre).
  - intros i Hi. apply in_seq in Hi. apply check_block_app.
    rewrite length_map. lia.
Qed.

Lemma validator_at_first_non_dict (pre : list dict) (x : value) (post : list value) :
  pre = [] \/ isValid pre = true ->
  is_valid_chain (VList (map VDict pre ++ x :: post))
  = do ok <- check_block (VList (map VDict pre ++ x :: post)) (List.length pre);
    if ok
    then for_blocks (check_block (VList (map VDict pre ++ x :: post)))
           (seq (S (List.length pre)) (List.length post))
    else Ok false.
Proof.
  intros Hpre. unfold is_valid_chain.
  replace (truthy _) with true by (destruct pre; reflexivity).
  cbn [negb py_len bind]. rewrite length_app, length_map. cbn [List.length].
  rewrite seq_app, for_blocks_app, for_blocks_front. cbn [bind].
  replace (spec_blocks None pre) with true.
  - cbn [Nat.add seq for_blocks]. reflexivity.
  - destruct Hpre as [-> | H]; [reflexivity|]. destruct pre; [discriminate|].
    now rewrite <- H.
Qed.

End Malformed.

(** X2. Exceptions of the validator.  A chain that is [True] or a number other
    than 0, or a dict that is not empty, makes [is_valid_chain] raise; so does
    a list in which the first element that is not a dict is [None], a bool or
    a number, when the dict blocks in front of it pass the checks. *)
Theorem validator_raises {Sg : Signer} :
  (forall c : value,
     truthy c = true -> is_scalar c = true \/ is_dict c = true ->
     is_valid_chain c = Raise) /\
  (forall (pre : list dict) (x : value) (post : list value),
     pre = [] \/ isValid pre = true ->
     is_scalar x = true ->
     is_valid_chain (VList (map VDict pre ++ x :: post)) = Raise).
Proof.
  split.
  - intros c Ht [Hs|Hd]; unfold is_valid_chain; rewrite Ht; cbn [negb].
    + destruct c; try discriminate; reflexivity.
    + destruct c as [| | | | |[|[k v] kvs]]; try discriminate. reflexivity.
  - intros pre x post Hpre Hx. rewrite validator_at_first_non_dict by exact Hpre.
    unfold check_block. cbn [py_getitem].
    rewrite nth_error_app2 by (rewrite length_map; lia).
    rewrite length_map, Nat.sub_diag. cbn [nth_error bind].
    destruct x; try discriminate; reflexivity.
Qed.

Lemma validator_raises_witness :
  is_valid_chain (VList (map VDict legacy_chain ++ VInt 1 :: [])) = Raise.
Proof.
  apply (proj2 validator_raises legacy_chain (VInt 1) []).
  - right. vm_compute. reflexivity.
  - reflexivity.
Defined.

(** ** A candidate that is not a list of blocks *)

(** C2, at the inputs where the code fails it: the candidate is a list,
    longer than the chain of the node, in which the first element that is not
    a dict is [None], a bool or a number, and the dict blocks in front of it
    pass the checks.  [replace_chain] does not return [False]: the membership
    test of the validator raises on that element, and [replace_chain], which
    calls the validator without a [try], raises with it. *)
Theorem replace_chain_on_a_malformed_candidate {Sg : Signer} :
  forall (self : node) (fs : file) (cur : list value)
         (pre : list dict) (x : value) (post : list value),
    chain self = VList cur ->
    (List.length cur < List.length pre + 1 + List.length post)%nat ->
    pre = [] \/ isValid pre = true ->
    is_scalar x = true ->
    replace_chain self fs (VList (map VDict pre ++ x :: post)) = Raise.
Proof.
  intros self fs cur pre x post Hcur Hlen Hpre Hx. unfold replace_chain.
  replace (truthy (VList (map VDict pre ++ x :: post))) with true
    by (destruct pre; reflexivity).
  rewrite Hcur. cbn [negb py_len bind].
  rewrite length_app, length_map. cbn [List.length].
  destruct (Nat.leb_spec (List.length pre + S (List.length post)) (List.length cur))
    as [Hle|_]; [lia|].
  rewrite validator_at_first_non_dict by exact Hpre.
  unfold check_block. cbn [py_getitem].
  rewrite nth_error_app2 by (rewrite length_map; lia).
  rewrite length_map, Nat.sub_diag. cbn [nth_error bind].
  destruct x; try discriminate; reflexivity.
Qed.

(** A node that holds the first block of [legacy_chain] is offered that block
    followed by the number 1. *)
Lemma replace_chain_on_a_malformed_candidate_witness :
  isValid [legacy_genesis] = true /\
  replace_chain (Node "poa" (blocks [legacy_genesis]) [] 4 "demo key") NoFile
    (VList (map VDict [legacy_genesis] ++ VInt 1 :: [])) = Raise.
Proof.
  split; [vm_compute; reflexivity|].
  apply (replace_chain_on_a_malformed_candidate
           (Node (Sg := demo_signer) "poa" (blocks [legacy_genesis]) [] 4 "demo key")
           NoFile [VDict legacy_genesis] [legacy_genesis] (VInt 1) []).
  - reflexivity.
  - cbn. lia.
  - right. vm_compute. reflexivity.
  - reflexivity.
Defined.

(** ** Fields that the validator does not protect *)

Section Unprotected.

Context {Sg : Signer}.

Lemma unread_neq (field k : string) :
  existsb (String.eqb field) READ_FIELDS = false -> In k READ_FIELDS -> k <> field.
Proof.
  intros H Hk ->. rewrite <- not_true_iff_false in H. apply H.
  apply existsb_exists. exists field. split; [exact Hk|apply String.eqb_refl].
Qed.

Lemma spec_block_set_unread (prev : option dict) (field : string) (v : value)
    (b : dict) :
  existsb (String.eqb field) READ_FIELDS = false ->
  spec_block prev (dict_set field v b) = spec_block prev b.
Proof.
  intros H.
  assert (L : forall k, In k READ_FIELDS ->
                dict_lookup k (dict_set field v b) = dict_lookup k b).
  { intros k Hk. apply dict_lookup_set_other. now apply unread_neq. }
  unfold spec_block, spec_fields, spec_linkage, spec_merkle, spec_consensus,
    spec_signature, spec_tag, has_key, get_or, num_field.
  rewrite !L by (unfold READ_FIELDS; cbn [In]; tauto).
  reflexivity.
Qed.

Lemma spec_blocks_same_hash (p p' : dict) (l : list dict) :
  get_or p "hash" VNone = get_or p' "hash" VNone ->
  spec_blocks (Some p) l = spec_blocks (Some p') l.
Proof.
  intros H. destruct l as [|b l]; [reflexivity|].
  cbn [spec_blocks]. unfold spec_block, spec_linkage. now rewrite H.
Qed.

Lemma isValid_at (pre post : list dict) (b : dict) :
  isValid (pre ++ b :: post)
  = spec_blocks None pre && (spec_block (last_opt None pre) b
                             && spec_blocks (Some b) post).
Proof.
  unfold isValid. rewrite spec_blocks_app. cbn [spec_blocks].
  destruct pre; reflexivity.
Qed.

Lemma mutate_at (bs : list dict) (i : nat) (b : dict) (field : string) (v : value) :
  nth_error bs i = Some b ->
  exists pre post,
    bs = (pre ++ b :: post)%list /\
    mutate bs i field v = (pre ++ dict_set field v b :: post)%list.
Proof.
  intros Hb. exists (firstn i bs), (skipn (S i) bs). split.
  - exact (proj1 (nth_error_split_at bs i b Hb)).
  - unfold mutate. now rewrite Hb.
Qed.

Lemma mutate_out_of_range (bs : list dict) (i : nat) (field : string) (v : value) :
  nth_error bs i = None -> mutate bs i field v = bs.
Proof. intros H. unfold mutate. now rewrite H. Qed.

End Unprotected.

(** X3. The validator reads eleven keys of a block. Writing any value under any
    other key of any block, [index] for one, changes nothing of what
    [is_valid_chain] returns. *)
Theorem unread_field_unprotected {Sg : Signer} :
  forall (bs : list dict) (i : nat) (field : string) (v : value),
    existsb (String.eqb field) READ_FIELDS = false ->
    is_valid_chain (blocks (mutate bs i field v)) = is_valid_chain (blocks bs).
Proof.
  intros bs i field v H. rewrite !is_valid_chain_blocks. f_equal.
  destruct (nth_error bs i) as [b|] eqn:Hb;
    [|now rewrite mutate_out_of_range].
  destruct (mutate_at bs i b field v Hb) as (pre & post & -> & ->).
  rewrite !isValid_at, spec_block_set_unread by exact H.
  rewrite (spec_blocks_same_hash (dict_set field v b) b); [reflexivity|].
  unfold get_or. rewrite dict_lookup_set_other; [reflexivity|].
  apply (unread_neq field "hash" H). unfold READ_FIELDS. cbn [In]. tauto.
Qed.

Lemma unread_field_unprotected_witness :
  is_valid_chain (blocks (mutate poa_chain 1 "index" (VInt 7)))
  = is_valid_chain (blocks poa_chain).
Proof.
  apply (unread_field_unprotected poa_chain 1 "index" (VInt 7)). reflexivity.
Defined.

(** X4. In a chain that [is_valid_chain] accepts, the signature of any block
    can be replaced by any false value ([None], the empty text, 0): the chain
    is accepted again. The same holds for [public_key]. *)
Theorem signature_can_be_stripped {Sg : Signer} :
  forall (bs : list dict) (i : nat) (field : string) (v : value),
    is_valid_chain (blocks bs) = Ok true ->
    field = "signature" \/ field = "public_key" ->
    truthy v = false ->
    is_valid_chain (blocks (mutate bs i field v)) = Ok true.
Proof.
  intros bs i field v Hv Hf Hfalse. rewrite is_valid_chain_blocks in *.
  injection Hv as Hv. f_equal.
  destruct (nth_error bs i) as [b|] eqn:Hb;
    [|now rewrite mutate_out_of_range].
  destruct (mutate_at bs i b field v Hb) as (pre & post & -> & ->).
  rewrite isValid_at in *.
  apply andb_true_iff in Hv as [Hpre Hv]. apply andb_true_iff in Hv as [Hblk Hpost].
  rewrite Hpre. cbn [andb]. apply andb_true_iff. split.
  - unfold spec_block in *.
    apply andb_true_iff in Hblk as [Hblk _].
    assert (L : forall k, k <> field ->
                  dict_lookup k (dict_set field v b) = dict_lookup k b)
      by (intros k Hk; now apply dict_lookup_set_other).
    assert (Hsig : spec_signature (dict_set field v b) = true).
    { unfold spec_signature, get_or.
      destruct Hf as [-> | ->].
      - rewrite dict_lookup_set_same, Hfalse. reflexivity.
      - rewrite dict_lookup_set_same, Hfalse. now rewrite andb_false_r. }
    rewrite Hsig.
    replace (spec_fields (dict_set field v b)) with (spec_fields b)
      by (unfold spec_fields, has_key; rewrite !L by (destruct Hf; subst; discriminate);
          reflexivity).
    replace (spec_linkage (last_opt None pre) (dict_set field v b))
      with (spec_linkage (last_opt None pre) b)
      by (unfold spec_linkage, get_or; rewrite !L by (destruct Hf; subst; discriminate);
          reflexivity).
    replace (spec_merkle (dict_set field v b)) with (spec_merkle b)
      by (unfold spec_merkle, get_or; rewrite !L by (destruct Hf; subst; discriminate);
          reflexivity).
    replace (spec_consensus (dict_set field v b)) with (spec_consensus b)
      by (unfold spec_consensus, spec_tag, num_field, get_or;
          rewrite !L by (destruct Hf; subst; discriminate); reflexivity).
    rewrite Hblk. reflexivity.
  - rewrite (spec_blocks_same_hash (dict_set field v b) b); [exact Hpost|].
    unfold get_or. rewrite dict_lookup_set_other; [reflexivity|].
    destruct Hf; subst; discriminate.
Qed.

Lemma signature_can_be_stripped_witness :
  is_valid_chain (blocks (mutate poa_chain 0 "signature" VNone)) = Ok true.
Proof.
  apply (signature_can_be_stripped poa_chain 0 "signature" VNone).
  - vm_compute. reflexivity.
  - now left.
  - reflexivity.
Defined.

(** X5. Every run of consecutive blocks of an accepted chain is an accepted
    chain of its own: dropping the oldest blocks, the newest blocks, or both
    is not noticed by [is_valid_chain]. *)
Theorem segment_valid {Sg : Signer} :
  forall pre mid post : list dict,
    is_valid_chain (blocks (pre ++ mid ++ post)) = Ok true ->
    mid <> [] ->
    is_valid_chain (blocks mid) = Ok true.
Proof.
  intros pre mid post Hv Hne. rewrite is_valid_chain_blocks in *.
  injection Hv as Hv. f_equal.
  destruct mid as [|b mid]; [contradiction|].
  assert (H : spec_blocks None (pre ++ (b :: mid) ++ post) = true).
  { unfold isValid in Hv. destruct pre; exact Hv. }
  rewrite spec_blocks_app in H. apply andb_true_iff in H as [_ H].
  rewrite spec_blocks_app in H. apply andb_true_iff in H as [H _].
  unfold isValid. cbn [spec_blocks] in *.
  apply andb_true_iff in H as [Hb Hrest]. rewrite Hrest, andb_true_r.
  unfold spec_block in *. cbn [spec_linkage].
  apply andb_true_iff in Hb as [Hb Hsig]. apply andb_true_iff in Hb as [Hb Hcons].
  apply andb_true_iff in Hb as [Hb Hmerkle]. apply andb_true_iff in Hb as [Hb _].
  now rewrite Hb, Hmerkle, Hcons, Hsig.
Qed.

Lemma segment_valid_witness :
  is_valid_chain (blocks [nth 1 poa_chain []]) = Ok true.
Proof.
  apply (segment_valid [nth 0 poa_chain []] [nth 1 poa_chain []] []).
  - vm_compute. reflexivity.
  - discriminate.
Defined.

(** ** A chain made without a key *)

Section Unsigned.

Context {Sg : Signer}.

Lemma unanchored_hash (p : option string) (t : Z) (data : value) (aid : string) :
  exists h, get_or (unanchored_block p t data aid) "hash" VNone = VStr h /\
            hash_text (unanchored_block p t data aid) = h.
Proof.
  unfold hash_text, unanchored_block.
  destruct p; cbn [app get_or dict_lookup String.eqb Ascii.eqb Bool.eqb];
    eexists; split; reflexivity.
Qed.

Lemma unanchored_passes (prev : option dict) (p : option string) (t : Z)
    (data : value) (aid : string) :
  (forall pb, prev = Some pb ->
     exists h, p = Some h /\ get_or pb "hash" VNone = VStr h) ->
  spec_block prev (unanchored_block p t data aid) = true.
Proof.
  intros Hlink.
  assert (Hl : spec_linkage prev (unanchored_block p t data aid) = true).
  { destruct prev as [pb|]; [|reflexivity].
    destruct (Hlink pb eq_refl) as (h & -> & Hh).
    cbn [spec_linkage]. rewrite Hh. unfold unanchored_block.
    cbn [app get_or dict_lookup String.eqb Ascii.eqb Bool.eqb].
    apply py_eq_str_refl. }
  unfold spec_block. rewrite Hl.
  unfold spec_fields, spec_merkle, spec_consensus, spec_signature,
    unanchored_block.
  destruct p as [s|];
    cbn [app dict_lookup String.eqb Ascii.eqb Bool.eqb andb has_key get_or
         num_field spec_tag py_int truthy py_eq];
    rewrite <- poa_hash_digest, !String.eqb_refl; reflexivity.
Qed.

Lemma unsigned_chain_passes (entries : list (Z * value)) :
  forall (prev : option dict) (p : option string) (aid : string),
    (forall pb, prev = Some pb ->
       exists h, p = Some h /\ get_or pb "hash" VNone = VStr h) ->
    spec_blocks prev (unsigned_chain p aid entries) = true.
Proof.
  induction entries as [|[t data] rest IH]; intros prev p aid Hlink; [reflexivity|].
  cbn [unsigned_chain spec_blocks]. rewrite unanchored_passes by exact Hlink.
  cbn [andb]. apply IH. intros pb [= <-].
  destruct (unanchored_hash p t data aid) as (h & Hh & Ht).
  exists h. now rewrite Ht.
Qed.

Lemma unsigned_chain_length (entries : list (Z * value)) :
  forall p aid, List.length (unsigned_chain p aid entries) = List.length entries.
Proof.
  induction entries as [|[t data] rest IH]; intros p aid; [reflexivity|].
  cbn [unsigned_chain List.length]. now rewrite IH.
Qed.

Lemma unsigned_chain_fields (entries : list (Z * value)) :
  forall p aid,
    map (fun b => (dict_lookup "timestamp" b, dict_lookup "data" b))
        (unsigned_chain p aid entries)
    = map (fun e => (Some (VInt (fst e)), Some (snd e))) entries /\
    Forall (fun b => dict_lookup "signature" b = None /\
                     dict_lookup "public_key" b = None)
           (unsigned_chain p aid entries).
Proof.
  induction entries as [|[t data] rest IH]; intros p aid; [now split|].
  cbn [unsigned_chain map fst snd].
  destruct (IH (Some (hash_text (unanchored_block p t data aid))) aid) as [IH1 IH2].
  split.
  - rewrite IH1. reflexivity.
  - constructor; [|exact IH2]. unfold unanchored_block. destruct p; now split.
Qed.

End Unsigned.

(** X6. The validator asks no block for a signature, and the digests it
    recomputes are made of what the block itself says. So for any list of
    payloads (with any timestamps, under any authority name) there is a chain
    of unsigned blocks that carries exactly these payloads and that
    [replace_chain] adopts, on any node whose own chain is shorter: made
    without any key, it replaces the signed chain of the node, in memory and
    in the store. *)
Theorem unsigned_chain_adopted {Sg : Signer} :
  forall (self : node) (fs : file) (cur : list value)
         (authority_id : string) (entries : list (Z * value)),
    chain self = VList cur ->
    (List.length cur < List.length entries)%nat ->
    let candidate := unsigned_chain None authority_id entries in
    replace_chain self fs (blocks candidate)
    = Ok (true, set_chain self (blocks candidate), Holds (blocks candidate)) /\
    map (fun b => (dict_lookup "timestamp" b, dict_lookup "data" b)) candidate
    = map (fun e => (Some (VInt (fst e)), Some (snd e))) entries /\
    Forall (fun b => dict_lookup "signature" b = None /\
                     dict_lookup "public_key" b = None) candidate.
Proof.
  intros self fs cur aid entries Hc Hlen candidate.
  split; [|exact (unsigned_chain_fields entries None aid)].
  assert (Hn : List.length candidate = List.length entries)
    by apply unsigned_chain_length.
  assert (Hv : isValid candidate = true).
  { unfold isValid. destruct candidate eqn:E; [cbn in Hn; lia|]. rewrite <- E.
    apply unsigned_chain_passes. discriminate. }
  unfold replace_chain.
  replace (truthy (blocks candidate)) with true
    by (destruct candidate; [cbn in Hn; lia|reflexivity]).
  cbn [negb]. unfold blocks at 1. cbn [py_len bind]. rewrite Hc. cbn [py_len bind].
  rewrite length_map, Hn.
  destruct (Nat.leb_spec (List.length entries) (List.length cur)); [lia|].
  rewrite is_valid_chain_blocks, Hv. reflexivity.
Qed.

Lemma unsigned_chain_adopted_witness :
  let self := Node "poa" (blocks poa_chain) [] 4 "demo key" in
  let candidate :=
    unsigned_chain None "nobody"
      [(0, VDict [("note", VStr "a")]); (0, VNone); (5, VList [VInt 1])] in
  replace_chain self (Holds (blocks poa_chain)) (blocks candidate)
  = Ok (true, set_chain self (blocks candidate), Holds (blocks candidate)) /\
  map (fun b => (dict_lookup "timestamp" b, dict_lookup "data" b)) candidate
  = map (fun e => (Some (VInt (fst e)), Some (snd e)))
      [(0, VDict [("note", VStr "a")]); (0, VNone); (5, VList [VInt 1])] /\
  Forall (fun b => dict_lookup "signature" b = None /\
                   dict_lookup "public_key" b = None) candidate.
Proof.
  intros self candidate.
  apply (unsigned_chain_adopted self (Holds (blocks poa_chain))
           (map VDict poa_chain) "nobody"
           [(0, VDict [("note", VStr "a")]); (0, VNone); (5, VList [VInt 1])]).
  - reflexivity.
  - cbn. lia.
Defined.

(** ** The payload of a block of the node's own *)

Section Payloads.

Context {Sg : Signer}.

Ltac lookups :=
  cbn [dict_lookup dict_set block_record String.eqb Ascii.eqb Bool.eqb andb
       has_key get_or num_field spec_tag py_int].

Lemma kept_payload_or (data : value) :
  kept_payload data = true -> py_or data (VDict []) = data.
Proof.
  unfold kept_payload. intros H. apply orb_true_iff in H as [H|H].
  - now apply py_or_dict.
  - unfold py_or. now rewrite H.
Qed.

Lemma dropped_payload (data : value) :
  kept_payload data = false ->
  py_or data (VDict []) = VDict [] /\
  String.eqb (calculate_merkle_root data) (calculate_merkle_root (VDict [])) = false.
Proof.
  unfold kept_payload. intros H. apply orb_false_iff in H as [Hd Ht].
  split; [unfold py_or; now rewrite Ht|].
  destruct data as [|[|]|z|s|[|x l]|kvs]; try discriminate.
  - vm_compute. reflexivity.
  - vm_compute. reflexivity.
  - cbn [truthy] in Ht. apply negb_false_iff, Z.eqb_eq in Ht. subst z.
    vm_compute. reflexivity.
  - cbn [truthy] in Ht. apply negb_false_iff, String.eqb_eq in Ht. subst s.
    vm_compute. reflexivity.
  - vm_compute. reflexivity.
Qed.

Lemma created_block_check (self : node) (bs : list dict) (D : string) (now : Z)
    (r : randomness) (data : value) (b : dict) :
  SignerCorrect Sg ->
  tip_ok bs D ->
  created self bs D now r data b ->
  spec_block (last_opt None bs) b = kept_payload data.
Proof.
  intros Hsig Htip Hcr.
  destruct (created_fields self bs D now r data b Hcr)
    as (_ & Hts & Hdata & Hroot & Hprev & _ & Hsg & Hpem & _).
  destruct (kept_payload data) eqn:Hk.
  - pose proof (kept_payload_or data Hk) as Hor. revert Hcr. unfold created.
    assert (Hlink : forall b', dict_lookup "previous_hash" b' = Some (VStr D) ->
                               spec_linkage (last_opt None bs) b' = true).
    { intros b' Hb'. unfold tip_ok in Htip. destruct (last_opt None bs) as [p|];
        [|reflexivity].
      cbn [spec_linkage]. unfold get_or. rewrite Hb', Htip. apply py_eq_str_refl. }
    assert (Hver : forall pem sg, pem = public_pem (_private_key self) ->
                     sg = _sign_data self data r ->
                     _verify_signature (VStr pem) data (VStr sg) = true).
    { intros pem sg -> ->. cbn [_verify_signature]. unfold _sign_data.
      apply verify_sign_hex. }
    destruct (String.eqb (consensus self) "pow") eqn:Emode.
    + intros (n & Hn & Hp & _ & ->). unfold spec_block.
      rewrite Hlink by reflexivity.
      replace (spec_fields _) with true by reflexivity.
      replace (spec_merkle _) with true
        by (unfold spec_merkle; lookups; rewrite Hor;
            symmetry; apply py_eq_str_refl).
      replace (spec_signature _) with true
        by (unfold spec_signature; lookups; rewrite Hor;
            rewrite Hver by reflexivity; now destruct (_ && _)).
      replace (spec_consensus _) with true; [reflexivity|].
      symmetry. unfold spec_consensus. lookups. cbn [py_eq]. rewrite Emode.
      rewrite <- pow_hash_digest. rewrite String.eqb_refl. cbn [andb].
      destruct (Z.ltb_spec 0 (difficulty self)) as [Hd|Hd]; [|reflexivity].
      rewrite <- prefix_leading_zeros by exact Hd. exact Hp.
    + intros ->. unfold spec_block.
      rewrite Hlink by reflexivity.
      replace (spec_fields _) with true by reflexivity.
      replace (spec_merkle _) with true
        by (unfold spec_merkle; lookups; rewrite Hor;
            symmetry; apply py_eq_str_refl).
      replace (spec_signature _) with true
        by (unfold spec_signature; lookups; rewrite Hor;
            rewrite Hver by reflexivity; now destruct (_ && _)).
      replace (spec_consensus _) with true; [reflexivity|].
      symmetry. unfold spec_consensus. lookups. cbn [py_eq]. rewrite Emode.
      rewrite <- poa_hash_digest. apply String.eqb_refl.
  - destruct (dropped_payload data Hk) as [Hor Hne].
    assert (Hm : spec_merkle b = false).
    { unfold spec_merkle, get_or. rewrite Hroot, Hdata, Hor. exact Hne. }
    unfold spec_block. rewrite Hm. now rewrite !andb_false_r.
Qed.

(** Appending to a chain that the validator accepts. *)
Lemma append_checked (fuel : nat) (self : node) (now : Z) (r : randomness)
    (data : value) (bs : list dict) :
  SignerCorrect Sg ->
  chain self = blocks bs -> isValid bs = true ->
  match create_block fuel self now r data with
  | Ok (self', fs', blk) =>
      exists b, blk = VDict b /\
                self' = set_chain self (blocks (bs ++ [b])) /\
                fs' = Holds (blocks (bs ++ [b])) /\
                dict_lookup "data" b = Some data /\
                isValid (bs ++ [b]) = kept_payload data
  | Raise => False
  | Timeout => consensus self = "pow"
  end.
Proof.
  intros Hsig Hc Hv. destruct (isValid_tip bs Hv) as (D & Htip).
  pose proof (create_block_cases fuel self now r data bs D Hc Htip) as H.
  destruct (create_block fuel self now r data) as [[[self' fs'] blk]| |].
  - destruct H as (b & -> & Hcr & -> & ->). exists b.
    repeat split; try reflexivity.
    + apply (created_fields self bs D now r data b Hcr).
    + rewrite isValid_at. cbn [spec_blocks]. rewrite andb_true_r.
      rewrite (created_block_check self bs D now r data b Hsig Htip Hcr).
      unfold isValid in Hv. destruct bs; [discriminate|]. now rewrite Hv.
  - exact H.
  - now apply String.eqb_eq.
Qed.

End Payloads.

(** X7. A block that the node appends to an accepted chain passes the
    validator exactly if its payload is a dict or a true value.  After
    [store_evaluation] of [None], [False], 0, the empty text or the empty
    list, [is_chain_valid] is false: the Merkle root was taken of the payload,
    and the validator takes it of [data or {}].  The store then holds a chain
    that the next constructor discards for a fresh genesis chain. *)
Theorem own_block_valid_iff_payload {Sg : Signer} :
  SignerCorrect Sg ->
  forall (fuel : nat) (self : node) (now : Z) (r : randomness) (evaluation : value),
    is_chain_valid self = Ok true ->
    match store_evaluation fuel self now r evaluation with
    | Ok (self', fs', _) =>
        is_chain_valid self' = Ok (kept_payload evaluation) /\
        fs' = Holds (chain self') /\
        forall (fuel' : nat) (cons : string) (diff : option Z) (key : private_key)
               (now' : Z) (r' : randomness),
          String.eqb cons "pow" || String.eqb cons "poa" = true ->
          __init__ fuel' cons diff key fs' now' r'
          = if kept_payload evaluation
            then Ok (Node cons (chain self') []
                       (match diff with Some d => d | None => DEFAULT_DIFFICULTY end)
                       key, fs')
            else fresh_ledger fuel' cons diff key now' r' []
    | Raise => False
    | Timeout => consensus self = "pow"
    end.
Proof.
  intros Hsig fuel self now r data Hvalid.
  destruct (valid_is_blocks _ Hvalid) as (bs & Hc & Hv).
  pose proof (append_checked fuel self now r data bs Hsig Hc Hv) as H.
  unfold store_evaluation.
  destruct (create_block fuel self now r data) as [[[self' fs'] blk]| |];
    [|exact H..].
  destruct H as (b & -> & -> & -> & _ & Hk).
  assert (Hvalid' : is_valid_chain (blocks (bs ++ [b])) = Ok (kept_payload data))
    by (now rewrite is_valid_chain_blocks, Hk).
  split; [exact Hvalid'|]. split; [reflexivity|].
  intros fuel' cons diff key now' r' Hmode.
  rewrite startup_cases by exact Hmode. cbv zeta. cbn [set_chain chain].
  replace (truthy (blocks (bs ++ [b]))) with true
    by (destruct bs; reflexivity).
  cbn [negb]. rewrite Hvalid'. now destruct (kept_payload data).
Qed.

Lemma own_block_valid_iff_payload_witness :
  match store_evaluation 0 (Node "poa" (blocks poa_chain) [] 4 "demo key")
          1700000120 tt VNone with
  | Ok (self', fs', _) =>
      is_chain_valid self' = Ok (kept_payload VNone) /\
      fs' = Holds (chain self') /\
      forall (fuel' : nat) (cons : string) (diff : option Z) (key : private_key)
             (now' : Z) (r' : randomness),
        String.eqb cons "pow" || String.eqb cons "poa" = true ->
        __init__ fuel' cons diff key fs' now' r'
        = if kept_payload VNone
          then Ok (Node cons (chain self') []
                     (match diff with Some d => d | None => DEFAULT_DIFFICULTY end)
                     key, fs')
          else fresh_ledger fuel' cons diff key now' r' []
  | Raise => False
  | Timeout => "poa" = "pow"
  end.
Proof.
  apply (own_block_valid_iff_payload demo_signer_correct 0
           (Node (Sg := demo_signer) "poa" (blocks poa_chain) [] 4 "demo key")
           1700000120 tt VNone).
  vm_compute. reflexivity.
Defined.

(** ** No call of the validator runs out of fuel *)

Section NoTimeout.

Context {Sg : Signer}.

Lemma bind_not_timeout {A B} (m : outcome A) (k : A -> outcome B) :
  m <> Timeout -> (forall a, k a <> Timeout) -> bind m k <> Timeout.
Proof. destruct m; cbn [bind]; auto; discriminate. Qed.

Lemma py_get_not_timeout (v : value) (k : string) (d : value) :
  py_get v k d <> Timeout.
Proof. destruct v; discriminate. Qed.

Lemma py_in_not_timeout (k : string) (v : value) : py_in k v <> Timeout.
Proof. destruct v; discriminate. Qed.

Lemma py_getitem_not_timeout (v : value) (i : nat) : py_getitem v i <> Timeout.
Proof.
  destruct v; cbn [py_getitem]; try discriminate.
  - destruct (String.get i s); discriminate.
  - destruct (nth_error items i); discriminate.
Qed.

Lemma py_len_not_timeout (v : value) : py_len v <> Timeout.
Proof. destruct v; discriminate. Qed.

Lemma if_not_timeout {A} (c : bool) (x y : outcome A) :
  x <> Timeout -> y <> Timeout -> (if c then x else y) <> Timeout.
Proof. now destruct c. Qed.

Create HintDb no_timeout.

Local Hint Resolve py_get_not_timeout py_in_not_timeout py_getitem_not_timeout
  py_len_not_timeout py_int_not_timeout : no_timeout.

Ltac no_timeout :=
  repeat first
    [ apply bind_not_timeout; [|intros ?]
    | apply if_not_timeout
    | solve [auto with no_timeout]
    | discriminate ].

Lemma has_fields_not_timeout (b : value) (fields : list string) :
  has_fields b fields <> Timeout.
Proof.
  induction fields as [|f fields IH]; cbn [has_fields]; [discriminate|].
  apply bind_not_timeout; [auto with no_timeout|]. intros p. now apply if_not_timeout.
Qed.

Lemma check_block_not_timeout (c : value) (i : nat) : check_block c i <> Timeout.
Proof.
  unfold check_block.
  apply bind_not_timeout; [auto with no_timeout|]. intros block.
  apply bind_not_timeout; [apply has_fields_not_timeout|]. intros present.
  apply if_not_timeout; [discriminate|].
  apply bind_not_timeout; [unfold link_check; no_timeout|]. intros linked.
  apply if_not_timeout; [discriminate|].
  apply bind_not_timeout; [unfold merkle_check, _calculate_merkle_for_block; no_timeout|].
  intros merkle_ok.
  apply if_not_timeout; [discriminate|].
  apply bind_not_timeout.
  - unfold consensus_check. apply bind_not_timeout.
    + unfold try_except.
      destruct (bind (read_header block) _) eqn:E; try discriminate.
      exfalso. revert E. unfold read_header. no_timeout.
    + intros [[[[[t p] m] n] d]|]; [|discriminate]. no_timeout.
  - intros consensus_ok. apply if_not_timeout; [discriminate|].
    unfold signature_check. no_timeout.
Qed.

Lemma for_blocks_not_timeout (f : nat -> outcome bool) (l : list nat) :
  (forall i, f i <> Timeout) -> for_blocks f l <> Timeout.
Proof.
  intros H. induction l as [|i l IH]; cbn [for_blocks]; [discriminate|].
  apply bind_not_timeout; [apply H|]. intros ok. now apply if_not_timeout.
Qed.

Lemma is_valid_chain_not_timeout (c : value) : is_valid_chain c <> Timeout.
Proof.
  unfold is_valid_chain. apply if_not_timeout; [discriminate|].
  apply bind_not_timeout; [auto with no_timeout|]. intros n.
  apply for_blocks_not_timeout, check_block_not_timeout.
Qed.

End NoTimeout.

(** ** What holds of a node whatever is called *)

Section LedgerOrder.

Context {Sg : Signer}.


Lemma replace_chain_in_order (cons : string) (self : node) (fs : file)
    (bs : list dict) (c : value) :
  in_order cons self fs bs ->
  match replace_chain self fs c with
  | Ok (adopted, self', fs') =>
      exists bs', in_order cons self' fs' bs' /\
                  (List.length bs <= List.length bs')%nat /\
                  (adopted = true <-> c = blocks bs' /\
                                      (List.length bs < List.length bs')%nat) /\
                  (adopted = false -> self' = self /\ fs' = fs)
  | Raise => is_valid_chain c = Raise
  | Timeout => False
  end.
Proof.
  intros (Hc & Hv & Hfs & Hcons). unfold replace_chain.
  assert (Hsame : exists bs', in_order cons self fs bs' /\
                    (List.length bs <= List.length bs')%nat /\
                    (false = true <-> c = blocks bs' /\
                                      (List.length bs < List.length bs')%nat) /\
                    (false = false -> self = self /\ fs = fs)).
  { exists bs. repeat split; try assumption; try lia; try discriminate. }
  destruct (truthy c) eqn:Ht; cbn [negb]; [|exact Hsame].
  unfold is_valid_chain. rewrite Ht. cbn [negb].
  destruct (py_len c) as [n| |] eqn:En; cbn [bind];
    [|reflexivity|exact (py_len_not_timeout _ En)].
  rewrite Hc. unfold blocks at 1. cbn [py_len bind]. rewrite length_map.
  destruct (Nat.leb_spec n (List.length bs)) as [Hle|Hlt]; [exact Hsame|].
  assert (Hvc : is_valid_chain c = for_blocks (check_block c) (seq 0 n))
    by (unfold is_valid_chain; now rewrite Ht, En).
  rewrite <- Hvc.
  destruct (is_valid_chain c) as [[|]| |] eqn:E; cbn [bind negb].
  - destruct (valid_is_blocks c E) as (bs' & -> & Hv').
    unfold blocks in En. cbn [py_len] in En. rewrite length_map in En.
    injection En as <-.
    exists bs'. repeat split; try assumption; try lia; try reflexivity.
  - exact Hsame.
  - reflexivity.
  - exact (is_valid_chain_not_timeout _ E).
Qed.

Lemma calls_in_order (fuel : nat) (cons : string) (cs : list call) :
  SignerCorrect Sg ->
  forallb ok_call cs = true ->
  forall (self : node) (fs : file) (bs : list dict),
    in_order cons self fs bs ->
    match calls fuel self fs cs with
    | Ok (self', fs') =>
        exists bs', in_order cons self' fs' bs' /\
                    (List.length bs <= List.length bs')%nat
    | Raise => exists c, In (Replace c) cs /\ is_valid_chain c = Raise
    | Timeout => cons = "pow"
    end.
Proof.
  intros Hsig. induction cs as [|c cs IH]; intros Hok self fs bs Hin.
  - cbn [calls]. exists bs. split; [exact Hin|lia].
  - cbn [forallb] in Hok. apply andb_true_iff in Hok as [Hc Hok].
    specialize (IH Hok). destruct c as [now r data|cand]; cbn [calls].
    + destruct Hin as (Hch & Hv & Hfs & Hcons).
      pose proof (append_checked fuel self now r data bs Hsig Hch Hv) as H.
      unfold store_evaluation.
      destruct (create_block fuel self now r data) as [[[self' fs'] blk]| |];
        cbn [bind fst snd]; [|contradiction|congruence].
      destruct H as (b & -> & -> & -> & _ & Hk).
      cbn [ok_call] in Hc. rewrite Hc in Hk.
      specialize (IH (set_chain self (blocks (bs ++ [b]))) (Holds (blocks (bs ++ [b])))
                     (bs ++ [b])%list).
      destruct (calls fuel _ _ cs) as [[self'' fs'']| |].
      * destruct IH as (bs' & Hin' & Hlen); [repeat split; assumption|].
        exists bs'. split; [exact Hin'|]. rewrite length_app in Hlen. cbn in Hlen. lia.
      * destruct IH as (c & Hc' & Hr); [repeat split; assumption|].
        exists c. split; [now right|exact Hr].
      * apply IH. repeat split; assumption.
    + pose proof (replace_chain_in_order cons self fs bs cand Hin) as H.
      destruct (replace_chain self fs cand) as [[[adopted self'] fs']| |];
        cbn [bind fst snd]; [|now exists cand; split; [left|]|contradiction].
      destruct H as (bs1 & Hin1 & Hlen1 & _).
      specialize (IH self' fs' bs1 Hin1).
      destruct (calls fuel self' fs' cs) as [[self'' fs'']| |].
      * destruct IH as (bs' & Hin' & Hlen). exists bs'. split; [exact Hin'|lia].
      * destruct IH as (c & Hc' & Hr). exists c. split; [now right|exact Hr].
      * exact IH.
Qed.

Lemma startup_in_order (fuel : nat) (cons : string) (diff : option Z)
    (key : private_key) (fs0 : file) (now : Z) (r : randomness) :
  SignerCorrect Sg ->
  match __init__ fuel cons diff key fs0 now r with
  | Ok (self, fs) => exists bs, in_order cons self fs bs
  | Raise =>
      (cons <> "pow" /\ cons <> "poa") \/
      (exists v, fs0 = Holds v /\ is_valid_chain v = Raise)
  | Timeout => cons = "pow"
  end.
Proof.
  intros Hsig.
  destruct (String.eqb cons "pow" || String.eqb cons "poa") eqn:Hmode.
  2:{ unfold __init__. rewrite Hmode. cbn [negb]. left.
      apply orb_false_iff in Hmode as [H1 H2].
      split; intros ->; discriminate. }
  assert (Hfresh :
    match fresh_ledger fuel cons diff key now r [] with
    | Ok (self, fs) => exists bs, in_order cons self fs bs
    | Raise => False
    | Timeout => cons = "pow"
    end).
  { rewrite fresh_ledger_eq by exact Hmode.
    pose proof (append_all_cases fuel cons []
                  (match diff with Some d => d | None => DEFAULT_DIFFICULTY end) key
                  (fun bs => bs = [] \/ isValid bs = true) kept_payload) as H.
    specialize (H (fun bs D now r data b HP Htip Hk Hcr =>
      or_intror (isValid_snoc bs b HP
        (eq_trans (created_block_check _ bs D now r data b Hsig Htip Hcr) Hk)))).
    specialize (H [(now, r, genesis_data)] [] "0" NoFile tip_ok_nil (or_introl eq_refl)).
    specialize (H ltac:(repeat constructor)).
    destruct (append_all _ _ _ _) as [[self fs]| |]; [|exact H|now destruct H].
    destruct H as (bs' & D' & -> & [(Hnil & _)|Hfs] & Hlen & _ & HP);
      [discriminate|].
    exists bs'. repeat split; try assumption.
    destruct HP as [->|HP]; [discriminate|exact HP]. }
  rewrite startup_cases by exact Hmode. cbv zeta.
  assert (Hfresh' :
    match fresh_ledger fuel cons diff key now r [] with
    | Ok (self, fs) => exists bs, in_order cons self fs bs
    | Raise =>
        (cons <> "pow" /\ cons <> "poa") \/
        (exists v, fs0 = Holds v /\ is_valid_chain v = Raise)
    | Timeout => cons = "pow"
    end)
    by (destruct (fresh_ledger fuel cons diff key now r []) as [[s f]| |];
        [exact Hfresh|contradiction|exact Hfresh]).
  destruct fs0 as [| |v]; try exact Hfresh'.
  destruct (truthy v); cbn [negb]; [|exact Hfresh'].
  destruct (is_valid_chain v) as [[|]| |] eqn:Ev.
  - destruct (valid_is_blocks v Ev) as (bs & -> & Hv).
    exists bs. repeat split; try assumption; reflexivity.
  - exact Hfresh'.
  - right. now exists v.
  - exact (False_ind _ (is_valid_chain_not_timeout _ Ev)).
Qed.

End LedgerOrder.

(** X8. The invariant of a node.  Start a node on any store and call
    [store_evaluation] (with payloads that are dicts or true values) and
    [replace_chain] (with anything) in any order.  Whenever these calls
    return, the node's chain passes [is_chain_valid], the store holds exactly
    the node's chain, and a node started on that store, in either mode and
    with any key, holds the same chain and leaves the store alone.  A call
    raises only where the validator raises: on the stored value at startup,
    or on a candidate. *)
Theorem ledger_kept_in_order {Sg : Signer} :
  SignerCorrect Sg ->
  forall (fuel : nat) (cons : string) (diff : option Z) (key : private_key)
         (fs0 : file) (now : Z) (r : randomness) (cs : list call),
    forallb ok_call cs = true ->
    match (do started <- __init__ fuel cons diff key fs0 now r;
           calls fuel (fst started) (snd started) cs) with
    | Ok (self, fs) =>
        is_chain_valid self = Ok true /\
        fs = Holds (chain self) /\
        forall (fuel' : nat) (cons' : string) (diff' : option Z)
               (key' : private_key) (now' : Z) (r' : randomness),
          String.eqb cons' "pow" || String.eqb cons' "poa" = true ->
          __init__ fuel' cons' diff' key' fs now' r'
          = Ok (Node cons' (chain self) []
                  (match diff' with Some d => d | None => DEFAULT_DIFFICULTY end)
                  key', fs)
    | Raise =>
        (cons <> "pow" /\ cons <> "poa") \/
        (exists v, fs0 = Holds v /\ is_valid_chain v = Raise) \/
        (exists c, In (Replace c) cs /\ is_valid_chain c = Raise)
    | Timeout => cons = "pow"
    end.
Proof.
  intros Hsig fuel cons diff key fs0 now r cs Hok.
  pose proof (startup_in_order fuel cons diff key fs0 now r Hsig) as H0.
  destruct (__init__ fuel cons diff key fs0 now r) as [[self0 fs1]| |];
    cbn [bind fst snd]; [|tauto|exact H0].
  destruct H0 as (bs0 & Hin0).
  pose proof (calls_in_order fuel cons cs Hsig Hok self0 fs1 bs0 Hin0) as H.
  destruct (calls fuel self0 fs1 cs) as [[self fs]| |]; [|tauto|exact H].
  destruct H as (bs & (Hc & Hv & Hfs & _) & _).
  assert (Hvalid : is_valid_chain (blocks bs) = Ok true)
    by (now rewrite is_valid_chain_blocks, Hv).
  unfold is_chain_valid. rewrite Hc, Hfs. repeat split; try assumption.
  intros fuel' cons' diff' key' now' r' Hmode.
  rewrite startup_cases by exact Hmode. cbv zeta.
  replace (truthy (blocks bs)) with true
    by (destruct bs; [discriminate|reflexivity]).
  cbn [negb]. now rewrite Hvalid.
Qed.

Lemma ledger_kept_in_order_witness :
  match (do started <- __init__ 0 "poa" None "demo key" NoFile 1700000000 tt;
         calls 0 (fst started) (snd started)
           demo_calls) with
  | Ok (self, fs) => py_len (chain self) = Ok 3%nat
  | _ => False
  end /\
  match (do started <- __init__ 0 "poa" None "demo key" NoFile 1700000000 tt;
         calls 0 (fst started) (snd started)
           demo_calls) with
  | Ok (self, fs) =>
      is_chain_valid self = Ok true /\
      fs = Holds (chain self) /\
      forall (fuel' : nat) (cons' : string) (diff' : option Z)
             (key' : private_key) (now' : Z) (r' : randomness),
        String.eqb cons' "pow" || String.eqb cons' "poa" = true ->
        __init__ fuel' cons' diff' key' fs now' r'
        = Ok (Node cons' (chain self) []
                (match diff' with Some d => d | None => DEFAULT_DIFFICULTY end)
                key', fs)
  | Raise =>
      ("poa" <> "pow" /\ "poa" <> "poa") \/
      (exists v, NoFile = Holds v /\ is_valid_chain v = Raise) \/
      (exists c, In (Replace c)
                   demo_calls /\
                 is_valid_chain c = Raise)
  | Timeout => "poa" = "pow"
  end.
Proof.
  split.
  - vm_compute. reflexivity.
  - apply (ledger_kept_in_order demo_signer_correct 0 "poa" None "demo key" NoFile
             1700000000 tt demo_calls).
    reflexivity.
Defined.

(** ** A difficulty that no digest meets *)

Section Unminable.

Context {Sg : Signer}.

Lemma prefix_length (p s : string) :
  String.prefix p s = true -> (String.length p <= String.length s)%nat.
Proof.
  revert s. induction p as [|a p IH]; intros s H; cbn; [lia|].
  destruct s as [|b s]; [discriminate|]. cbn in H.
  destruct (ascii_dec a b); [|discriminate]. specialize (IH s H). cbn. lia.
Qed.

Lemma str_repeat_length (c : ascii) (d : Z) :
  String.length (str_repeat c d) = Z.to_nat d.
Proof.
  unfold str_repeat. generalize (Z.to_nat d) as n.
  induction n as [|n IH]; cbn; [reflexivity|now rewrite IH].
Qed.

Lemma mine_above_64 (fuel : nat) (p m : value) (t d n0 : Z) :
  64 < d -> mine fuel p t m (str_repeat "0" d) n0 = Timeout.
Proof.
  intros Hd. revert n0. induction fuel as [|fuel IH]; intros n0; [reflexivity|].
  cbn [mine].
  destruct (String.prefix (str_repeat "0" d) (_compute_pow_hash p t m n0)) eqn:E;
    [|apply IH].
  apply prefix_length in E. rewrite str_repeat_length in E.
  unfold _compute_pow_hash in E. rewrite sha256_hex_length in E. lia.
Qed.

End Unminable.

(** X9. A digest has 64 characters, so in PoW mode with a difficulty above 64
    the mining loop has no nonce to find: whatever the fuel, [create_block]
    does not return, on any chain it could append to, and neither does the
    constructor when it has to make the genesis block. *)
Theorem pow_above_64_never_mines {Sg : Signer} :
  forall (d : Z), 64 < d ->
    (forall (fuel : nat) (self : node) (now : Z) (r : randomness) (data : value)
            (bs : list dict) (D : string),
       chain self = blocks bs -> tip_ok bs D ->
       consensus self = "pow" -> difficulty self = d ->
       create_block fuel self now r data = Timeout) /\
    (forall (fuel : nat) (key : private_key) (now : Z) (r : randomness),
       __init__ fuel "pow" (Some d) key NoFile now r = Timeout).
Proof.
  intros d Hd.
  assert (H : forall fuel self now r data bs D,
             chain self = blocks bs -> tip_ok bs D ->
             consensus self = "pow" -> difficulty self = d ->
             create_block fuel self now r data = Timeout).
  { intros fuel self now r data bs D Hc Htip Hmode Hdiff. unfold create_block.
    rewrite Hc, (previous_hash_of_blocks bs D Htip), Hmode, Hdiff. cbn [bind String.eqb Ascii.eqb Bool.eqb].
    now rewrite mine_above_64. }
  split; [exact H|].
  intros fuel key now r. unfold __init__, _init_fresh_chain, create_genesis_block.
  cbn [String.eqb Ascii.eqb Bool.eqb orb negb load_chain chain truthy set_chain
       consensus nodes difficulty _private_key].
  rewrite (H fuel _ now r genesis_data [] "0"); reflexivity.
Qed.

Lemma pow_above_64_never_mines_witness :
  __init__ 1000 "pow" (Some 65) "demo key" NoFile 1700000000 tt = Timeout.
Proof.
  apply (proj2 (pow_above_64_never_mines (Sg := demo_signer) 65 ltac:(lia))).
Defined.

(** ** The most recent blocks, for every limit *)

(** X10. What [recent] returns is always a run of blocks at the end of the
    chain, in chain order: the last [limit] blocks (all, if there are fewer)
    for a positive limit; for a limit [-k] below float_zero, the chain without its
    first [k] blocks, so the longer the chain, the more blocks; for 0 the
    whole chain. *)
Theorem recent_by_limit {Sg : Signer} :
  forall (cons : string) (l : list value) (ns : list string) (d : Z)
         (key : private_key) (limit : Z),
    exists older newer : list value,
      recent (Node cons (VList l) ns d key) limit = Ok (VList newer) /\
      l = (older ++ newer)%list /\
      List.length newer
      = if 0 <? limit then Nat.min (Z.to_nat limit) (List.length l)
        else (List.length l - Z.to_nat (- limit))%nat.
Proof.
  intros cons l ns d key limit.
  set (k := if 0 <? limit then (List.length l - Z.to_nat limit)%nat
            else Nat.min (Z.to_nat (- limit)) (List.length l)).
  exists (firstn k l), (skipn k l).
  assert (Hs : slice_last l limit = skipn k l).
  { unfold slice_last, k. f_equal.
    destruct (Z.ltb_spec 0 limit), (Z.ltb_spec (- limit) 0); lia. }
  unfold recent. cbn [chain]. rewrite Hs. repeat split.
  - now rewrite firstn_skipn.
  - rewrite length_skipn. unfold k. destruct (0 <? limit); lia.
Qed.

(** ** Floats of integers *)

Section FloatOfInt.

Lemma digits2_bounds (p : positive) :
  2 ^ (Zpos (digits2_pos p) - 1) <= Zpos p < 2 ^ Zpos (digits2_pos p).
Proof.
  induction p as [p IH|p IH|]; cbn [digits2_pos].
  - rewrite Pos2Z.inj_succ. replace (Z.succ (Zpos (digits2_pos p)) - 1)
      with (Z.succ (Zpos (digits2_pos p) - 1)) by lia.
    rewrite !Z.pow_succ_r by lia. lia.
  - rewrite Pos2Z.inj_succ. replace (Z.succ (Zpos (digits2_pos p)) - 1)
      with (Z.succ (Zpos (digits2_pos p) - 1)) by lia.
    rewrite !Z.pow_succ_r by lia. lia.
  - cbn. lia.
Qed.

Lemma digits2_unique (p : positive) (n : Z) :
  2 ^ (n - 1) <= Zpos p < 2 ^ n -> Zpos (digits2_pos p) = n.
Proof.
  intros [Hlo Hhi]. pose proof (digits2_bounds p) as [Blo Bhi].
  set (d := Zpos (digits2_pos p)) in *.
  assert (0 < n).
  { destruct (Z.ltb_spec 0 n); [assumption|]. exfalso.
    destruct (Z.eq_dec n 0) as [->|]; [cbn in Hhi; lia|].
    rewrite Z.pow_neg_r in Hhi by lia. lia. }
  destruct (Z.lt_trichotomy d n) as [Hlt|[Heq|Hgt]]; [|exact Heq|].
  - assert (2 ^ d <= 2 ^ (n - 1)) by (apply Z.pow_le_mono_r; lia). lia.
  - assert (2 ^ n <= 2 ^ (d - 1)) by (apply Z.pow_le_mono_r; lia). lia.
Qed.

Lemma iter_xO (p k : positive) : Zpos (Pos.iter xO p k) = Zpos p * 2 ^ Zpos k.
Proof.
  induction k as [|k IH] using Pos.peano_ind.
  - cbn. lia.
  - rewrite Pos.iter_succ, Pos2Z.inj_succ, Z.pow_succ_r by lia.
    rewrite Pos2Z.inj_xO, IH. lia.
Qed.

Lemma shr_1_m (mrs : shr_record) : 0 <= shr_m mrs -> shr_m (shr_1 mrs) = shr_m mrs / 2.
Proof.
  destruct mrs as [m r s]. cbn [shr_m shr_1]. intros Hm.
  destruct m as [|[p|p|]|p]; cbn [shr_m]; try lia.
  - reflexivity.
  - rewrite Pos2Z.inj_xI. apply Z.div_unique with (r := 1); lia.
  - rewrite Pos2Z.inj_xO. apply Z.div_unique with (r := 0); lia.
  - reflexivity.
Qed.

Lemma shr_iter_m (k : positive) :
  forall mrs, 0 <= shr_m mrs ->
    shr_m (iter_pos shr_1 k mrs) = shr_m mrs / 2 ^ Zpos k.
Proof.
  induction k as [k IH|k IH|]; intros mrs Hm; cbn [iter_pos].
  - assert (H1 : 0 <= shr_m (shr_1 mrs))
      by (rewrite shr_1_m by exact Hm; apply Z.div_pos; lia).
    assert (H2 : 0 <= shr_m (iter_pos shr_1 k (shr_1 mrs)))
      by (rewrite IH by exact H1; apply Z.div_pos; [exact H1|]; apply Z.pow_pos_nonneg; lia).
    rewrite IH by exact H2. rewrite IH by exact H1. rewrite shr_1_m by exact Hm.
    rewrite !Z.div_div by (try apply Z.pow_pos_nonneg; lia).
    f_equal. rewrite <- Z.pow_add_r by lia.
    change 2 with (2 ^ 1) at 1. rewrite <- Z.pow_add_r by lia. f_equal. lia.
  - assert (H2 : 0 <= shr_m (iter_pos shr_1 k mrs))
      by (rewrite IH by exact Hm; apply Z.div_pos; [exact Hm|]; apply Z.pow_pos_nonneg; lia).
    rewrite IH by exact H2. rewrite IH by exact Hm.
    rewrite !Z.div_div by (try apply Z.pow_pos_nonneg; lia).
    f_equal. rewrite <- Z.pow_add_r by lia. f_equal. lia.
  - rewrite shr_1_m by exact Hm. reflexivity.
Qed.

Lemma round_nearest_even_bounds (m : Z) (l : location) :
  m <= round_nearest_even m l <= m + 1.
Proof. destruct l as [|[| |]]; cbn; try destruct (Z.even m); lia. Qed.

(** The float of a positive integer of at most 53 bits is the integer. *)
Lemma binary_round_small (s : bool) (p : positive) :
  Zpos (digits2_pos p) <= 53 ->
  exists m : positive,
    binary_round 53 1024 s p 0 = S754_finite s m (Zpos (digits2_pos p) - 53) /\
    Zpos m = Zpos p * 2 ^ (53 - Zpos (digits2_pos p)).
Proof.
  intros Hd. set (d := Zpos (digits2_pos p)) in *.
  assert (Hd0 : 0 < d) by (unfold d; lia).
  unfold binary_round. fold d.
  assert (Hf : fexp 53 1024 (d + 0) = d - 53) by (unfold fexp, emin; lia).
  rewrite Hf.
  assert (Hal : exists m, shl_align p 0 (d - 53) = (m, d - 53) /\
                          Zpos m = Zpos p * 2 ^ (53 - d)).
  { unfold shl_align. destruct (d - 53 - 0) as [|k|k] eqn:E; try lia.
    - exists p. replace (d - 53) with 0 by lia. split; [reflexivity|].
      replace (53 - d) with 0 by lia. cbn. lia.
    - exists (Pos.iter xO p k). split; [reflexivity|].
      rewrite iter_xO. f_equal. f_equal. lia. }
  destruct Hal as (m & -> & Hm). exists m. split; [|exact Hm].
  assert (Hdm : Zpos (digits2_pos m) = 53).
  { apply digits2_unique. rewrite Hm. pose proof (digits2_bounds p) as [Blo Bhi].
    fold d in Blo, Bhi.
    replace 52 with ((d - 1) + (53 - d)) by lia.
    replace (2 ^ 53) with (2 ^ d * 2 ^ (53 - d))
      by (rewrite <- Z.pow_add_r by lia; f_equal; lia).
    replace (53 - 1) with ((d - 1) + (53 - d)) by lia.
    rewrite Z.pow_add_r by lia.
    assert (0 < 2 ^ (53 - d)) by (apply Z.pow_pos_nonneg; lia). nia. }
  unfold binary_round_aux.
  assert (Hs : forall l, shr_fexp 53 1024 (Zpos m) (d - 53) l
                         = (shr_record_of_loc (Zpos m) l, d - 53)).
  { intros l. unfold shr_fexp. cbn [Zdigits2]. rewrite Hdm.
    replace (fexp 53 1024 (53 + (d - 53)) - (d - 53)) with 0
      by (unfold fexp, emin; lia).
    reflexivity. }
  rewrite Hs. cbn [shr_record_of_loc shr_m loc_of_shr_record round_nearest_even].
  rewrite Hs. cbn [shr_record_of_loc shr_m].
  destruct (Z.leb_spec (d - 53) (1024 - 53)); [reflexivity|lia].
Qed.

(** The float of a positive integer of more than 53 bits has a positive
    exponent, or is infinite. *)
Lemma binary_round_large (s : bool) (p : positive) :
  53 < Zpos (digits2_pos p) ->
  let d := Zpos (digits2_pos p) in
  (exists (m : positive) (e : Z),
     binary_round 53 1024 s p 0 = S754_finite s m e /\ d - 53 <= e /\ d <= 1024) \/
  (binary_round 53 1024 s p 0 = S754_infinity s /\ 1024 <= d).
Proof.
  intros Hd d. fold d in Hd.
  unfold binary_round. fold d.
  assert (Hf : fexp 53 1024 (d + 0) = d - 53) by (unfold fexp, emin; lia).
  rewrite Hf.
  assert (Hal : shl_align p 0 (d - 53) = (p, 0)).
  { unfold shl_align. destruct (d - 53 - 0) eqn:E; try lia; reflexivity. }
  rewrite Hal. unfold binary_round_aux.
  destruct (d - 53) as [|k|k] eqn:Ek; try lia.
  assert (Hs1 : shr_fexp 53 1024 (Zpos p) 0 loc_Exact
                = (iter_pos shr_1 k
                     {| shr_m := Zpos p; shr_r := false; shr_s := false |}, Zpos k)).
  { unfold shr_fexp. cbn [Zdigits2]. fold d. rewrite Hf, Z.sub_0_r.
    reflexivity. }
  rewrite Hs1.
  set (mrs := iter_pos shr_1 k {| shr_m := Zpos p; shr_r := false; shr_s := false |}).
  assert (Hm : shr_m mrs = Zpos p / 2 ^ Zpos k)
    by (unfold mrs; rewrite shr_iter_m by (cbn; lia); reflexivity).
  pose proof (digits2_bounds p) as [Blo Bhi]. fold d in Blo, Bhi.
  assert (Hk : d = Zpos k + 53) by lia.
  assert (Hrange : 2 ^ 52 <= shr_m mrs < 2 ^ 53).
  { rewrite Hm. split.
    - apply Z.div_le_lower_bound; [apply Z.pow_pos_nonneg; lia|].
      rewrite <- Z.pow_add_r by lia. replace (Zpos k + 52) with (d - 1) by lia.
      exact Blo.
    - apply Z.div_lt_upper_bound; [apply Z.pow_pos_nonneg; lia|].
      rewrite <- Z.pow_add_r by lia. replace (Zpos k + 53) with d by lia.
      exact Bhi. }
  pose proof (round_nearest_even_bounds (shr_m mrs) (loc_of_shr_record mrs)) as Hr.
  set (mx := round_nearest_even (shr_m mrs) (loc_of_shr_record mrs)) in *.
  destruct mx as [|q|q] eqn:Emx; try lia.
  destruct (Z.eq_dec (Zpos q) (2 ^ 53)) as [Htop|Hnot].
  - (* the rounding carried into a 54th bit *)
    assert (Hdq : Zpos (digits2_pos q) = 54)
      by (apply digits2_unique; rewrite Htop; cbn; lia).
    unfold shr_fexp. cbn [Zdigits2]. rewrite Hdq.
    replace (fexp 53 1024 (54 + Zpos k) - Zpos k) with 1 by (unfold fexp, emin; lia).
    cbn [shr shr_record_of_loc iter_pos].
    assert (Hq : shr_m (shr_1 {| shr_m := Zpos q; shr_r := false; shr_s := false |})
                 = 2 ^ 52)
      by (rewrite shr_1_m by (cbn; lia); cbn [shr_m]; rewrite Htop; reflexivity).
    rewrite Hq. change (2 ^ 52) with (Zpos (Z.to_pos (2 ^ 52))).
    cbv iota.
    destruct (Z.leb_spec (Zpos k + 1) (1024 - 53)).
    + left. eexists _, _. split; [reflexivity|]. lia.
    + right. split; [reflexivity|lia].
  - assert (Hdq : Zpos (digits2_pos q) = 53)
      by (apply digits2_unique; change (53 - 1) with 52; lia).
    unfold shr_fexp. cbn [Zdigits2]. rewrite Hdq.
    replace (fexp 53 1024 (53 + Zpos k) - Zpos k) with 0 by (unfold fexp, emin; lia).
    cbn [shr shr_record_of_loc shr_m].
    destruct (Z.leb_spec (Zpos k) (1024 - 53)).
    + left. eexists _, _. split; [reflexivity|]. lia.
    + right. split; [reflexivity|lia].
Qed.

End FloatOfInt.

Section Thresholds.

Lemma SFltb_small (t p : positive) :
  Zpos (digits2_pos t) <= 53 -> Zpos (digits2_pos p) <= 53 ->
  SFltb (binary_round 53 1024 false t 0) (binary_round 53 1024 false p 0)
  = (Zpos t <? Zpos p).
Proof.
  intros Ht Hp.
  destruct (binary_round_small false t Ht) as (mt & -> & Hmt).
  destruct (binary_round_small false p Hp) as (mp & -> & Hmp).
  pose proof (digits2_bounds t) as [Tlo Thi].
  pose proof (digits2_bounds p) as [Plo Phi].
  set (dt := Zpos (digits2_pos t)) in *. set (dp := Zpos (digits2_pos p)) in *.
  unfold SFltb, SFcompare.
  destruct (Z.compare_spec (dt - 53) (dp - 53)) as [He|He|He].
  - assert (dt = dp) by lia.
    rewrite Pos.compare_cont_spec. cbn [Pos.switch_Eq].
    change (Pos.compare mt mp) with (Z.compare (Zpos mt) (Zpos mp)).
    rewrite Hmt, Hmp. replace dp with dt by assumption.
    assert (0 < 2 ^ (53 - dt)) by (apply Z.pow_pos_nonneg; lia).
    destruct (Z.compare_spec (Zpos t * 2 ^ (53 - dt)) (Zpos p * 2 ^ (53 - dt)));
      destruct (Z.ltb_spec (Zpos t) (Zpos p)); try reflexivity; nia.
  - assert (2 ^ dt <= 2 ^ (dp - 1)) by (apply Z.pow_le_mono_r; lia).
    destruct (Z.ltb_spec (Zpos t) (Zpos p)); [reflexivity|lia].
  - assert (2 ^ dp <= 2 ^ (dt - 1)) by (apply Z.pow_le_mono_r; lia).
    destruct (Z.ltb_spec (Zpos t) (Zpos p)); [lia|reflexivity].
Qed.

(** Comparing the float of an integer with the float of a threshold below
    2^53 is comparing the integers; an integer whose float is infinite has
    at least 1024 bits. *)
Lemma float_gt_of_int (T z : Z) :
  0 < T < 2 ^ 53 ->
  match float_of_int z with
  | S754_infinity _ => 2 ^ 1023 <= Z.abs z
  | f => float_gt f (float_of_int T) = (T <? z)
  end.
Proof.
  intros [HT0 HT]. destruct T as [|t|t]; try lia.
  assert (Hdt : Zpos (digits2_pos t) <= 53).
  { pose proof (digits2_bounds t) as [Tlo _].
    destruct (Z.leb_spec (Zpos (digits2_pos t)) 53); [assumption|].
    assert (2 ^ 53 <= 2 ^ (Zpos (digits2_pos t) - 1)) by (apply Z.pow_le_mono_r; lia).
    lia. }
  unfold float_gt, float_of_int. cbn [binary_normalize].
  destruct z as [|p|p]; cbn [binary_normalize].
  - destruct (binary_round_small false t Hdt) as (mt & -> & _). reflexivity.
  - destruct (Z.leb_spec (Zpos (digits2_pos p)) 53) as [Hp|Hp].
    + rewrite <- (SFltb_small t p Hdt Hp).
      destruct (binary_round_small false p Hp) as (mp & -> & _). reflexivity.
    + pose proof (digits2_bounds p) as [Plo _].
      assert (2 ^ 53 <= 2 ^ (Zpos (digits2_pos p) - 1))
        by (apply Z.pow_le_mono_r; lia).
      destruct (binary_round_large false p Hp) as [(m & e & -> & He & _)|[-> Hd]].
      * destruct (binary_round_small false t Hdt) as (mt & -> & _).
        unfold SFltb, SFcompare.
        destruct (Z.compare_spec (Zpos (digits2_pos t) - 53) e); lia.
      * cbn [Z.abs].
        assert (2 ^ 1023 <= 2 ^ (Zpos (digits2_pos p) - 1))
          by (apply Z.pow_le_mono_r; lia).
        lia.
  - destruct (Z.leb_spec (Zpos (digits2_pos p)) 53) as [Hp|Hp].
    + destruct (binary_round_small true p Hp) as (mp & -> & _).
      destruct (binary_round_small false t Hdt) as (mt & -> & _). reflexivity.
    + pose proof (digits2_bounds p) as [Plo _].
      destruct (binary_round_large true p Hp) as [(m & e & -> & He & _)|[-> Hd]].
      * destruct (binary_round_small false t Hdt) as (mt & -> & _). reflexivity.
      * cbn [Z.abs].
        assert (2 ^ 1023 <= 2 ^ (Zpos (digits2_pos p) - 1))
          by (apply Z.pow_le_mono_r; lia).
        lia.
Qed.

(** An integer of more than 1024 bits has no float. *)
Lemma float_of_int_overflow (z : Z) :
  2 ^ 1024 <= Z.abs z -> exists s, float_of_int z = S754_infinity s.
Proof.
  intros Hz. unfold float_of_int.
  assert (H : forall s p, 2 ^ 1024 <= Zpos p ->
                          binary_round 53 1024 s p 0 = S754_infinity s).
  { intros s p Hp. pose proof (digits2_bounds p) as [_ Phi].
    assert (Hd : 1024 < Zpos (digits2_pos p)).
    { destruct (Z.ltb_spec 1024 (Zpos (digits2_pos p))); [assumption|].
      assert (2 ^ Zpos (digits2_pos p) <= 2 ^ 1024) by (apply Z.pow_le_mono_r; lia).
      lia. }
    destruct (binary_round_large s p ltac:(lia)) as [(m & e & _ & _ & Hle)|[-> _]];
      [lia|reflexivity]. }
  destruct z as [|p|p]; cbn [binary_normalize Z.abs] in *.
  - exfalso. assert (0 < 2 ^ 1024) by (apply Z.pow_pos_nonneg; lia). lia.
  - eexists. now apply H.
  - eexists. now apply H.
Qed.

End Thresholds.

(** ** The rule on the amount *)

Lemma default_threshold :
  high_value_threshold (config (AMLPipeline__init__ None)) = float_of_int 25000.
Proof. vm_compute. reflexivity. Qed.

(** X11. The rule of the default configuration on an amount that is an
    integer: above 25000 the transaction is refused as high-risk, up to 25000
    (and below 0) it is compliant; the conversion to a float does not blur the
    threshold.  An integer of more than 1024 bits has no float: the
    [OverflowError] is not among the exceptions that [enforce_rules] catches,
    and leaves it. *)
Theorem high_value_rule :
  forall (tx : dict) (z : Z),
    dict_lookup "amount" tx = Some (VInt z) ->
    (Z.abs z < 2 ^ 1023 ->
     enforce_rules (AMLPipeline__init__ None) (VDict tx)
     = Ok (if 25000 <? z then (false, "High-risk transaction amount")
           else (true, "Compliant"))) /\
    (2 ^ 1024 <= Z.abs z ->
     enforce_rules (AMLPipeline__init__ None) (VDict tx) = Raise).
Proof.
  intros tx z Hz. unfold enforce_rules, amount_of. rewrite Hz. cbn [bind py_float].
  rewrite default_threshold. split.
  - intros Hsmall. pose proof (float_gt_of_int 25000 z ltac:(cbn; lia)) as H.
    destruct (float_of_int z); try lia; rewrite H; now destruct (25000 <? z).
  - intros Hbig. destruct (float_of_int_overflow z Hbig) as (s & ->). reflexivity.
Qed.

Lemma high_value_rule_witness :
  enforce_rules (AMLPipeline__init__ None) (VDict demo_high_value)
  = Ok (if 25000 <? 26000 then (false, "High-risk transaction amount")
        else (true, "Compliant")).
Proof.
  apply (proj1 (high_value_rule demo_high_value 26000 eq_refl)).
  apply Z.ltb_lt. vm_compute. reflexivity.
Defined.

(** X12. The rule on an amount that is not a number.  Without the key
    [amount], or with [True] or [False] under it, the transaction is compliant
    for the default configuration.  [None], a list or a dict, and a text that
    [float] refuses, give "Invalid amount value".  A text that [float] reads as
    NaN ("nan", " NaN ", "-nan") is compliant under every configuration: NaN
    exceeds no threshold. *)
Theorem rule_without_a_number :
  forall (self : AMLPipeline) (tx : dict),
    match dict_lookup "amount" tx with
    | None | Some (VBool _) =>
        self = AMLPipeline__init__ None ->
        enforce_rules self (VDict tx) = Ok (true, "Compliant")
    | Some VNone | Some (VList _) | Some (VDict _) =>
        enforce_rules self (VDict tx) = Ok (false, "Invalid amount value")
    | Some (VStr s) =>
        (float_of_str s = None ->
         enforce_rules self (VDict tx) = Ok (false, "Invalid amount value")) /\
        (float_of_str s = Some S754_nan ->
         enforce_rules self (VDict tx) = Ok (true, "Compliant"))
    | Some (VInt _) => True
    end.
Proof.
  intros self tx. unfold enforce_rules, amount_of.
  destruct (dict_lookup "amount" tx) as [[|[|]|z|s|l|kvs]|]; cbn [bind py_float];
    try reflexivity; try (intros ->; vm_compute; reflexivity).
  split; intros ->; [reflexivity|].
  unfold float_gt, SFltb. now destruct (high_value_threshold (config self)).
Qed.

(** ** Rejections and the ledger *)

Section Rejections.

Context {Sg : Signer}.

Lemma in_set_not_timeout (v : value) (users : list string) : in_set v users <> Timeout.
Proof. destruct v; discriminate. Qed.

Lemma check_kyc_not_timeout (self : AMLPipeline) (transaction : value) :
  check_kyc self transaction <> Timeout.
Proof.
  unfold check_kyc.
  apply bind_not_timeout; [apply py_get_not_timeout|]. intros sender.
  apply bind_not_timeout; [apply py_get_not_timeout|]. intros receiver.
  apply bind_not_timeout; [apply in_set_not_timeout|]. intros ok.
  apply if_not_timeout; [apply in_set_not_timeout|discriminate].
Qed.

Lemma enforce_rules_not_timeout (self : AMLPipeline) (transaction : value) :
  enforce_rules self transaction <> Timeout.
Proof.
  unfold enforce_rules, amount_of.
  destruct transaction; cbn [bind]; try discriminate.
  destruct (match dict_lookup "amount" items with
            | Some v => py_float v
            | None => FloatOk (S754_zero false)
            end); try discriminate.
  destruct (float_gt _ _); discriminate.
Qed.

(** Recording a rejection on a ledger that the validator accepts. *)
Lemma record_result (fuel : nat) (ledger : node) (now : Z) (r : randomness)
    (result : dict) :
  SignerCorrect Sg ->
  is_chain_valid ledger = Ok true ->
  match store_evaluation fuel ledger now r (VDict result) with
  | Ok (ledger', fs', blk) =>
      (exists (bs : list dict) (b : dict),
          chain ledger = blocks bs /\ chain ledger' = blocks (bs ++ [b]) /\
          blk = VDict b /\ dict_lookup "data" b = Some (VDict result)) /\
      is_chain_valid ledger' = Ok true /\ fs' = Holds (chain ledger')
  | Raise => False
  | Timeout => consensus ledger = "pow"
  end.
Proof.
  intros Hsig Hvalid. destruct (valid_is_blocks _ Hvalid) as (bs & Hc & Hv).
  pose proof (append_checked fuel ledger now r (VDict result) bs Hsig Hc Hv) as H.
  unfold store_evaluation.
  destruct (create_block fuel ledger now r (VDict result)) as [[[l' fs'] blk]| |];
    [|exact H..].
  destruct H as (b & -> & -> & -> & Hdata & Hk). cbn [set_chain chain].
  split; [exists bs, b; now repeat split|].
  split; [|reflexivity].
  unfold is_chain_valid, set_chain. cbn [chain].
  rewrite is_valid_chain_blocks, Hk. reflexivity.
Qed.

End Rejections.

(** X13. What [evaluate_transaction] does before it asks the model, with a
    [LocalBlockchain] as sink whose chain the validator accepts.  When it
    returns at step 1 or step 2, exactly one block has been appended, the
    payload of that block is the result returned, the chain is accepted again
    and the store holds it; the status is [rejected_kyc] exactly if the KYC
    check failed, and [rejected_rules] with the reason of the rule otherwise.
    The model is reached only with a transaction that passed both, the ledger
    untouched.  An exception comes from the KYC check or from the rule, never
    from the ledger. *)
Theorem rejections_are_recorded {Sg : Signer} :
  SignerCorrect Sg ->
  forall (fuel : nat) (self : AMLPipeline) (ledger : node) (now : Z)
         (r : randomness) (transaction external_id : value),
    is_chain_valid ledger = Ok true ->
    match evaluate_transaction self (store_evaluation fuel ledger now r)
            transaction external_id with
    | Ok (Recorded (ledger', fs', blk) result) =>
        (exists (bs : list dict) (b : dict),
            chain ledger = blocks bs /\ chain ledger' = blocks (bs ++ [b]) /\
            blk = VDict b /\ dict_lookup "data" b = Some result) /\
        is_chain_valid ledger' = Ok true /\ fs' = Holds (chain ledger') /\
        py_getkey result "external_id" = Ok external_id /\
        py_getkey result "transaction" = Ok transaction /\
        ((check_kyc self transaction = Ok false /\
          py_getkey result "kyc_ok" = Ok (VBool false) /\
          py_getkey result "status" = Ok (VStr "rejected_kyc") /\
          py_getkey result "reason" = Ok (VStr "KYC verification failed")) \/
         (check_kyc self transaction = Ok true /\
          py_getkey result "kyc_ok" = Ok (VBool true) /\
          py_getkey result "status" = Ok (VStr "rejected_rules") /\
          exists reason,
            enforce_rules self transaction = Ok (false, reason) /\
            py_getkey result "rule_compliant" = Ok (VBool false) /\
            py_getkey result "rule_reason" = Ok (VStr reason) /\
            py_getkey result "reason" = Ok (VStr reason)))
    | Ok (ToModel result) =>
        check_kyc self transaction = Ok true /\
        py_getkey result "kyc_ok" = Ok (VBool true) /\
        py_getkey result "rule_compliant" = Ok (VBool true) /\
        exists reason, enforce_rules self transaction = Ok (true, reason)
    | Raise =>
        check_kyc self transaction = Raise \/ enforce_rules self transaction = Raise
    | Timeout => consensus ledger = "pow"
    end.
Proof.
  intros Hsig fuel self ledger now r transaction external_id Hvalid.
  unfold evaluate_transaction.
  destruct (check_kyc self transaction) as [[|]| |] eqn:Ekyc; cbn [bind negb].
  - destruct (enforce_rules self transaction) as [[[|] reason]| |] eqn:Erule;
      cbn [bind negb].
    + repeat split; try reflexivity. now exists reason.
    + pose proof (record_result fuel ledger now r
                    (update_rejection "rejected_rules" reason
                       (dict_set "rule_reason" (VStr reason)
                          (dict_set "rule_compliant" (VBool false)
                             (dict_set "kyc_ok" (VBool true)
                                [("external_id", external_id);
                                 ("transaction", transaction)]))))
                    Hsig Hvalid) as H.
      destruct (store_evaluation _ _ _ _ _) as [[[l' fs'] blk]| |]; cbn [bind];
        [|contradiction|exact H].
      destruct H as (Hb & Hv & Hfs). repeat split; try assumption; try reflexivity.
      right. repeat split; try reflexivity. exists reason. now repeat split.
    + now right.
    + exact (False_ind _ (enforce_rules_not_timeout _ _ Erule)).
  - pose proof (record_result fuel ledger now r
                  (update_rejection "rejected_kyc" "KYC verification failed"
                     (dict_set "kyc_ok" (VBool false)
                        [("external_id", external_id);
                         ("transaction", transaction)]))
                  Hsig Hvalid) as H.
    destruct (store_evaluation _ _ _ _ _) as [[[l' fs'] blk]| |]; cbn [bind];
      [|contradiction|exact H].
    destruct H as (Hb & Hv & Hfs). repeat split; try assumption; try reflexivity.
    left. now repeat split.
  - now left.
  - exact (False_ind _ (check_kyc_not_timeout _ _ Ekyc)).
Qed.

Lemma rejections_are_recorded_witness :
  match evaluate_transaction (AMLPipeline__init__ None)
          (store_evaluation 0 (Node "poa" (blocks poa_chain) [] 4 "demo key")
             1700000120 tt)
          (VDict demo_high_value) (VStr "tx-4") with
  | Ok (Recorded (ledger', _, _) result) =>
      py_len (chain ledger') = Ok 3%nat /\
      py_getkey result "status" = Ok (VStr "rejected_kyc")
  | _ => False
  end /\
  match evaluate_transaction (AMLPipeline__init__ None)
          (store_evaluation 0 (Node "poa" (blocks poa_chain) [] 4 "demo key")
             1700000120 tt)
          (VDict demo_high_value) (VStr "tx-4") with
  | Ok (Recorded (ledger', fs', blk) result) =>
      (exists (bs : list dict) (b : dict),
          chain (Node "poa" (blocks poa_chain) [] 4 "demo key") = blocks bs /\
          chain ledger' = blocks (bs ++ [b]) /\
          blk = VDict b /\ dict_lookup "data" b = Some result) /\
      is_chain_valid ledger' = Ok true /\ fs' = Holds (chain ledger') /\
      py_getkey result "external_id" = Ok (VStr "tx-4") /\
      py_getkey result "transaction" = Ok (VDict demo_high_value) /\
      ((check_kyc (AMLPipeline__init__ None) (VDict demo_high_value) = Ok false /\
        py_getkey result "kyc_ok" = Ok (VBool false) /\
        py_getkey result "status" = Ok (VStr "rejected_kyc") /\
        py_getkey result "reason" = Ok (VStr "KYC verification failed")) \/
       (check_kyc (AMLPipeline__init__ None) (VDict demo_high_value) = Ok true /\
        py_getkey result "kyc_ok" = Ok (VBool true) /\
        py_getkey result "status" = Ok (VStr "rejected_rules") /\
        exists reason,
          enforce_rules (AMLPipeline__init__ None) (VDict demo_high_value)
          = Ok (false, reason) /\
          py_getkey result "rule_compliant" = Ok (VBool false) /\
          py_getkey result "rule_reason" = Ok (VStr reason) /\
          py_getkey result "reason" = Ok (VStr reason)))
  | Ok (ToModel result) =>
      check_kyc (AMLPipeline__init__ None) (VDict demo_high_value) = Ok true /\
      py_getkey result "kyc_ok" = Ok (VBool true) /\
      py_getkey result "rule_compliant" = Ok (VBool true) /\
      exists reason,
        enforce_rules (AMLPipeline__init__ None) (VDict demo_high_value)
        = Ok (true, reason)
  | Raise =>
      check_kyc (AMLPipeline__init__ None) (VDict demo_high_value) = Raise \/
      enforce_rules (AMLPipeline__init__ None) (VDict demo_high_value) = Raise
  | Timeout => "poa" = "pow"
  end.
Proof.
  split.
  - vm_compute. split; reflexivity.
  - apply (rejections_are_recorded demo_signer_correct 0 (AMLPipeline__init__ None)
             (Node (Sg := demo_signer) "poa" (blocks poa_chain) [] 4 "demo key")
             1700000120 tt (VDict demo_high_value) (VStr "tx-4")).
    vm_compute. reflexivity.
Defined.

(** X14. The transactions that the simulator of [app.py] generates carry the
    ids [AUTO] followed by a number, and no verified user has such an id:
    whatever is drawn, and whatever the configuration, the KYC check fails,
    and the evaluation is recorded with status [rejected_kyc].  No simulated
    transaction reaches the rule or the model. *)
Theorem simulated_transactions_fail_kyc {Sg : Signer} :
  SignerCorrect Sg ->
  forall (fuel : nat) (cfg : option AMLConfig) (ledger : node) (now : Z)
         (r : randomness) (d : draws) (external_id : value),
    is_chain_valid ledger = Ok true ->
    check_kyc (AMLPipeline__init__ cfg) (generate_random_transaction d) = Ok false /\
    match evaluate_transaction (AMLPipeline__init__ cfg)
            (store_evaluation fuel ledger now r)
            (generate_random_transaction d) external_id with
    | Ok (Recorded (ledger', _, blk) result) =>
        py_getkey result "status" = Ok (VStr "rejected_kyc") /\
        py_getkey blk "data" = Ok result /\
        is_chain_valid ledger' = Ok true
    | Ok (ToModel _) => False
    | Raise => False
    | Timeout => consensus ledger = "pow"
    end.
Proof.
  intros Hsig fuel cfg ledger now r d external_id Hvalid.
  assert (Hkyc : check_kyc (AMLPipeline__init__ cfg) (generate_random_transaction d)
                 = Ok false) by reflexivity.
  split; [exact Hkyc|].
  unfold evaluate_transaction. rewrite Hkyc. cbn [bind negb].
  pose proof (record_result fuel ledger now r
                (update_rejection "rejected_kyc" "KYC verification failed"
                   (dict_set "kyc_ok" (VBool false)
                      [("external_id", external_id);
                       ("transaction", generate_random_transaction d)]))
                Hsig Hvalid) as H.
  destruct (store_evaluation _ _ _ _ _) as [[[l' fs'] blk]| |]; cbn [bind];
    [|exact H..].
  destruct H as ((bs & b & _ & _ & -> & Hdata) & Hv & _).
  repeat split; try assumption. cbn [py_getkey]. now rewrite Hdata.
Qed.

Lemma simulated_transactions_fail_kyc_witness :
  check_kyc (AMLPipeline__init__ None)
    (generate_random_transaction
       {| amount := 150000; sender_balance := 2000; receiver_balance := 99999;
          transaction_speed := 5; sender_country := "NG"; receiver_country := "RU";
          sender_number := 1000; receiver_number := 9999 |}) = Ok false /\
  match evaluate_transaction (AMLPipeline__init__ None)
          (store_evaluation 0 (Node "poa" (blocks poa_chain) [] 4 "demo key")
             1700000300 tt)
          (generate_random_transaction
             {| amount := 150000; sender_balance := 2000; receiver_balance := 99999;
                transaction_speed := 5; sender_country := "NG";
                receiver_country := "RU";
                sender_number := 1000; receiver_number := 9999 |})
          (VStr "AUTO-1700000300") with
  | Ok (Recorded (ledger', _, blk) result) =>
      py_getkey result "status" = Ok (VStr "rejected_kyc") /\
      py_getkey blk "data" = Ok result /\
      is_chain_valid ledger' = Ok true
  | Ok (ToModel _) => False
  | Raise => False
  | Timeout => "poa" = "pow"
  end.
Proof.
  apply (simulated_transactions_fail_kyc demo_signer_correct 0 None
           (Node (Sg := demo_signer) "poa" (blocks poa_chain) [] 4 "demo key")
           1700000300 tt).
  vm_compute. reflexivity.
Defined.

(** ** The receipt written into the last block *)

Section Receipt.

Context {Sg : Signer}.

Lemma removelast_snoc {A} (l : list A) (x : A) : removelast (l ++ [x]) = l.
Proof. apply removelast_last. Qed.

Lemma last_block_snoc (bs : list dict) (b : dict) :
  last_block (blocks (bs ++ [b])) = Ok (VDict b).
Proof.
  unfold last_block, blocks. cbn [py_len bind py_getitem].
  rewrite length_map, length_app. cbn [List.length].
  replace (List.length bs + 1 - 1)%nat with (List.length bs) by lia.
  rewrite map_app, nth_error_app2 by (rewrite length_map; lia).
  rewrite length_map, Nat.sub_diag. reflexivity.
Qed.

End Receipt.

(** X15. After the Ethereum write, [app.py] writes the receipt into the last
    block of the ledger and into its payload, and saves the chain.  The
    Merkle root and the hash of the block were taken before: on a ledger that
    the validator accepted, it now rejects the chain, unless the old and the
    new payload have the same SHA-256 digest.  The store holds the update_rejection
    chain, so the next constructor discards it, with all blocks, for a fresh
    genesis chain. *)
Theorem eth_receipt_breaks_chain {Sg : Signer} :
  forall (self : node) (fs : file) (bs : list dict) (b d e : dict)
         (tx_hash block_number : value),
    chain self = blocks (bs ++ [b]) ->
    is_valid_chain (blocks (bs ++ [b])) = Ok true ->
    dict_lookup "data" b = Some (VDict d) ->
    (forall t, dict_lookup "transaction" d = Some t -> is_dict t = true) ->
    dict_lookup "eth_tx_hash" e = Some tx_hash ->
    dict_lookup "eth_block_number" e = Some block_number ->
    match attach_eth_receipt self fs (VDict e) with
    | Ok (self', fs') =>
        exists b' d' : dict,
          chain self' = blocks (bs ++ [b']) /\
          fs' = Holds (chain self') /\
          dict_lookup "data" b' = Some (VDict d') /\
          dict_lookup "eth_tx_hash" d' = Some tx_hash /\
          dict_lookup "eth_block_number" d' = Some block_number /\
          dict_lookup "merkle_root" b' = dict_lookup "merkle_root" b /\
          dict_lookup "hash" b' = dict_lookup "hash" b /\
          (calculate_merkle_root (VDict d') = calculate_merkle_root (VDict d) \/
           is_chain_valid self' = Ok false /\
           forall (fuel : nat) (cons : string) (diff : option Z) (key : private_key)
                  (now : Z) (r : randomness),
             String.eqb cons "pow" || String.eqb cons "poa" = true ->
             __init__ fuel cons diff key fs' now r
             = fresh_ledger fuel cons diff key now r [])
    | Raise => False
    | Timeout => False
    end.
Proof.
  intros self fs bs b d e tx_hash block_number Hc Hvalid Hdata Htx He1 He2.
  unfold attach_eth_receipt.
  replace (truthy (VDict e)) with true by (destruct e; [discriminate|reflexivity]).
  cbn [negb]. rewrite Hc.
  replace (py_len (blocks (bs ++ [b]))) with (@Ok nat (List.length (bs ++ [b])))
    by (unfold blocks; cbn [py_len]; now rewrite length_map).
  cbn [bind]. rewrite length_app. cbn [List.length].
  replace (0 <? List.length bs + 1)%nat with true
    by (symmetry; apply Nat.ltb_lt; lia).
  cbn [negb]. rewrite last_block_snoc. cbn [bind py_getkey py_setkey py_in].
  rewrite He1, He2, Hdata. cbn [bind py_setkey py_getkey py_in].
  set (d1 := dict_set "eth_block_number" block_number
               (dict_set "eth_tx_hash" tx_hash d)).
  set (b1 := dict_set "eth_block_number" block_number
               (dict_set "eth_tx_hash" tx_hash b)).
  assert (Hd1 : dict_lookup "transaction" d1 = dict_lookup "transaction" d)
    by (unfold d1; rewrite !dict_lookup_set_other by discriminate; reflexivity).
  assert (Hfin : forall d', 
             dict_lookup "eth_tx_hash" d' = Some tx_hash ->
             dict_lookup "eth_block_number" d' = Some block_number ->
             exists b' d'0 : dict,
               chain (set_chain self
                        (VList (removelast (map VDict (bs ++ [b]))
                                ++ [VDict (dict_set "data" (VDict d') b1)])))
               = blocks (bs ++ [b']) /\
               save_chain (set_chain self
                        (VList (removelast (map VDict (bs ++ [b]))
                                ++ [VDict (dict_set "data" (VDict d') b1)])))
               = Holds (chain (set_chain self
                        (VList (removelast (map VDict (bs ++ [b]))
                                ++ [VDict (dict_set "data" (VDict d') b1)])))) /\
               dict_lookup "data" b' = Some (VDict d'0) /\
               dict_lookup "eth_tx_hash" d'0 = Some tx_hash /\
               dict_lookup "eth_block_number" d'0 = Some block_number /\
               dict_lookup "merkle_root" b' = dict_lookup "merkle_root" b /\
               dict_lookup "hash" b' = dict_lookup "hash" b /\
               (calculate_merkle_root (VDict d'0) = calculate_merkle_root (VDict d) \/
                is_chain_valid (set_chain self
                        (VList (removelast (map VDict (bs ++ [b]))
                                ++ [VDict (dict_set "data" (VDict d') b1)])))
                = Ok false /\
                forall (fuel : nat) (cons : string) (diff : option Z)
                       (key : private_key) (now : Z) (r : randomness),
                  String.eqb cons "pow" || String.eqb cons "poa" = true ->
                  __init__ fuel cons diff key
                    (save_chain (set_chain self
                        (VList (removelast (map VDict (bs ++ [b]))
                                ++ [VDict (dict_set "data" (VDict d') b1)]))))
                    now r
                  = fresh_ledger fuel cons diff key now r [])).
  { intros d' H1 H2. exists (dict_set "data" (VDict d') b1), d'.
    assert (Hch : VList (removelast (map VDict (bs ++ [b]))
                         ++ [VDict (dict_set "data" (VDict d') b1)])
                  = blocks (bs ++ [dict_set "data" (VDict d') b1])).
    { unfold blocks. rewrite !map_app. cbn [map]. now rewrite removelast_snoc. }
    rewrite Hch. cbn [set_chain chain save_chain].
    assert (Hlk : forall k, k <> "data" -> k <> "eth_tx_hash" ->
                    k <> "eth_block_number" ->
                    dict_lookup k (dict_set "data" (VDict d') b1) = dict_lookup k b).
    { intros k K1 K2 K3. unfold b1.
      rewrite !dict_lookup_set_other by assumption. reflexivity. }
    repeat split; try assumption.
    - apply dict_lookup_set_same.
    - apply Hlk; discriminate.
    - apply Hlk; discriminate.
    - destruct (String.eqb (calculate_merkle_root (VDict d'))
                  (calculate_merkle_root (VDict d))) eqn:Eroot;
        [left; now apply String.eqb_eq|right].
      rewrite is_valid_chain_blocks in Hvalid. injection Hvalid as Hvalid.
      rewrite isValid_at in Hvalid.
      apply andb_true_iff in Hvalid as [Hpre Hblk].
      apply andb_true_iff in Hblk as [Hblk _].
      assert (Hm : spec_merkle b = true).
      { unfold spec_block in Hblk.
        apply andb_true_iff in Hblk as [Hblk _].
        apply andb_true_iff in Hblk as [Hblk _].
        now apply andb_true_iff in Hblk as [_ Hblk]. }
      unfold spec_merkle, get_or in Hm. rewrite Hdata in Hm.
      rewrite py_or_dict in Hm by reflexivity.
      apply py_eq_str_r in Hm.
      assert (Hinv : isValid (bs ++ [dict_set "data" (VDict d') b1]) = false).
      { rewrite isValid_at.
        replace (spec_block (last_opt None bs) (dict_set "data" (VDict d') b1))
          with false; [now rewrite andb_false_r|].
        symmetry. unfold spec_block.
        replace (spec_merkle (dict_set "data" (VDict d') b1)) with false;
          [now rewrite !andb_false_r|].
        symmetry. unfold spec_merkle, get_or.
        rewrite dict_lookup_set_same, Hlk by discriminate.
        destruct (dict_lookup "merkle_root" b) as [v|]; [|discriminate].
        subst v. rewrite py_or_dict by reflexivity. cbn [py_eq].
        rewrite String.eqb_sym. exact Eroot. }
      assert (Hinv' : is_valid_chain (blocks (bs ++ [dict_set "data" (VDict d') b1]))
                      = Ok false)
        by (now rewrite is_valid_chain_blocks, Hinv).
      split; [exact Hinv'|].
      intros fuel cons diff key now r Hmode.
      rewrite startup_cases by exact Hmode. unfold save_chain, set_chain.
      cbv beta iota zeta. cbn [chain].
      replace (truthy (blocks (bs ++ [dict_set "data" (VDict d') b1]))) with true
        by (destruct bs; reflexivity).
      cbn [negb]. now rewrite Hinv'. }
  assert (Hk1 : dict_lookup "eth_tx_hash" d1 = Some tx_hash)
    by (unfold d1; rewrite dict_lookup_set_other by discriminate;
        apply dict_lookup_set_same).
  assert (Hk2 : dict_lookup "eth_block_number" d1 = Some block_number)
    by (unfold d1; apply dict_lookup_set_same).
  rewrite Hd1.
  destruct (dict_lookup "transaction" d) as [t|] eqn:Et; cbn [bind].
  - specialize (Htx t eq_refl). destruct t as [| | | | |t]; try discriminate.
    cbn [py_getkey py_setkey bind]. rewrite ?Hd1, ?Et.
    cbn [py_getkey py_setkey bind set_last]. unfold blocks.
    apply Hfin.
    + rewrite dict_lookup_set_other by discriminate. exact Hk1.
    + rewrite dict_lookup_set_other by discriminate. exact Hk2.
  - cbn [py_setkey bind set_last]. unfold blocks. apply Hfin; assumption.
Qed.

Lemma eth_receipt_breaks_chain_witness :
  match attach_eth_receipt (Node "poa" (blocks audit_chain) [] 4 "demo key")
          (Holds (blocks audit_chain)) (VDict demo_receipt) with
  | Ok (self', fs') =>
      py_len (chain self') = Ok 3%nat /\ is_chain_valid self' = Ok false
  | _ => False
  end /\
  match attach_eth_receipt (Node "poa" (blocks audit_chain) [] 4 "demo key")
          (Holds (blocks audit_chain)) (VDict demo_receipt) with
  | Ok (self', fs') =>
      exists b' d' : dict,
        chain self' = blocks (firstn 2 audit_chain ++ [b']) /\
        fs' = Holds (chain self') /\
        dict_lookup "data" b' = Some (VDict d') /\
        dict_lookup "eth_tx_hash" d'
        = Some (VStr "0x5c504ed432cb51138bcf09aa5e8a410dd4a1e204ef84bfed1be16dfba1b22060") /\
        dict_lookup "eth_block_number" d' = Some (VInt 12) /\
        dict_lookup "merkle_root" b' = dict_lookup "merkle_root" (nth 2 audit_chain []) /\
        dict_lookup "hash" b' = dict_lookup "hash" (nth 2 audit_chain []) /\
        (calculate_merkle_root (VDict d') = calculate_merkle_root (VDict audit_payload) \/
         is_chain_valid self' = Ok false /\
         forall (fuel : nat) (cons : string) (diff : option Z) (key : private_key)
                (now : Z) (r : randomness),
           String.eqb cons "pow" || String.eqb cons "poa" = true ->
           __init__ fuel cons diff key fs' now r
           = fresh_ledger fuel cons diff key now r [])
  | Raise => False
  | Timeout => False
  end.
Proof.
  split.
  - vm_compute. split; reflexivity.
  - apply (eth_receipt_breaks_chain
             (Node (Sg := demo_signer) "poa" (blocks audit_chain) [] 4 "demo key")
             (Holds (blocks audit_chain)) (firstn 2 audit_chain)
             (nth 2 audit_chain []) audit_payload demo_receipt).
    + reflexivity.
    + vm_compute. reflexivity.
    + reflexivity.
    + intros t H. vm_compute in H. injection H as <-. reflexivity.
    + reflexivity.
    + reflexivity.
Defined.

(** ** Balances *)

Section Balances.

Context {Sg : Signer}.

Lemma balance_set_keys (w : value) (y : spec_float) (b : ledger_balances)
    (k : value) (x : spec_float) :
  In (k, x) (balance_set w y b) -> k = w \/ exists x0, In (k, x0) b.
Proof.
  induction b as [|[k' x'] b IH]; cbn [balance_set].
  - intros [[= <- <-]|[]]. now left.
  - destruct (py_eq w k').
    + intros [[= <- <-]|H]; right; eexists; [left|right]; eauto.
    + intros [[= <- <-]|H].
      * right. eexists. left. reflexivity.
      * destruct (IH H) as [->|(x0 & H0)]; [now left|].
        right. exists x0. now right.
Qed.

Lemma balance_get_default (w : value) (b : ledger_balances) (d : spec_float) :
  (forall k x, In (k, x) b -> py_eq w k = false) -> balance_get w b d = d.
Proof.
  induction b as [|[k x] b IH]; intros H; [reflexivity|]. cbn [balance_get].
  rewrite (H k x) by now left. apply IH. intros k' x' Hin. apply (H k' x'). now right.
Qed.

Lemma balance_get_set_same (s : string) (y : spec_float) (b : ledger_balances)
    (d : spec_float) :
  balance_get (VStr s) (balance_set (VStr s) y b) d = y.
Proof.
  induction b as [|[k x] b IH]; cbn [balance_set balance_get].
  - now rewrite py_eq_str_refl.
  - destruct (py_eq (VStr s) k) eqn:E; cbn [balance_get]; rewrite E; [reflexivity|exact IH].
Qed.

Lemma balance_get_set_other (w : value) (s : string) (y : spec_float)
    (b : ledger_balances) (d : spec_float) :
  py_eq w (VStr s) = false ->
  balance_get w (balance_set (VStr s) y b) d = balance_get w b d.
Proof.
  intros Hw. induction b as [|[k x] b IH]; cbn [balance_set balance_get].
  - now rewrite Hw.
  - destruct (py_eq (VStr s) k) eqn:E; cbn [balance_get].
    + apply py_eq_str_l in E. subst k. now rewrite Hw.
    + now rewrite IH.
Qed.

Lemma balance_loop_app (l1 l2 : list value) (b : ledger_balances) :
  balance_loop b (l1 ++ l2) = do b1 <- balance_loop b l1; balance_loop b1 l2.
Proof.
  revert b. induction l1 as [|x l1 IH]; intros b; [reflexivity|].
  cbn [app balance_loop]. destruct (balance_step b x); cbn [bind]; auto.
Qed.


Lemma move_balance_keys (w : value) (op : spec_float -> spec_float -> spec_float)
    (a : spec_float) (b b' : ledger_balances) (k : value) (x : spec_float) :
  move_balance w op a b = Ok b' -> In (k, x) b' ->
  (k = w /\ truthy w = true) \/ exists x0, In (k, x0) b.
Proof.
  unfold move_balance. destruct (truthy w) eqn:Ht.
  - destruct (hashable w); [|discriminate]. intros [= <-] Hin.
    destruct (balance_set_keys _ _ _ _ _ Hin) as [->|H]; [now left|now right].
  - intros [= <-] Hin. right. eauto.
Qed.

Lemma balance_step_keys (b b' : ledger_balances) (block k : value) (x : spec_float) :
  balance_step b block = Ok b' -> In (k, x) b' ->
  names_wallet block k \/ exists x0, In (k, x0) b.
Proof.
  unfold balance_step.
  destruct (py_get block "data" (VDict [])) as [d| |] eqn:Ed; cbn [bind];
    try discriminate.
  destruct (py_get (py_or d (VDict [])) "transaction" (VDict [])) as [t| |] eqn:Et;
    cbn [bind]; try discriminate.
  destruct (truthy (py_or t (VDict []))); cbn [negb];
    [|intros [= <-] Hin; right; eauto].
  destruct (py_get (py_or t (VDict [])) "sender_id" VNone) as [sender| |] eqn:Es;
    cbn [bind]; try discriminate.
  destruct (py_get (py_or t (VDict [])) "receiver_id" VNone) as [receiver| |] eqn:Er;
    cbn [bind]; try discriminate.
  destruct (py_get (py_or t (VDict [])) "amount" (VInt 0)) as [a| |];
    cbn [bind]; try discriminate.
  destruct (move_balance sender float_sub (amount_or_zero a) b) as [b1| |] eqn:E1;
    cbn [bind]; try discriminate.
  intros E2 Hin.
  destruct (move_balance_keys _ _ _ _ _ _ _ E2 Hin) as [[-> Ht]|(x0 & H0)].
  - left. exists d, t. repeat split; try assumption. now right.
  - destruct (move_balance_keys _ _ _ _ _ _ _ E1 H0) as [[-> Ht]|H1]; [|now right].
    left. exists d, t. repeat split; try assumption. now left.
Qed.

Lemma balance_loop_keys (l : list value) :
  forall (b b' : ledger_balances) (k : value) (x : spec_float),
    balance_loop b l = Ok b' -> In (k, x) b' ->
    (exists block, In block l /\ names_wallet block k) \/ exists x0, In (k, x0) b.
Proof.
  induction l as [|block l IH]; intros b b' k x; cbn [balance_loop].
  - intros [= <-] Hin. right. eauto.
  - destruct (balance_step b block) as [b1| |] eqn:E1; cbn [bind]; try discriminate.
    intros E2 Hin. destruct (IH _ _ _ _ E2 Hin) as [(blk & Hb & Hn)|(x0 & H0)].
    + left. exists blk. split; [now right|exact Hn].
    + destruct (balance_step_keys _ _ _ _ _ E1 H0) as [Hn|H1]; [|now right].
      left. exists block. split; [now left|exact Hn].
Qed.

End Balances.

(** X16. Who has a balance.  Every wallet that [compute_balances] lists is a
    true value that some block of the chain names as [sender_id] or
    [receiver_id] of its transaction; and [get_balance] is [0.0] for every
    wallet that equals none of the wallets listed. *)
Theorem balances_come_from_transactions {Sg : Signer} :
  forall (self : node) (balances : ledger_balances),
    compute_balances self = Ok balances ->
    (forall (k : value) (x : spec_float),
       In (k, x) balances ->
       exists items block,
         py_iter (chain self) = Ok items /\ In block items /\
         names_wallet block k) /\
    (forall wallet_id : value,
       hashable wallet_id = true ->
       (forall k x, In (k, x) balances -> py_eq wallet_id k = false) ->
       get_balance self wallet_id = Ok float_zero).
Proof.
  intros self balances H. split.
  - intros k x Hin. unfold compute_balances in H.
    destruct (py_iter (chain self)) as [l| |]; cbn [bind] in H; try discriminate.
    destruct (balance_loop_keys l [] balances k x H Hin) as [(blk & Hb & Hn)|(x0 & [])].
    exists l, blk. now repeat split.
  - intros w Hw Hnone. unfold get_balance. rewrite H. cbn [bind]. rewrite Hw.
    now rewrite balance_get_default.
Qed.

Lemma balances_come_from_transactions_witness :
  audit_balances
  = [(VStr "US67890", SFopp (float_of_int 26000));
     (VStr "UK54321", float_of_int 26000)] /\
  ((forall (k : value) (x : spec_float),
      In (k, x) audit_balances ->
      exists items block,
        py_iter (chain (Node "poa" (blocks audit_chain) [] 4 "demo key")) = Ok items /\
        In block items /\ names_wallet block k) /\
   (forall wallet_id : value,
      hashable wallet_id = true ->
      (forall k x, In (k, x) audit_balances -> py_eq wallet_id k = false) ->
      get_balance (Node "poa" (blocks audit_chain) [] 4 "demo key") wallet_id
      = Ok float_zero)).
Proof.
  split; [vm_compute; reflexivity|].
  apply (balances_come_from_transactions
           (Node (Sg := demo_signer) "poa" (blocks audit_chain) [] 4 "demo key")
           audit_balances).
  vm_compute. reflexivity.
Defined.

(** X17. A refused transaction moves balances.  When the KYC check fails, the
    pipeline records the evaluation, and [compute_balances] treats the
    recorded transaction like any other: on the ledger after the call, the
    sender has what it had less the amount, the receiver what it had plus the
    amount, and every other wallet what it had. *)
Theorem refused_transaction_moves_balances {Sg : Signer} :
  SignerCorrect Sg ->
  forall (fuel : nat) (self : AMLPipeline) (ledger : node) (now : Z)
         (r : randomness) (tx : dict) (external_id : value) (s t : string)
         (balances : ledger_balances),
    is_chain_valid ledger = Ok true ->
    dict_lookup "sender_id" tx = Some (VStr s) ->
    dict_lookup "receiver_id" tx = Some (VStr t) ->
    s <> EmptyString -> t <> EmptyString -> s <> t ->
    check_kyc self (VDict tx) = Ok false ->
    compute_balances ledger = Ok balances ->
    match evaluate_transaction self (store_evaluation fuel ledger now r)
            (VDict tx) external_id with
    | Ok (Recorded (ledger', _, _) result) =>
        py_getkey result "status" = Ok (VStr "rejected_kyc") /\
        exists balances' : ledger_balances,
          compute_balances ledger' = Ok balances' /\
          let amount := amount_or_zero (get_or tx "amount" (VInt 0)) in
          balance_get (VStr s) balances' float_zero
          = float_sub (balance_get (VStr s) balances float_zero) amount /\
          balance_get (VStr t) balances' float_zero
          = float_add (balance_get (VStr t) balances float_zero) amount /\
          forall w : value,
            py_eq w (VStr s) = false -> py_eq w (VStr t) = false ->
            balance_get w balances' float_zero = balance_get w balances float_zero
    | Ok (ToModel _) => False
    | Raise => False
    | Timeout => consensus ledger = "pow"
    end.
Proof.
  intros Hsig fuel self ledger now r tx external_id s t balances
    Hvalid Hs Ht Hs0 Ht0 Hst Hkyc Hbal.
  unfold evaluate_transaction. rewrite Hkyc. cbn [bind negb].
  set (result := update_rejection "rejected_kyc" "KYC verification failed"
                   (dict_set "kyc_ok" (VBool false)
                      [("external_id", external_id); ("transaction", VDict tx)])).
  pose proof (record_result fuel ledger now r result Hsig Hvalid) as H.
  destruct (store_evaluation _ _ _ _ _) as [[[l' fs'] blk]| |]; cbn [bind];
    [|exact H..].
  destruct H as ((bs & b & Hc & Hc' & -> & Hdata) & _ & _).
  split; [reflexivity|].
  unfold compute_balances in *. rewrite Hc in Hbal. rewrite Hc'.
  unfold blocks in *. cbn [py_iter bind] in *.
  rewrite map_app, balance_loop_app, Hbal. cbn [bind map balance_loop].
  assert (Htx : truthy (VDict tx) = true)
    by (destruct tx; [discriminate|reflexivity]).
  assert (Hstep :
    balance_step balances (VDict b)
    = Ok (balance_set (VStr t)
            (float_add
               (balance_get (VStr t)
                  (balance_set (VStr s)
                     (float_sub (balance_get (VStr s) balances float_zero)
                        (amount_or_zero (get_or tx "amount" (VInt 0))))
                     balances) float_zero)
               (amount_or_zero (get_or tx "amount" (VInt 0))))
            (balance_set (VStr s)
               (float_sub (balance_get (VStr s) balances float_zero)
                  (amount_or_zero (get_or tx "amount" (VInt 0))))
               balances))).
  { unfold balance_step. cbn [py_get]. rewrite Hdata. cbn [bind].
    unfold result at 1, update_rejection. cbn [py_or truthy dict_set String.eqb Ascii.eqb
                                         Bool.eqb py_get dict_lookup bind].
    change (match tx with [] => false | _ :: _ => true end)
      with (truthy (VDict tx)).
    unfold py_or. rewrite ?Htx. cbn [negb py_get bind]. rewrite Hs, Ht.
    cbn [bind]. unfold move_balance, get_or. cbn [truthy hashable].
    replace (String.eqb s EmptyString) with false
      by (symmetry; now apply String.eqb_neq).
    replace (String.eqb t EmptyString) with false
      by (symmetry; now apply String.eqb_neq).
    cbn [negb bind]. reflexivity. }
  rewrite Hstep. cbn [bind]. eexists. split; [reflexivity|].
  assert (Hts : py_eq (VStr t) (VStr s) = false)
    by (cbn [py_eq]; apply String.eqb_neq; congruence).
  assert (Hst' : py_eq (VStr s) (VStr t) = false)
    by (cbn [py_eq]; now apply String.eqb_neq).
  cbv zeta. repeat split.
  - rewrite balance_get_set_other by exact Hst'. apply balance_get_set_same.
  - rewrite balance_get_set_same. now rewrite balance_get_set_other by exact Hts.
  - intros w Hws Hwt. now rewrite !balance_get_set_other by assumption.
Qed.

Lemma refused_transaction_moves_balances_witness :
  match evaluate_transaction (AMLPipeline__init__ None)
          (store_evaluation 0 (Node "poa" (blocks poa_chain) [] 4 "demo key")
             1700000120 tt)
          (VDict demo_high_value) (VStr "tx-4") with
  | Ok (Recorded (ledger', _, _) result) =>
      get_balance ledger' (VStr "US67890") = Ok (SFopp (float_of_int 26000)) /\
      get_balance ledger' (VStr "UK54321") = Ok (float_of_int 26000)
  | _ => False
  end /\
  match evaluate_transaction (AMLPipeline__init__ None)
          (store_evaluation 0 (Node "poa" (blocks poa_chain) [] 4 "demo key")
             1700000120 tt)
          (VDict demo_high_value) (VStr "tx-4") with
  | Ok (Recorded (ledger', _, _) result) =>
      py_getkey result "status" = Ok (VStr "rejected_kyc") /\
      exists balances' : ledger_balances,
        compute_balances ledger' = Ok balances' /\
        let amount := amount_or_zero (get_or demo_high_value "amount" (VInt 0)) in
        balance_get (VStr "US67890") balances' float_zero
        = float_sub (balance_get (VStr "US67890") [] float_zero) amount /\
        balance_get (VStr "UK54321") balances' float_zero
        = float_add (balance_get (VStr "UK54321") [] float_zero) amount /\
        forall w : value,
          py_eq w (VStr "US67890") = false -> py_eq w (VStr "UK54321") = false ->
          balance_get w balances' float_zero = balance_get w [] float_zero
  | Ok (ToModel _) => False
  | Raise => False
  | Timeout => "poa" = "pow"
  end.
Proof.
  split; [vm_compute; split; reflexivity|].
  apply (refused_transaction_moves_balances demo_signer_correct 0
           (AMLPipeline__init__ None)
           (Node (Sg := demo_signer) "poa" (blocks poa_chain) [] 4 "demo key")
           1700000120 tt demo_high_value (VStr "tx-4") "US67890" "UK54321" []).
  - vm_compute. reflexivity.
  - reflexivity.
  - reflexivity.
  - discriminate.
  - discriminate.
  - discriminate.
  - reflexivity.
  - vm_compute. reflexivity.
Defined.

(** X18. One record that [compute_balances] cannot read disables every
    balance.  When a block names a list or a dict that is not empty as
    [sender_id] or [receiver_id] of its transaction, [compute_balances]
    raises (the wallet cannot be a key), and [get_balance] with it, for every
    wallet, however many good blocks come before and after. *)
Theorem unhashable_wallet_stops_balances {Sg : Signer} :
  forall (self : node) (before after : list value) (block data tx : dict)
         (wallet wallet_id : value) (balances : ledger_balances),
    chain self = VList (before ++ VDict block :: after) ->
    balance_loop [] before = Ok balances ->
    dict_lookup "data" block = Some (VDict data) ->
    dict_lookup "transaction" data = Some (VDict tx) ->
    get_or tx "sender_id" VNone = wallet \/
    ((truthy (get_or tx "sender_id" VNone) = false \/
      hashable (get_or tx "sender_id" VNone) = true) /\
     get_or tx "receiver_id" VNone = wallet) ->
    truthy wallet = true -> hashable wallet = false ->
    compute_balances self = Raise /\ get_balance self wallet_id = Raise.
Proof.
  intros self before after block data tx wallet wallet_id balances
    Hc Hbefore Hdata Htrans Hw Htruthy Hhash.
  assert (H : compute_balances self = Raise).
  { unfold compute_balances. rewrite Hc. cbn [py_iter bind].
    rewrite balance_loop_app, Hbefore. cbn [bind balance_loop].
    replace (balance_step balances (VDict block)) with (@Raise ledger_balances);
      [reflexivity|].
    symmetry. unfold balance_step. cbn [py_get]. rewrite Hdata. cbn [bind].
    rewrite (py_or_dict (VDict data)) by reflexivity.
    cbn [py_get]. rewrite Htrans. cbn [bind].
    rewrite (py_or_dict (VDict tx)) by reflexivity.
    assert (Htx : truthy (VDict tx) = true).
    { destruct tx; [|reflexivity]. unfold get_or in Hw. cbn in Hw.
      destruct Hw as [<-|[_ <-]]; discriminate. }
    rewrite Htx. cbn [negb py_get bind]. fold (get_or tx "sender_id" VNone).
    fold (get_or tx "receiver_id" VNone).
    destruct Hw as [Hw|[Hs Hw]].
    - rewrite Hw. unfold move_balance at 1. now rewrite Htruthy, Hhash.
    - rewrite Hw. unfold move_balance.
      destruct Hs as [Hs|Hs].
      + rewrite Hs. cbn [bind]. now rewrite Htruthy, Hhash.
      + rewrite Hs. destruct (truthy (get_or tx "sender_id" VNone)); cbn [bind];
          now rewrite Htruthy, Hhash. }
  split; [exact H|]. unfold get_balance. now rewrite H.
Qed.


Lemma unhashable_wallet_stops_balances_witness :
  compute_balances
    (Node "poa"
       (VList (map VDict poa_chain ++ VDict unreadable_record :: map VDict legacy_chain))
       [] 4 "demo key") = Raise /\
  get_balance
    (Node "poa"
       (VList (map VDict poa_chain ++ VDict unreadable_record :: map VDict legacy_chain))
       [] 4 "demo key") (VStr "UK54321") = Raise.
Proof.
  apply (unhashable_wallet_stops_balances
           (Node (Sg := demo_signer) "poa"
              (VList (map VDict poa_chain ++ VDict unreadable_record
                      :: map VDict legacy_chain))
              [] 4 "demo key")
           (map VDict poa_chain) (map VDict legacy_chain) unreadable_record
           [("external_id", VStr "tx-9");
            ("transaction",
             VDict [("sender_id", VList [VStr "US67890"]);
                    ("receiver_id", VStr "UK54321");
                    ("amount", VInt 5)])]
           [("sender_id", VList [VStr "US67890"]);
            ("receiver_id", VStr "UK54321"); ("amount", VInt 5)]
           (VList [VStr "US67890"]) (VStr "UK54321") []).
  - reflexivity.
  - vm_compute. reflexivity.
  - reflexivity.
  - reflexivity.
  - left. reflexivity.
  - reflexivity.
  - reflexivity.
Defined.

(** ** The risk heuristic *)

(** X19. The score of [assess_risk].  On anything but a dict it raises; on a
    dict it returns, with a score between 0 and 4.  For an amount and a speed
    that are integers, the score is 2 for an amount above 10000 (exactly: the
    conversion to a float does not blur the threshold), plus 1 for a speed
    below 2, plus 1 when the two countries differ, and the factors are listed
    in this order. *)
Theorem risk_score :
  (forall v : value, is_dict v = false -> assess_risk v = Raise) /\
  (forall tx : dict,
     exists (score : Z) (factors : list string),
       assess_risk (VDict tx) = Ok (score, factors) /\
       0 <= score <= 4 /\ (List.length factors <= 3)%nat) /\
  (forall (tx : dict) (z speed : Z),
     dict_lookup "amount" tx = Some (VInt z) ->
     Z.abs z < 2 ^ 1023 ->
     dict_lookup "transaction_speed" tx = Some (VInt speed) ->
     let cross :=
       negb (py_eq (get_or tx "sender_country" VNone)
                   (get_or tx "receiver_country" VNone)) in
     assess_risk (VDict tx)
     = Ok ((if 10000 <? z then 2 else 0) + (if speed <? 2 then 1 else 0)
           + (if cross then 1 else 0),
           (if 10000 <? z then ["High Amount"] else [])
           ++ (if speed <? 2 then ["Very Fast Transaction"] else [])
           ++ (if cross then ["Cross-Border"] else []))%list).
Proof.
  split; [|split].
  - intros v Hv. destruct v; try discriminate; unfold assess_risk;
      cbn [py_get bind]; destruct (float_gt _ _); reflexivity.
  - intros tx. unfold assess_risk. cbn [py_get bind].
    destruct (float_gt _ _);
      destruct (match py_int _ with Ok n => n | _ => 3 end <? 2);
      destruct (negb _); eexists _, _; (split; [reflexivity|]); cbn; lia.
  - intros tx z speed Hz Hsmall Hspeed cross. unfold assess_risk.
    cbn [py_get bind]. rewrite Hz, Hspeed. cbn [py_float py_int].
    pose proof (float_gt_of_int 10000 z ltac:(cbn; lia)) as H.
    assert (Hgt : float_gt (match float_of_int z with
                            | S754_infinity _ => float_zero
                            | f => f
                            end) (float_of_int 10000) = (10000 <? z)).
    { destruct (float_of_int z); try exact H. lia. }
    replace (match match float_of_int z with
                   | S754_infinity _ => FloatOverflowError
                   | f => FloatOk f
                   end with
             | FloatOk f => f
             | _ => float_zero
             end)
      with (match float_of_int z with S754_infinity _ => float_zero | f => f end)
      by (destruct (float_of_int z); reflexivity).
    rewrite Hgt. fold (get_or tx "sender_country" VNone).
    fold (get_or tx "receiver_country" VNone). fold cross.
    destruct (10000 <? z), (speed <? 2), cross; reflexivity.
Qed.

Lemma risk_score_witness :
  assess_risk
    (VDict [ ("amount", VInt 5000); ("sender_balance", VInt 20000);
             ("receiver_balance", VInt 15000); ("transaction_speed", VInt 2);
             ("sender_country", VStr "IN"); ("receiver_country", VStr "US");
             ("sender_id", VStr "IN12345"); ("receiver_id", VStr "US67890") ])
  = Ok (1, ["Cross-Border"]).
Proof.
  exact (proj2 (proj2 risk_score)
           [ ("amount", VInt 5000); ("sender_balance", VInt 20000);
             ("receiver_balance", VInt 15000); ("transaction_speed", VInt 2);
             ("sender_country", VStr "IN"); ("receiver_country", VStr "US");
             ("sender_id", VStr "IN12345"); ("receiver_id", VStr "US67890") ]
           5000 2 eq_refl eq_refl eq_refl).
Defined.

(** ** The most recent blocks of the other ledger *)

(** X20. [Blockchain.recent] of [transaction_fraud_checker.py] returns the
    newest block first: for a positive limit, the first [limit] blocks of the
    chain read backwards (all of them, if there are fewer).  With limit 0 it
    returns the whole chain backwards, not an empty list. *)
Theorem other_ledger_recent :
  forall (l : list value) (limit : Z),
    (0 < limit ->
     Blockchain_recent (VList l) limit
     = Ok (VList (firstn (Z.to_nat limit) (rev l)))) /\
    Blockchain_recent (VList l) 0 = Ok (VList (rev l)).
Proof.
  intros l limit. split.
  - intros Hl. unfold Blockchain_recent. rewrite slice_last_positive by exact Hl.
    now rewrite firstn_rev.
  - unfold Blockchain_recent, slice_last. cbn [Z.opp Z.ltb Z.compare].
    replace (Z.min 0 (Z.of_nat (List.length l))) with 0 by lia. reflexivity.
Qed.

(** ** Sums of floats of integers *)

Section ExactSums.

Lemma digits2_shift (c p : positive) (k : Z) :
  0 <= k -> Zpos p = Zpos c * 2 ^ k ->
  Zpos (digits2_pos p) = Zpos (digits2_pos c) + k.
Proof.
  intros Hk Hp. apply digits2_unique. rewrite Hp.
  pose proof (digits2_bounds c) as [Clo Chi].
  set (d := Zpos (digits2_pos c)) in *.
  replace (d + k - 1) with ((d - 1) + k) by lia.
  rewrite !Z.pow_add_r by lia.
  assert (0 < 2 ^ k) by (apply Z.pow_pos_nonneg; lia). nia.
Qed.

Lemma shr_1_exact (m : Z) :
  0 <= m -> Z.even m = true ->
  shr_1 {| shr_m := m; shr_r := false; shr_s := false |}
  = {| shr_m := m / 2; shr_r := false; shr_s := false |}.
Proof.
  intros Hm He. destruct m as [|[p|p|]|p]; try lia; try discriminate; cbn [shr_1 orb].
  - reflexivity.
  - f_equal. rewrite Pos2Z.inj_xO. apply Z.div_unique with (r := 0); lia.
Qed.

Lemma shr_iter_exact (k : positive) :
  forall m : Z,
    0 <= m -> (2 ^ Zpos k | m) ->
    iter_pos shr_1 k {| shr_m := m; shr_r := false; shr_s := false |}
    = {| shr_m := m / 2 ^ Zpos k; shr_r := false; shr_s := false |}.
Proof.
  assert (Hdiv : forall (a b m : Z), 0 <= a -> 0 <= b -> (2 ^ (a + b) | m) ->
                   (2 ^ a | m) /\ (2 ^ b | m / 2 ^ a)).
  { intros a b m Ha Hb [q Hq]. rewrite Z.pow_add_r in Hq by lia.
    assert (0 < 2 ^ a) by (apply Z.pow_pos_nonneg; lia).
    split.
    - exists (q * 2 ^ b). lia.
    - exists q. subst m.
      replace (q * (2 ^ a * 2 ^ b)) with (q * 2 ^ b * 2 ^ a) by lia.
      rewrite Z.div_mul by lia. reflexivity. }
  assert (Heven : forall m, (2 ^ 1 | m) -> Z.even m = true).
  { intros m [q ->]. rewrite Z.even_mul. cbn. now rewrite orb_true_r. }
  induction k as [k IH|k IH|]; intros m Hm Hk; cbn [iter_pos].
  - replace (Zpos k~1) with (1 + (Zpos k + Zpos k)) in * by lia.
    destruct (Hdiv 1 (Zpos k + Zpos k) m ltac:(lia) ltac:(lia) Hk) as [H1 H2].
    rewrite shr_1_exact by (try apply Heven; assumption).
    change (2 ^ 1) with 2 in H2.
    destruct (Hdiv (Zpos k) (Zpos k) (m / 2) ltac:(lia) ltac:(lia) H2) as [H3 H4].
    rewrite IH by (try apply Z.div_pos; (assumption || lia)).
    rewrite IH by (try apply Z.div_pos; try apply Z.pow_pos_nonneg;
                   try apply Z.div_pos; (assumption || lia)).
    f_equal. rewrite !Z.div_div by (try apply Z.pow_pos_nonneg; lia).
    f_equal. rewrite !Z.pow_add_r by lia. change (2 ^ 1) with 2. lia.
  - replace (Zpos k~0) with (Zpos k + Zpos k) in * by lia.
    destruct (Hdiv (Zpos k) (Zpos k) m ltac:(lia) ltac:(lia) Hk) as [H3 H4].
    rewrite IH by assumption.
    rewrite IH by (try apply Z.div_pos; try apply Z.pow_pos_nonneg; (assumption || lia)).
    f_equal. rewrite !Z.div_div by (try apply Z.pow_pos_nonneg; lia).
    f_equal. rewrite !Z.pow_add_r by lia. lia.
  - apply shr_1_exact; [exact Hm|]. now apply Heven.
Qed.

(** Rounding [p * 2 ^ e] gives the float of the integer [c] that it is, when
    [c] has at most 53 bits. *)
Lemma binary_round_exact (s : bool) (p c : positive) (e : Z) :
  e <= 0 -> Zpos p = Zpos c * 2 ^ (- e) ->
  Zpos (digits2_pos c) <= 53 ->
  binary_round 53 1024 s p e = binary_round 53 1024 s c 0.
Proof.
  intros He Hp Hc.
  destruct (binary_round_small s c Hc) as (mc & -> & Hmc).
  pose proof (digits2_shift c p (- e) ltac:(lia) Hp) as Hdp.
  set (dc := Zpos (digits2_pos c)) in *.
  assert (Hdc : 0 < dc) by (unfold dc; lia).
  unfold binary_round.
  assert (Hf : fexp 53 1024 (Zpos (digits2_pos p) + e) = dc - 53)
    by (rewrite Hdp; unfold fexp, emin; lia).
  rewrite Hf.
  assert (Hdm : Zpos (digits2_pos mc) = 53).
  { rewrite (digits2_shift c mc (53 - dc)) by (lia || assumption). fold dc. lia. }
  assert (Hs : forall l, shr_fexp 53 1024 (Zpos mc) (dc - 53) l
                         = (shr_record_of_loc (Zpos mc) l, dc - 53)).
  { intros l. unfold shr_fexp. cbn [Zdigits2]. rewrite Hdm.
    replace (fexp 53 1024 (53 + (dc - 53)) - (dc - 53)) with 0
      by (unfold fexp, emin; lia).
    reflexivity. }
  assert (Hfin : forall m : positive,
             Zpos m = Zpos c * 2 ^ (53 - dc) ->
             binary_round_aux 53 1024 s (Zpos m) (dc - 53) loc_Exact
             = S754_finite s mc (dc - 53)).
  { intros m Hm.
    assert (m = mc) by (apply Pos2Z.inj; congruence). subst m.
    unfold binary_round_aux.
    rewrite Hs. cbn [shr_record_of_loc shr_m loc_of_shr_record round_nearest_even].
    rewrite Hs. cbn [shr_record_of_loc shr_m].
    destruct (Z.leb_spec (dc - 53) (1024 - 53)); [reflexivity|lia]. }
  unfold shl_align. destruct (dc - 53 - e) as [|k|k] eqn:Ek.
  - replace e with (dc - 53) by lia. apply Hfin. rewrite Hp. f_equal. f_equal. lia.
  - (* the mantissa has more than 53 bits: it is shifted to the right *)
    unfold binary_round_aux.
    assert (Hk : Zpos k <= - e) by lia.
    assert (Hdivk : (2 ^ Zpos k | Zpos p)).
    { exists (Zpos c * 2 ^ (- e - Zpos k)). rewrite Hp, <- Z.mul_assoc.
      rewrite <- Z.pow_add_r by lia. f_equal. f_equal. lia. }
    assert (Hq : Zpos p / 2 ^ Zpos k = Zpos mc).
    { rewrite Hmc, Hp.
      replace (- e) with ((53 - dc) + Zpos k) by lia.
      rewrite Z.pow_add_r, Z.mul_assoc by lia.
      apply Z.div_mul. apply Z.pow_nonzero; lia. }
    assert (Hs1 : shr_fexp 53 1024 (Zpos p) e loc_Exact
                  = ({| shr_m := Zpos mc; shr_r := false; shr_s := false |}, dc - 53)).
    { unfold shr_fexp. cbn [Zdigits2]. rewrite Hf, Ek. cbn [shr shr_record_of_loc].
      rewrite shr_iter_exact by (lia || assumption). rewrite Hq. f_equal. lia. }
    rewrite Hs1. cbn [shr_m loc_of_shr_record round_nearest_even].
    rewrite Hs. cbn [shr_record_of_loc shr_m].
    destruct (Z.leb_spec (dc - 53) (1024 - 53)); [reflexivity|lia].
  - replace (dc - 53) with (e + Zneg k) by lia.
    replace (e + Zneg k) with (dc - 53) by lia.
    apply Hfin. rewrite iter_xO, Hp, <- Z.mul_assoc, <- Z.pow_add_r by lia.
    f_equal. f_equal. lia.
Qed.

Lemma small_digits (c : positive) : Zpos c < 2 ^ 53 -> Zpos (digits2_pos c) <= 53.
Proof.
  intros H. pose proof (digits2_bounds c) as [Lo _].
  destruct (Z.le_gt_cases (Zpos (digits2_pos c)) 53) as [|Hgt]; [assumption|].
  assert (2 ^ 53 <= 2 ^ (Zpos (digits2_pos c) - 1)) by (apply Z.pow_le_mono_r; lia).
  lia.
Qed.

(** The float of a non-float_zero integer below [2 ^ 53]: its sign, and a mantissa
    of 53 bits. *)
Lemma float_of_int_shape (z : Z) :
  z <> 0 -> Z.abs z < 2 ^ 53 ->
  exists (m : positive) (e : Z),
    float_of_int z = S754_finite (z <? 0) m e /\
    e <= 0 /\ Zpos m = Z.abs z * 2 ^ (- e).
Proof.
  intros Hz Hs. unfold float_of_int, binary_normalize.
  destruct z as [|p|p]; [congruence| |].
  - destruct (binary_round_small false p (small_digits p Hs)) as (m & Hm & Hv).
    pose proof (small_digits p Hs).
    exists m, (Zpos (digits2_pos p) - 53). split; [exact Hm|]. split; [lia|].
    rewrite Hv. cbn [Z.abs]. f_equal. f_equal. lia.
  - destruct (binary_round_small true p (small_digits p Hs)) as (m & Hm & Hv).
    pose proof (small_digits p Hs).
    exists m, (Zpos (digits2_pos p) - 53). split; [exact Hm|]. split; [lia|].
    rewrite Hv. cbn [Z.abs]. f_equal. f_equal. lia.
Qed.

Lemma float_of_int_opp (z : Z) :
  z <> 0 -> Z.abs z < 2 ^ 53 -> float_of_int (- z) = SFopp (float_of_int z).
Proof.
  intros Hz Hs. unfold float_of_int, binary_normalize.
  destruct z as [|p|p]; cbn [Z.opp]; [congruence| |];
    destruct (binary_round_small true p (small_digits p Hs)) as (m & -> & Hv);
    destruct (binary_round_small false p (small_digits p Hs)) as (m' & -> & Hv');
    cbn [SFopp negb]; f_equal; apply Pos2Z.inj; congruence.
Qed.

Lemma normalize_exact (M c e : Z) :
  e <= 0 -> M = c * 2 ^ (- e) -> Z.abs c < 2 ^ 53 ->
  binary_normalize 53 1024 M e false = float_of_int c.
Proof.
  intros He HM Hc.
  assert (H2 : 0 < 2 ^ (- e)) by (apply Z.pow_pos_nonneg; lia).
  unfold float_of_int, binary_normalize.
  destruct c as [|c|c].
  - now subst M.
  - destruct M as [|p|p]; try nia.
    apply binary_round_exact; [lia|exact HM|apply small_digits; lia].
  - destruct M as [|p|p]; try nia.
    apply binary_round_exact; [lia| |apply small_digits; lia].
    change (Zneg p) with (- Zpos p) in HM. change (Zneg c) with (- Zpos c) in HM. lia.
Qed.

Lemma shl_align_value (m : positive) (A e ez : Z) :
  ez <= e -> e <= 0 -> Zpos m = A * 2 ^ (- e) ->
  Zpos (fst (shl_align m e ez)) = A * 2 ^ (- ez).
Proof.
  intros H1 H2 Hm. unfold shl_align.
  destruct (ez - e) as [|k|k] eqn:Ek; cbn [fst]; try lia.
  - replace ez with e by lia. exact Hm.
  - rewrite iter_xO, Hm, <- Z.mul_assoc, <- Z.pow_add_r by lia.
    f_equal. f_equal. lia.
Qed.

Lemma cond_Zopp_abs (z x : Z) : cond_Zopp (z <? 0) (Z.abs z * x) = z * x.
Proof. destruct (Z.ltb_spec z 0); cbn [cond_Zopp]; lia. Qed.

(** Sums and differences of integers below [2 ^ 53] are exact. *)
Lemma float_add_exact (a b : Z) :
  Z.abs a < 2 ^ 53 -> Z.abs b < 2 ^ 53 -> Z.abs (a + b) < 2 ^ 53 ->
  float_add (float_of_int a) (float_of_int b) = float_of_int (a + b).
Proof.
  intros Ha Hb Hab. unfold float_add.
  destruct (Z.eq_dec a 0) as [->|Na]; destruct (Z.eq_dec b 0) as [->|Nb];
    try destruct (float_of_int_shape a Na Ha) as (ma & ea & Ea & Hea & Hma);
    try destruct (float_of_int_shape b Nb Hb) as (mb & eb & Eb & Heb & Hmb);
    rewrite ?Z.add_0_l, ?Z.add_0_r;
    change (float_of_int 0) with (S754_zero false).
  - reflexivity.
  - rewrite Eb. reflexivity.
  - rewrite Ea. reflexivity.
  - rewrite Ea, Eb. cbn [SFadd].
    rewrite (shl_align_value ma (Z.abs a) ea (Z.min ea eb)) by (lia || assumption).
    rewrite (shl_align_value mb (Z.abs b) eb (Z.min ea eb)) by (lia || assumption).
    rewrite !cond_Zopp_abs. apply normalize_exact; [lia|lia|assumption].
Qed.

Lemma float_sub_exact (a b : Z) :
  Z.abs a < 2 ^ 53 -> Z.abs b < 2 ^ 53 -> Z.abs (a - b) < 2 ^ 53 ->
  float_sub (float_of_int a) (float_of_int b) = float_of_int (a - b).
Proof.
  intros Ha Hb Hab. unfold float_sub.
  destruct (Z.eq_dec a 0) as [->|Na]; destruct (Z.eq_dec b 0) as [->|Nb];
    try destruct (float_of_int_shape a Na Ha) as (ma & ea & Ea & Hea & Hma);
    try destruct (float_of_int_shape b Nb Hb) as (mb & eb & Eb & Heb & Hmb);
    rewrite ?Z.sub_0_l, ?Z.sub_0_r;
    change (float_of_int 0) with (S754_zero false).
  - reflexivity.
  - rewrite float_of_int_opp, Eb by assumption. reflexivity.
  - rewrite Ea. reflexivity.
  - rewrite Ea, Eb. cbn [SFsub].
    rewrite (shl_align_value ma (Z.abs a) ea (Z.min ea eb)) by (lia || assumption).
    rewrite (shl_align_value mb (Z.abs b) eb (Z.min ea eb)) by (lia || assumption).
    rewrite !cond_Zopp_abs. apply normalize_exact; [lia|lia|assumption].
Qed.

End ExactSums.

Section Exact.

Lemma turnover_nonneg (ts : list (option transfer)) : 0 <= turnover ts.
Proof. induction ts as [|[x|] ts IH]; cbn [turnover]; lia. Qed.

Lemma amount_of_int (a : Z) :
  Z.abs a < 2 ^ 53 -> amount_or_zero (VInt a) = float_of_int a.
Proof.
  intros Ha. unfold amount_or_zero.
  assert (E : py_float (py_or (VInt a) (VInt 0)) = FloatOk (float_of_int a)).
  { destruct (Z.eq_dec a 0) as [->|Na]; [reflexivity|].
    unfold py_or. cbn [truthy]. replace (a =? 0) with false by (symmetry; now apply Z.eqb_neq).
    cbn [negb py_float].
    destruct (float_of_int_shape a Na Ha) as (m & e & -> & _). reflexivity. }
  now rewrite E.
Qed.

(** One block: every wallet's balance stays the float of a whole number. *)
Lemma balance_step_exact (balances : ledger_balances) (block : value)
    (o : option transfer) (base : string -> Z) (bound : Z) :
  carries block o ->
  (forall w, balance_get (VStr w) balances float_zero = float_of_int (base w)) ->
  (forall w, Z.abs (base w) <= bound) ->
  bound + turnover [o] < 2 ^ 53 ->
  exists balances',
    balance_step balances block = Ok balances' /\
    forall w, balance_get (VStr w) balances' float_zero
              = float_of_int (base w + net w [o]).
Proof.
  intros Hc Hb Hbound Hsmall. destruct Hc as [block d t Hd Ht Hf|block data tx s t a Hd Ht Hs Hr Ha Hs0 Ht0].
  - exists balances. split.
    + unfold balance_step. rewrite Hd. cbn [bind]. rewrite Ht. cbn [bind].
      unfold py_or at 1. rewrite Hf. reflexivity.
    + intros w. cbn [net]. now rewrite Z.add_0_r.
  - cbn [turnover paid] in Hsmall.
    assert (Hbs := Hbound s). assert (Hbt := Hbound t).
    assert (Htx : truthy (VDict tx) = true) by (destruct tx; [discriminate|reflexivity]).
    assert (Hdata : truthy (VDict data) = true) by (destruct data; [discriminate|reflexivity]).
    eexists. split.
    + unfold balance_step. cbn [py_get]. rewrite Hd. cbn [bind].
      rewrite (py_or_dict (VDict data)) by reflexivity.
      cbn [py_get]. rewrite Ht. cbn [bind].
      rewrite (py_or_dict (VDict tx)) by reflexivity.
      rewrite Htx. cbn [negb py_get bind]. rewrite Hs, Hr, Ha. cbn [bind].
      unfold move_balance. cbn [truthy hashable].
      replace (String.eqb s EmptyString) with false by (symmetry; now apply String.eqb_neq).
      replace (String.eqb t EmptyString) with false by (symmetry; now apply String.eqb_neq).
      cbn [negb bind]. reflexivity.
    + intros w. cbn [net payee payer paid]. rewrite Z.add_0_r.
      rewrite amount_of_int by lia.
      destruct (String.eqb_spec t w) as [->|Ntw].
      * rewrite balance_get_set_same.
        destruct (String.eqb_spec s w) as [->|Nsw].
        -- rewrite balance_get_set_same, Hb.
           rewrite float_sub_exact, float_add_exact by lia. f_equal; lia.
        -- rewrite balance_get_set_other
             by (cbn [py_eq]; apply String.eqb_neq; congruence).
           rewrite Hb, float_add_exact by lia. f_equal; lia.
      * rewrite balance_get_set_other
          by (cbn [py_eq]; apply String.eqb_neq; congruence).
        destruct (String.eqb_spec s w) as [->|Nsw].
        -- rewrite balance_get_set_same, Hb, float_sub_exact by lia. f_equal; lia.
        -- rewrite balance_get_set_other
             by (cbn [py_eq]; apply String.eqb_neq; congruence).
           rewrite Hb. f_equal; lia.
Qed.

Lemma balance_loop_exact (l : list value) :
  forall (ts : list (option transfer)) (balances : ledger_balances)
         (base : string -> Z) (bound : Z),
    Forall2 carries l ts ->
    (forall w, balance_get (VStr w) balances float_zero = float_of_int (base w)) ->
    (forall w, Z.abs (base w) <= bound) ->
    bound + turnover ts < 2 ^ 53 ->
    exists balances',
      balance_loop balances l = Ok balances' /\
      forall w, balance_get (VStr w) balances' float_zero
                = float_of_int (base w + net w ts).
Proof.
  induction l as [|block l IH]; intros ts balances base bound Hl Hb Hbound Hsmall;
    inversion Hl as [|? o ? ts' Hc Hrest]; subst.
  - exists balances. split; [reflexivity|]. intros w. cbn [net]. now rewrite Z.add_0_r.
  - pose proof (turnover_nonneg ts') as Hn.
    assert (Ho : turnover (o :: ts') = turnover [o] + turnover ts')
      by (destruct o; cbn [turnover]; lia).
    rewrite Ho in Hsmall.
    destruct (balance_step_exact balances block o base bound Hc Hb Hbound ltac:(lia))
      as (b1 & E1 & H1).
    destruct (IH ts' b1 (fun w => base w + net w [o]) (bound + turnover [o])
                Hrest H1) as (b2 & E2 & H2).
    + intros w. pose proof (Hbound w).
      destruct o as [x|]; cbn [net turnover]; [|lia].
      destruct (String.eqb (payee x) w), (String.eqb (payer x) w); lia.
    + lia.
    + exists b2. split; [cbn [balance_loop]; rewrite E1; exact E2|].
      intros w. rewrite H2. f_equal.
      destruct o; cbn [net]; lia.
Qed.

End Exact.

(** X21. Balances of whole amounts are exact.  On a chain whose blocks each
    carry no transaction or one with texts that are not empty as sender and
    receiver and a whole number as amount, where the amounts without their
    signs add up to less than [2 ^ 53], [get_balance] returns for every
    wallet the float of what it received less what it sent. *)
Theorem whole_balances_exact {Sg : Signer} :
  forall (self : node) (l : list value) (ts : list (option transfer)) (w : string),
    chain self = VList l ->
    Forall2 carries l ts ->
    turnover ts < 2 ^ 53 ->
    get_balance self (VStr w) = Ok (float_of_int (net w ts)).
Proof.
  intros self l ts w Hc Hl Hsmall.
  destruct (balance_loop_exact l ts [] (fun _ => 0) 0 Hl) as (b & E & H).
  - intros w'. reflexivity.
  - intros w'. cbn. lia.
  - lia.
  - unfold get_balance, compute_balances. rewrite Hc. cbn [py_iter bind].
    rewrite E. cbn [bind hashable]. now rewrite H.
Qed.

Lemma whole_balances_exact_witness :
  net "UK54321" [None; None; Some (Transfer "US67890" "UK54321" 26000)] = 26000 /\
  get_balance (Node "poa" (blocks audit_chain) [] 4 "demo key") (VStr "UK54321")
  = Ok (float_of_int
          (net "UK54321" [None; None; Some (Transfer "US67890" "UK54321" 26000)])).
Proof.
  split; [reflexivity|].
  apply (whole_balances_exact
           (Node (Sg := demo_signer) "poa" (blocks audit_chain) [] 4 "demo key")
           (map VDict audit_chain)
           [None; None; Some (Transfer "US67890" "UK54321" 26000)] "UK54321").
  - reflexivity.
  - repeat constructor.
    + eapply carries_nothing; reflexivity.
    + eapply carries_nothing; reflexivity.
    + eapply carries_transfer; (reflexivity || discriminate).
  - vm_compute. reflexivity.
Defined.
